(** * escalasmedicas: the schedule store and query layer of [server.js]

    A shallow embedding of the Express routes of [server.js], of the two
    helpers they share ([readData], [saveData]) and of
    [getSpecialtyFromOfficeId], followed by the properties proved of them.

    The routes work on the values [JSON.parse] produces, so the embedding
    starts with these values and with the part of JavaScript's object model
    the routes rely on: truthiness, the order of an object's own properties,
    the properties every object inherits from [Object.prototype], assignment
    and [delete].

    What the embedding takes for granted:
    - requests are handled one after the other;
    - when a request starts, the built-in objects are as the language
      defines them: [Object.prototype] holds its twelve standard names and
      nothing else;
    - the keys and the query a request carries are strings or missing, and
      a string is a sequence of 8-bit characters;
    - a number is kept as an integer that stands for the double nearest to
      it; a double that is no integer goes through the routes as any finite
      number other than zero does;
    - [JSON.parse] reads in the text [JSON.stringify] writes the value that
      was written, but for [Infinity] and [-Infinity], which are written as
      [null]; [res.json] sends its argument as [JSON.stringify] writes it;
    - a write that fails leaves the file as it was. *)

From Stdlib Require Import List String Ascii ZArith NArith Bool Lia.
Import ListNotations.
Open Scope string_scope.
Set Warnings "-register-all".

(** ** JSON values *)

(** What [JSON.parse] returns. A number is a double; the routes test it for
    being zero, hand it on and write it, and nothing else. It is kept as an
    integer [n] that stands for the double nearest to [n], which is
    [Infinity] or [-Infinity] when [n] is beyond the range of a double (see
    [isFinite]); above 2^53 several integers stand for one double. An object
    is the list of its own properties, in property order. *)
Inductive json : Type :=
| JNull
| JBool (b : bool)
| JNum (n : Z)
| JStr (s : string)
| JArr (items : list json)
| JObj (props : list (string * json)).

(** [!v] is false. *)
Definition truthy (v : json) : bool :=
  match v with
  | JNull => false
  | JBool b => b
  | JNum n => negb (n =? 0)%Z
  | JStr s => negb (s =? "")
  | JArr _ | JObj _ => true
  end.

(** ** Objects: own properties in property order *)

Module Obj.

Definition t (A : Type) : Type := list (string * A).

Definition keys {A} (o : t A) : list string := map fst o.

Fixpoint get {A} (o : t A) (k : string) : option A :=
  match o with
  | [] => None
  | (k', a) :: rest => if k =? k' then Some a else get rest k
  end.

Definition has {A} (o : t A) (k : string) : bool :=
  match get o k with Some _ => true | None => false end.

(** [delete o[k]] *)
Fixpoint delete {A} (o : t A) (k : string) : t A :=
  match o with
  | [] => []
  | (k', a) :: rest => if k =? k' then delete rest k else (k', a) :: delete rest k
  end.

(** Writing an own property that exists keeps its place. *)
Fixpoint replace {A} (o : t A) (k : string) (a : A) : t A :=
  match o with
  | [] => []
  | (k', a') :: rest => if k =? k' then (k', a) :: rest else (k', a') :: replace rest k a
  end.

Definition digit (c : ascii) : option N :=
  let n := N_of_ascii c in
  if ((48 <=? n) && (n <=? 57))%N then Some (n - 48)%N else None.

Fixpoint decimal (s : string) (acc : N) : option N :=
  match s with
  | EmptyString => Some acc
  | String c rest =>
      match digit c with
      | Some d => decimal rest (10 * acc + d)%N
      | None => None
      end
  end.

(** An array index: the canonical decimal writing of an integer below
    2^32 - 1. Own properties named by an array index come first in property
    order, by ascending value. *)
Definition array_index (k : string) : option N :=
  match k with
  | EmptyString => None
  | String "0" EmptyString => Some 0%N
  | String "0" _ => None
  | _ =>
      match decimal k 0 with
      | Some n => if (n <? 4294967295)%N then Some n else None
      | None => None
      end
  end.

(** Does a new property [k] go before the existing property [k']? *)
Definition precedes (k k' : string) : bool :=
  match array_index k, array_index k' with
  | Some i, Some j => (i <? j)%N
  | Some _, None => true
  | None, _ => false
  end.

(** Creating an own property: an array index goes to its place among the
    array indices, any other name goes last. *)
Fixpoint create {A} (o : t A) (k : string) (a : A) : t A :=
  match o with
  | [] => [(k, a)]
  | (k', a') :: rest =>
      if precedes k k' then (k, a) :: (k', a') :: rest
      else (k', a') :: create rest k a
  end.

(** May [k'] come right after [k]? *)
Definition in_order (k k' : string) : bool :=
  match array_index k, array_index k' with
  | Some i, Some j => (i <=? j)%N
  | Some _, None => true
  | None, Some _ => false
  | None, None => true
  end.

(** The own properties of an object [JSON.parse] built: no name twice,
    array indices first and ascending. *)
Fixpoint ordered (ks : list string) : bool :=
  match ks with
  | [] => true
  | k :: rest =>
      match rest with
      | [] => true
      | k' :: _ => in_order k k' && ordered rest
      end
  end.

Definition well_formed {A} (o : t A) : Prop :=
  NoDup (keys o) /\ ordered (keys o) = true.

(** The same own properties, in the same order, each value through [f]. *)
Definition map {A B} (f : A -> B) (o : t A) : t B :=
  List.map (fun p => (fst p, f (snd p))) o.

End Obj.

(** ** Numbers beyond the range of a double *)

(** [JSON.parse] reads a numeral as the double nearest to it, and from
    2^1024 - 2^970 on as [Infinity] (as [-Infinity] below zero): [1e400] is
    such a numeral. [isFinite n] tells whether the number [JNum n] stands
    for is a finite double. The two infinities are truthy. *)
Definition isFinite (n : Z) : bool := (Z.abs n <? 2 ^ 1024 - 2 ^ 970)%Z.
Arguments isFinite : simpl never.

(** What [JSON.parse] reads in the text [JSON.stringify(v)]: the value [v]
    with [null] in place of every number that is not finite, at every
    depth. *)
Fixpoint stringified (v : json) : json :=
  match v with
  | JNum n => if isFinite n then JNum n else JNull
  | JArr items => JArr (List.map stringified items)
  | JObj props => JObj (Obj.map stringified props)
  | _ => v
  end.

(** [res.json] sends its argument as [JSON.stringify] writes it; a field
    that is [undefined] is left out. *)
Definition res_json (v : option json) : option json := option_map stringified v.

(** No number in [v] is [Infinity] or [-Infinity]. *)
Fixpoint all_finite (v : json) : bool :=
  match v with
  | JNum n => isFinite n
  | JArr items => forallb all_finite items
  | JObj props => forallb (fun p => all_finite (snd p)) props
  | _ => true
  end.

(** ** Properties inherited from [Object.prototype] *)

(** The names every ordinary object answers to without owning them. Each one
    reads as a function, except ["__proto__"], which reads as the prototype
    itself: all of them are truthy. *)
Definition object_prototype : list string :=
  [ "constructor"; "__defineGetter__"; "__defineSetter__"; "hasOwnProperty";
    "__lookupGetter__"; "__lookupSetter__"; "isPrototypeOf";
    "propertyIsEnumerable"; "toString"; "valueOf"; "__proto__";
    "toLocaleString" ].

Definition inherited (k : string) : bool :=
  existsb (String.eqb k) object_prototype.

(** What reading [o[k]] finds. *)
Inductive property (A : Type) : Type :=
| Undefined
| Own (a : A)
| Inherited.
Arguments Undefined {A}.
Arguments Own {A} a.
Arguments Inherited {A}.

Definition lookup {A} (o : Obj.t A) (k : string) : property A :=
  match Obj.get o k with
  | Some a => Own a
  | None => if inherited k then Inherited else Undefined
  end.

(** [o[k] = a]. An own property is overwritten in place. Otherwise the
    name ["__proto__"] reaches the setter of [Object.prototype], which
    changes the prototype and creates no own property; every other name
    creates one. *)
Definition assign {A} (o : Obj.t A) (k : string) (a : A) : Obj.t A :=
  if Obj.has o k then Obj.replace o k a
  else if k =? "__proto__" then o
  else Obj.create o k a.

(** ** Calls that return or throw, and statements that leave the model *)

(** A call either returns or throws; [await] of a rejected promise throws. *)
Inductive attempt (A : Type) : Type :=
| Returned (a : A)
| Threw.
Arguments Returned {A} a.
Arguments Threw {A}.

(** [try { body } catch (error) { handler }] *)
Definition try_catch {A} (body : attempt A) (handler : attempt A) : attempt A :=
  match body with
  | Returned a => Returned a
  | Threw => handler
  end.

Definition and_then {A B} (first : attempt A) (next : A -> attempt B) : attempt B :=
  match first with
  | Returned a => next a
  | Threw => Threw
  end.

(** How a run of statements over an object ends.
    - [Done a]: they ran to their end and left [a].
    - [Throws]: one of them threw a [TypeError].
    - [Leaves a]: a key resolved to a property inherited from
      [Object.prototype], and the statements that follow read and write that
      built-in object, which is not followed here. The object at hand holds
      [a] by then and is not written again.
    - [Unmodelled]: a key was looked up in an array, a string, a number or a
      boolean, whose own and inherited properties are not modelled. *)
Inductive run (A : Type) : Type :=
| Done (a : A)
| Throws
| Leaves (a : A)
| Unmodelled.
Arguments Done {A} a.
Arguments Throws {A}.
Arguments Leaves {A} a.
Arguments Unmodelled {A}.

(** ** The data file *)

(** A text is known by what [JSON.parse] makes of it. *)
Inductive text : Type :=
| Malformed
| Encodes (v : json).

Inductive file : Type :=
| Absent
| Unreadable
| Content (t : text).

(** [medical_schedule_data.json], and whether it can be written. *)
Record disk : Type := { DATA_FILE : file; writable : bool }.

Definition readFile (d : disk) : attempt text :=
  match DATA_FILE d with
  | Content t => Returned t
  | Absent | Unreadable => Threw
  end.

Definition JSON_parse (t : text) : attempt json :=
  match t with
  | Encodes v => Returned v
  | Malformed => Threw
  end.

Definition JSON_stringify (v : json) : text := Encodes (stringified v).

Definition writeFile (d : disk) (t : text) : attempt disk :=
  if writable d then Returned {| DATA_FILE := Content t; writable := true |}
  else Threw.

Definition empty_document (now : string) : json :=
  JObj [("medicalSchedule", JObj []); ("lastUpdated", JStr now)].

(** [readData], lines 18-26; [now] is [new Date().toISOString()]. *)
Definition readData (now : string) (d : disk) : attempt json :=
  try_catch
    (and_then (readFile d) JSON_parse)
    (Returned (empty_document now)).

(** [data.lastUpdated = now] (line 30): written on an object, dropped on a
    primitive and left out of an array's serialisation, a [TypeError] on
    [null]. *)
Definition stamp (now : string) (data : json) : attempt json :=
  match data with
  | JObj props => Returned (JObj (assign props "lastUpdated" (JStr now)))
  | JNull => Threw
  | _ => Returned data
  end.

(** [saveData], lines 29-32. *)
Definition saveData (now : string) (d : disk) (data : json) : attempt disk :=
  and_then (stamp now data) (fun data => writeFile d (JSON_stringify data)).

(** [v.name] for the names the source spells out ([medicalSchedule],
    [lastUpdated], [name], [hours], [type], [note]): no prototype holds
    them, so the read finds an own property of an object, is undefined on
    any other value, and throws on [null]. *)
Definition field (v : json) (name : string) : option json :=
  match v with
  | JObj props => Obj.get props name
  | _ => None
  end.

Definition member (v : json) (name : string) : attempt (option json) :=
  match v with
  | JNull => Threw
  | _ => Returned (field v name)
  end.

Definition truthy_or_undefined (v : option json) : bool :=
  match v with Some v => truthy v | None => false end.

Definition truthy_property (p : property json) : bool :=
  match p with
  | Undefined => false
  | Own v => truthy v
  | Inherited => true
  end.

(** ** Replies *)

(** [body] is what the client reads in the reply. *)
Inductive response (B : Type) : Type :=
| OK (body : B)          (* 200, [success: true] *)
| BadRequest             (* 400 *)
| NotFound               (* 404 *)
| InternalError.         (* 500, from the route's [catch] *)
Arguments OK {B} body.
Arguments BadRequest {B}.
Arguments NotFound {B}.
Arguments InternalError {B}.

(** What a request comes to: a reply and the disk it leaves, or one of the
    two ways out of the model. After [LeavesDocument data] the handler either
    replies without saving or calls [saveData data]. *)
Inductive outcome (B : Type) : Type :=
| Replied (r : response B) (after : disk)
| LeavesDocument (data : json)
| NotModelled.
Arguments Replied {B} r after.
Arguments LeavesDocument {B} data.
Arguments NotModelled {B}.

(** The disks a request may leave behind. *)
Definition may_leave {B} (now : string) (before : disk) (o : outcome B) : list disk :=
  match o with
  | Replied _ after => [after]
  | LeavesDocument data =>
      match saveData now before data with
      | Returned after => [before; after]
      | Threw => [before]
      end
  | NotModelled => []
  end.

(** ** GET /api/schedule, lines 35-50 *)

Record schedule_body : Type :=
  { data : option json; lastUpdated : option json }.

Definition get_schedule (now : string) (d : disk) : outcome schedule_body :=
  match readData now d with
  | Threw => Replied InternalError d
  | Returned doc =>
      match member doc "medicalSchedule", member doc "lastUpdated" with
      | Returned ms, Returned stamp =>
          Replied (OK {| data := res_json ms; lastUpdated := res_json stamp |}) d
      | _, _ => Replied InternalError d
      end
  end.

(** [data.medicalSchedule] as the routes that index it use it: its own
    properties beside those of the document. Indexing [undefined] or [null]
    throws. *)
Definition schedule_of (doc : json) : run (Obj.t json * Obj.t json) :=
  match doc with
  | JObj props =>
      match Obj.get props "medicalSchedule" with
      | Some (JObj ms) => Done (props, ms)
      | Some JNull | None => Throws
      | Some _ => Unmodelled
      end
  | _ => Throws
  end.

Definition with_schedule (props ms : Obj.t json) : json :=
  JObj (Obj.replace props "medicalSchedule" (JObj ms)).

(** ** POST /api/schedule, lines 53-93 *)

(** [if (!c[k]) { c[k] = {}; }], lines 68-73. *)
Definition initialise (c : Obj.t json) (k : string) : Obj.t json :=
  if truthy_property (lookup c k) then c else assign c k (JObj []).

(** Lines 68-76 on the schedule [ms]. *)
Definition store_slot (ms : Obj.t json) (officeId day timeSlot : string)
    (doctorData : json) : run (Obj.t json) :=
  let ms := initialise ms officeId in
  match lookup ms officeId with
  | Own (JObj office) =>
      let office := initialise office day in
      match lookup office day with
      | Own (JObj slots) =>
          let slots := assign slots timeSlot doctorData in
          Done (Obj.replace ms officeId
                  (JObj (Obj.replace office day (JObj slots))))
      | Own JNull | Undefined => Throws
      | Own _ => Unmodelled
      | Inherited => Leaves (Obj.replace ms officeId (JObj office))
      end
  | Own JNull | Undefined => Throws
  | Own _ => Unmodelled
  | Inherited => Leaves ms
  end.

(** [data.medicalSchedule[officeId][day][timeSlot]] as line 83 reads it
    back. When [timeSlot] is ["__proto__"] and not an
    own property, the read returns the prototype: [doctorData] if line 76
    made it the prototype (an object or an array), [Object.prototype]
    otherwise, which [res.json] writes as an empty object. *)
Definition read_back (ms : Obj.t json) (officeId day timeSlot : string)
    (doctorData : json) : option json :=
  match Obj.get ms officeId with
  | Some (JObj office) =>
      match Obj.get office day with
      | Some (JObj slots) =>
          match lookup slots timeSlot with
          | Own v => Some v
          | Undefined => None
          | Inherited =>
              match doctorData with
              | JObj _ | JArr _ => Some doctorData
              | _ => Some (JObj [])
              end
          end
      | _ => None
      end
  | _ => None
  end.

Definition given (k : option string) : bool :=
  match k with Some s => negb (s =? "") | None => false end.

Definition post_schedule (now : string) (d : disk)
    (officeId day timeSlot : option string) (doctorData : option json)
    : outcome (option json) :=
  match officeId, day, timeSlot, doctorData with
  | Some officeId', Some day', Some timeSlot', Some doctorData' =>
      if given officeId && given day && given timeSlot && truthy doctorData'
      then
        match readData now d with
        | Threw => Replied InternalError d
        | Returned doc =>
            match schedule_of doc with
            | Done (props, ms) =>
                match store_slot ms officeId' day' timeSlot' doctorData' with
                | Done ms' =>
                    match saveData now d (with_schedule props ms') with
                    | Returned after =>
                        Replied
                          (OK (res_json
                                 (read_back ms' officeId' day' timeSlot' doctorData')))
                          after
                    | Threw => Replied InternalError d
                    end
                | Leaves ms' => LeavesDocument (with_schedule props ms')
                | Throws => Replied InternalError d
                | Unmodelled => NotModelled
                end
            | Throws => Replied InternalError d
            | Leaves _ | Unmodelled => NotModelled
            end
        end
      else Replied BadRequest d
  | _, _, _, _ => Replied BadRequest d
  end.

(** ** DELETE /api/schedule/:officeId/:day/:timeSlot, lines 96-133 *)

(** Lines 102-111 on the schedule [ms]; [None] is the [else] branch. *)
Definition remove_slot (ms : Obj.t json) (officeId day timeSlot : string)
    : run (option (Obj.t json)) :=
  match lookup ms officeId with
  | Own (JObj office) =>
      match lookup office day with
      | Own (JObj slots) =>
          if truthy_property (lookup slots timeSlot) then
            let slots := Obj.delete slots timeSlot in
            let office :=
              match Obj.keys slots with
              | [] => Obj.delete office day
              | _ :: _ => Obj.replace office day (JObj slots)
              end in
            Done (Some (Obj.replace ms officeId (JObj office)))
          else Done None
      | Own v => if truthy v then Unmodelled else Done None
      | Undefined => Done None
      | Inherited => Leaves (Some ms)
      end
  | Own v => if truthy v then Unmodelled else Done None
  | Undefined => Done None
  | Inherited => Leaves (Some ms)
  end.

Definition delete_schedule (now : string) (d : disk)
    (officeId day timeSlot : string) : outcome unit :=
  match readData now d with
  | Threw => Replied InternalError d
  | Returned doc =>
      match schedule_of doc with
      | Done (props, ms) =>
          match remove_slot ms officeId day timeSlot with
          | Done (Some ms') =>
              match saveData now d (with_schedule props ms') with
              | Returned after => Replied (OK tt) after
              | Threw => Replied InternalError d
              end
          | Done None => Replied NotFound d
          | Leaves _ => LeavesDocument doc
          | Throws => Replied InternalError d
          | Unmodelled => NotModelled
          end
      | Throws => Replied InternalError d
      | Leaves _ | Unmodelled => NotModelled
      end
  end.

(** ** POST /api/restore, lines 212-238 *)

Definition post_restore (now : string) (d : disk) (backupData : json)
    : outcome unit :=
  match member backupData "medicalSchedule" with
  | Threw => Replied InternalError d
  | Returned ms =>
      if truthy_or_undefined ms then
        match saveData now d backupData with
        | Returned after => Replied (OK tt) after
        | Threw => Replied InternalError d
        end
      else Replied BadRequest d
  end.

(** ** getSpecialtyFromOfficeId, lines 241-252 *)

(** [officeId.split('_')[0]] *)
Fixpoint first_part (officeId : string) : string :=
  match officeId with
  | EmptyString => EmptyString
  | String c rest => if (c =? "_")%char then EmptyString else String c (first_part rest)
  end.

Definition specialtyMap : Obj.t string :=
  [ ("derm", "dermatologia"); ("card", "cardiologia");
    ("oftal", "oftalmologia"); ("ped", "pediatria");
    ("gine", "ginecologia"); ("psiq", "psiquiatria") ].

(** What the function returns: a string, or the built-in that
    [Object.prototype] holds under a name. *)
Inductive label : Type :=
| Text (s : string)
| Builtin (name : string).

Definition getSpecialtyFromOfficeId (officeId : string) : label :=
  let prefix := first_part officeId in
  match lookup specialtyMap prefix with
  | Own s => if s =? "" then Text "geral" else Text s
  | Inherited => Builtin prefix
  | Undefined => Text "geral"
  end.

(** ** GET /api/search/doctor, lines 136-187 *)

Record entry : Type :=
  { office : string; day : string; time : string;
    hours : json; type : option json; note : json }.

Record found : Type := { schedules : list entry; specialty : label }.

(** An entry and a group as [res.json] send them. A [specialty] that is a
    built-in is kept as it is here; in the text it is left out when the
    built-in is a function and written [{}] when it is
    [Object.prototype]. *)
Definition sent_entry (e : entry) : entry :=
  {| office := office e; day := day e; time := time e;
     hours := stringified (hours e);
     type := res_json (type e);
     note := stringified (note e) |}.

Definition sent_found (g : found) : found :=
  {| schedules := List.map sent_entry (schedules g); specialty := specialty g |}.

(** [results] of the reply: the array literal of line 143 or the object
    [foundDoctors]. *)
Inductive results : Type :=
| EmptyArray
| Grouped (foundDoctors : Obj.t found).

(** [s.includes(sub)] *)
Fixpoint includes (s sub : string) : bool :=
  String.prefix sub s ||
  match s with
  | EmptyString => false
  | String _ rest => includes rest sub
  end.

(** [v || ''] *)
Definition or_empty (v : option json) : json :=
  match v with
  | Some v => if truthy v then v else JStr ""
  | None => JStr ""
  end.

(** [foundDoctors[name].schedules.push(e)] on an own property. *)
Definition push (foundDoctors : Obj.t found) (name : string) (e : entry) : Obj.t found :=
  match Obj.get foundDoctors name with
  | Some g =>
      Obj.replace foundDoctors name
        {| schedules := (schedules g ++ [e])%list; specialty := specialty g |}
  | None => foundDoctors
  end.

(** [for (const k in v)]: the keys visited. Nothing is visited on
    [undefined], [null], a boolean or a number. *)
Definition for_in (v : option json) : run (list string) :=
  match v with
  | Some (JObj props) => Done (Obj.keys props)
  | Some (JArr []) | Some (JStr EmptyString) => Done []
  | Some (JArr _) | Some (JStr _) => Unmodelled
  | _ => Done []
  end.

Fixpoint each {K S} (ks : list K) (body : K -> S -> run S) (s : S) : run S :=
  match ks with
  | [] => Done s
  | k :: rest =>
      match body k s with
      | Done s' => each rest body s'
      | stopped => stopped
      end
  end.

Section Search.

(** [String.prototype.toLowerCase] *)
Variable toLowerCase : string -> string.

(** The test of line 155 on a name that is a string. *)
Definition matches (query name : string) : bool :=
  negb (name =? "") && includes (toLowerCase name) (toLowerCase query).

(** Lines 154-170. *)
Definition visit (query officeId day time : string) (doctor : option json)
    (foundDoctors : Obj.t found) : run (Obj.t found) :=
  match doctor with
  | None | Some JNull => Throws
  | Some doctor =>
      match field doctor "name" with
      | None => Done foundDoctors
      | Some (JStr name) =>
          if matches query name then
            let e := {| office := officeId; day := day; time := time;
                        hours := or_empty (field doctor "hours");
                        type := field doctor "type";
                        note := or_empty (field doctor "note") |} in
            match lookup foundDoctors name with
            | Undefined =>
                let fresh := {| schedules := [];
                                specialty := getSpecialtyFromOfficeId officeId |} in
                Done (push (assign foundDoctors name fresh) name e)
            | Own _ => Done (push foundDoctors name e)
            | Inherited => Throws
            end
          else Done foundDoctors
      | Some name => if truthy name then Throws else Done foundDoctors
      end
  end.

(** [c[k]] for a key [k] the loop took from [c]. *)
Definition at_key (c : option json) (k : string) : option json :=
  match c with
  | Some c => field c k
  | None => None
  end.

(** Lines 153-171: the time slots of a day. *)
Definition scan_day (query officeId day : string) (slots : option json)
    (foundDoctors : Obj.t found) : run (Obj.t found) :=
  match for_in slots with
  | Done times =>
      each times (fun time foundDoctors =>
        visit query officeId day time (at_key slots time) foundDoctors)
      foundDoctors
  | _ => Unmodelled
  end.

(** Lines 152-172: the days of an office. *)
Definition scan_office (query officeId : string) (office : option json)
    (foundDoctors : Obj.t found) : run (Obj.t found) :=
  match for_in office with
  | Done days =>
      each days (fun day foundDoctors =>
        scan_day query officeId day (at_key office day) foundDoctors)
      foundDoctors
  | _ => Unmodelled
  end.

(** Lines 151-173: the offices of the schedule. *)
Definition scan (query : string) (ms : option json) (foundDoctors : Obj.t found)
    : run (Obj.t found) :=
  match for_in ms with
  | Done offices =>
      each offices (fun officeId foundDoctors =>
        scan_office query officeId (at_key ms officeId) foundDoctors)
      foundDoctors
  | _ => Unmodelled
  end.

Definition get_search_doctor (now : string) (d : disk) (name : option string)
    : outcome results :=
  match name with
  | None => Replied (OK EmptyArray) d
  | Some name =>
      if (name =? "") || (String.length name <? 2)%nat then Replied (OK EmptyArray) d
      else
        match readData now d with
        | Threw => Replied InternalError d
        | Returned doc =>
            match member doc "medicalSchedule" with
            | Threw => Replied InternalError d
            | Returned ms =>
                match scan name ms [] with
                | Done foundDoctors =>
                    Replied (OK (Grouped (Obj.map sent_found foundDoctors))) d
                | Throws => Replied InternalError d
                | Leaves _ | Unmodelled => NotModelled
                end
            end
        end
  end.

End Search.

(** Lower case on the ASCII letters, for running the search on examples. *)
Definition ascii_lower (c : ascii) : ascii :=
  let n := N_of_ascii c in
  if ((65 <=? n) && (n <=? 90))%N then ascii_of_N (n + 32) else c.

Fixpoint lower (s : string) : string :=
  match s with
  | EmptyString => EmptyString
  | String c rest => String (ascii_lower c) (lower rest)
  end.

(** ** The data model: office, day, time slot, assignment *)

(** The assignment a reader of the schedule finds at an address. *)
Definition assignment_at (ms : option json) (officeId day timeSlot : string)
    : option json :=
  match ms with
  | Some ms =>
      match field ms officeId with
      | Some office =>
          match field office day with
          | Some slots => field slots timeSlot
          | None => None
          end
      | None => None
      end
  | None => None
  end.

(** The mapping under a key: the object stored there, empty when there is
    none. *)
Definition child (c : Obj.t json) (k : string) : Obj.t json :=
  match Obj.get c k with
  | Some (JObj o) => o
  | _ => []
  end.

(** A day maps time slots to assignments, and an assignment is a value
    line 58 lets through. *)
Definition day_ok (v : json) : bool :=
  match v with
  | JObj slots => forallb (fun s => truthy (snd s)) slots
  | _ => false
  end.

Definition office_ok (v : json) : bool :=
  match v with
  | JObj days => forallb (fun d => day_ok (snd d)) days
  | _ => false
  end.

Definition schedule_ok (ms : Obj.t json) : bool :=
  forallb (fun o => office_ok (snd o)) ms.

(** No day without a time slot under it. *)
Definition days_nonempty (ms : Obj.t json) : Prop :=
  forall officeId office day,
    Obj.get ms officeId = Some (JObj office) ->
    Obj.get office day <> Some (JObj []).

(** The schedule held by the file. *)
Definition persisted (d : disk) : option (Obj.t json) :=
  match DATA_FILE d with
  | Content (Encodes doc) =>
      match field doc "medicalSchedule" with
      | Some (JObj ms) => Some ms
      | _ => None
      end
  | _ => None
  end.

Definition modelled {B} (o : outcome B) : Prop :=
  match o with NotModelled => False | _ => True end.

(** ** The search, stated on the list of assignments *)

Fixpoint distinct (ks : list string) : bool :=
  match ks with
  | [] => true
  | k :: rest => negb (existsb (String.eqb k) rest) && distinct rest
  end.

(** An assignment the search can read: not [null], and its [name] absent,
    falsy, or a string that [Object.prototype] does not hold. *)
Definition readable (a : json) : bool :=
  match a with
  | JNull => false
  | _ =>
      match field a "name" with
      | None => true
      | Some (JStr name) => negb (inherited name)
      | Some v => negb (truthy v)
      end
  end.

Definition day_searchable (v : json) : bool :=
  match v with
  | JObj slots => distinct (Obj.keys slots) && forallb (fun s => readable (snd s)) slots
  | _ => false
  end.

Definition office_searchable (v : json) : bool :=
  match v with
  | JObj days => distinct (Obj.keys days) && forallb (fun d => day_searchable (snd d)) days
  | _ => false
  end.

Definition searchable (ms : Obj.t json) : bool :=
  distinct (Obj.keys ms) && forallb (fun o => office_searchable (snd o)) ms.

(** Every assignment with its address, office by office, day by day, time
    slot by time slot, each mapping in its property order. *)
Definition occurrences (ms : Obj.t json) : list (string * string * string * json) :=
  flat_map (fun o =>
    match snd o with
    | JObj days =>
        flat_map (fun d =>
          match snd d with
          | JObj slots => map (fun s => (fst o, fst d, fst s, snd s)) slots
          | _ => []
          end) days
    | _ => []
    end) ms.

Definition entry_of (occ : string * string * string * json) : entry :=
  let '(officeId, day, time, doctor) := occ in
  {| office := officeId; day := day; time := time;
     hours := or_empty (field doctor "hours");
     type := field doctor "type";
     note := or_empty (field doctor "note") |}.

Definition name_of (occ : string * string * string * json) : option string :=
  let '(_, _, _, doctor) := occ in
  match field doctor "name" with
  | Some (JStr name) => Some name
  | _ => None
  end.

Section Grouping.

Variable toLowerCase : string -> string.

(** Is the occurrence one of doctor [name], and does [name] contain the
    query, both in lower case? *)
Definition hit (query name : string) (occ : string * string * string * json) : bool :=
  match name_of occ with
  | Some name' => (name' =? name) && matches toLowerCase query name
  | None => false
  end.

(** Lines 154-170 on an occurrence. *)
Definition visit_occurrence (query : string) (occ : string * string * string * json)
    (foundDoctors : Obj.t found) : run (Obj.t found) :=
  let '(officeId, day, time, doctor) := occ in
  visit toLowerCase query officeId day time (Some doctor) foundDoctors.

(** The group of [name]: its occurrences in the order met, and the
    specialty of the office of the first one. *)
Definition group (query : string) (occs : list (string * string * string * json))
    (name : string) : option found :=
  match filter (hit query name) occs with
  | [] => None
  | first :: rest =>
      Some {| schedules := map entry_of (first :: rest);
              specialty := getSpecialtyFromOfficeId (office (entry_of first)) |}
  end.

(** The object [foundDoctors] holds the groups of the occurrences seen. *)
Definition groups_of (query : string) (seen : list (string * string * string * json))
    (foundDoctors : Obj.t found) : Prop :=
  NoDup (Obj.keys foundDoctors) /\
  forall n, Obj.get foundDoctors n = group query seen n.

End Grouping.

(** ** The spec's reading of the scan order *)

Module Spec.

(** The spec's words: "in the natural iteration order of the mapping
    structure (insertion order, since the store does not sort)". A mapping
    that keeps its keys in the order they were first written. *)
Definition put {A} (m : Obj.t A) (k : string) (a : A) : Obj.t A :=
  if Obj.has m k then Obj.replace m k a else (m ++ [(k, a)])%list.

(** The spec's words: SetSlot "lazily creates intermediate office/day
    containers if absent, writes the assignment at the address". *)
Definition SetSlot (ms : Obj.t json) (officeId day timeSlot : string)
    (assignment : json) : Obj.t json :=
  let office := match Obj.get ms officeId with Some (JObj office) => office | _ => [] end in
  let slots := match Obj.get office day with Some (JObj slots) => slots | _ => [] end in
  put ms officeId (JObj (put office day (JObj (put slots timeSlot assignment)))).

(** The group SearchDoctorsByName reports for a name when the scan goes in
    insertion order. *)
Definition SearchDoctorsByName (toLowerCase : string -> string) (query : string)
    (ms : Obj.t json) (name : string) : option found :=
  group toLowerCase query (occurrences ms) name.

End Spec.

(** ** The specialty table as the claim words it *)

(** The prefix has no separator in it. *)
Fixpoint no_separator (s : string) : bool :=
  match s with
  | EmptyString => true
  | String c rest => negb (c =? "_")%char && no_separator rest
  end.

Definition listed (prefix : string) : bool :=
  existsb (String.eqb prefix) (Obj.keys specialtyMap).

(** The [data] of GetAll's reply. *)
Definition schedule_data (o : outcome schedule_body) : option json :=
  match o with
  | Replied (OK body) _ => data body
  | _ => None
  end.

(** ** Values and files used in the examples *)

Definition fresh_disk : disk := {| DATA_FILE := Absent; writable := true |}.

Definition dr_silva : json :=
  JObj [("name", JStr "Dr. Silva"); ("type", JStr "consult")].

(** The file after the POST of the spec's scenario. *)
Definition monday_disk : disk :=
  {| DATA_FILE :=
       Content (Encodes (JObj
         [("medicalSchedule",
           JObj [("card_1", JObj [("Monday", JObj [("09:00", dr_silva)])])]);
          ("lastUpdated", JStr "t1")]));
     writable := true |}.

(** The file after [saveData] wrote the document [props] with the schedule
    [ms] in it. *)
Definition saved (now : string) (props ms : Obj.t json) : disk :=
  {| DATA_FILE :=
       Content (JSON_stringify (JObj
         (assign (Obj.replace props "medicalSchedule" (JObj ms))
            "lastUpdated" (JStr now))));
     writable := true |}.


Definition ana : json := JObj [("name", JStr "Ana Souza"); ("type", JStr "consult")].

Definition ana_at (officeId : string) : entry :=
  {| office := officeId; day := "Monday"; time := "09:00";
     hours := JStr ""; type := Some (JStr "consult"); note := JStr "" |}.

Definition two_offices_disk : disk :=
  {| DATA_FILE :=
       Content (Encodes (JObj
         [("medicalSchedule",
           JObj [("201", JObj [("Monday", JObj [("09:00", ana)])]);
                 ("card_1", JObj [("Monday", JObj [("09:00", ana)])])]);
          ("lastUpdated", JStr "t2")]));
     writable := true |}.

(** ** GET /api/backup, lines 190-209 *)

(** [new Date().toISOString().split('T')[0]] *)
Fixpoint date_part (now : string) : string :=
  match now with
  | EmptyString => EmptyString
  | String c rest => if (c =? "T")%char then EmptyString else String c (date_part rest)
  end.

(** What the route sends: the name in [Content-Disposition] and the text
    given to [res.send]. *)
Record attachment : Type := { filename : string; sent : text }.

Definition get_backup (now : string) (d : disk) : outcome attachment :=
  match readData now d with
  | Threw => Replied InternalError d
  | Returned doc =>
      Replied
        (OK {| filename := "backup_escalas_" ++ date_part now ++ ".json";
               sent := JSON_stringify doc |})
        d
  end.

(** The date has no ['T'] in it. *)
Fixpoint no_T (s : string) : bool :=
  match s with
  | EmptyString => true
  | String c rest => negb (c =? "T")%char && no_T rest
  end.

(** ** The schedule after a write *)

(** What lines 68-76 leave of [ms] when no key is inherited. *)
Definition stored (ms : Obj.t json) (officeId day timeSlot : string)
    (doctorData : json) : Obj.t json :=
  Obj.replace (initialise ms officeId) officeId
    (JObj (Obj.replace (initialise (child ms officeId) day) day
             (JObj (assign (child (child ms officeId) day) timeSlot doctorData)))).

(** What lines 106-111 leave of [ms] when the slot is there. *)
Definition removed (ms : Obj.t json) (officeId day timeSlot : string) : Obj.t json :=
  let office := child ms officeId in
  let slots := Obj.delete (child office day) timeSlot in
  Obj.replace ms officeId
    (JObj match Obj.keys slots with
          | [] => Obj.delete office day
          | _ :: _ => Obj.replace office day (JObj slots)
          end).

(** ** Schedules the scan can walk *)

Definition day_scannable (v : json) : bool :=
  match v with
  | JObj slots => distinct (Obj.keys slots)
  | _ => false
  end.

Definition office_scannable (v : json) : bool :=
  match v with
  | JObj days => distinct (Obj.keys days) && forallb (fun d => day_scannable (snd d)) days
  | _ => false
  end.

(** Offices and days are objects; what the time slots hold is left open. *)
Definition scannable (ms : Obj.t json) : bool :=
  distinct (Obj.keys ms) && forallb (fun o => office_scannable (snd o)) ms.

Section Poison.

Variable toLowerCase : string -> string.

(** An assignment on which lines 154-162 throw, whatever was found before:
    [null]; a [name] that is truthy and no string; a [name] that contains
    the query and is a name of [Object.prototype]. *)
Definition poison (query : string) (doctor : json) : bool :=
  match doctor with
  | JNull => true
  | _ =>
      match field doctor "name" with
      | None => false
      | Some (JStr name) => matches toLowerCase query name && inherited name
      | Some v => truthy v
      end
  end.

End Poison.

(** ** What line 58 refuses *)

(** A key that is missing or empty. *)
Definition missing_key (k : option string) : Prop := k = None \/ k = Some "".

(** An assignment that is missing or falsy. *)
Definition missing_data (v : option json) : Prop :=
  v = None \/ exists a, v = Some a /\ In a [JNull; JBool false; JNum 0; JStr ""].

(** ** The schedule a request finds *)

(** Every request that reads the file finds the schedule [ms]: the file
    holds it, or the file is absent, unreadable or unparseable and [ms] is
    empty. *)
Definition loads (d : disk) (ms : Obj.t json) : Prop :=
  forall now, exists props,
    readData now d = Returned (JObj props) /\
    Obj.get props "medicalSchedule" = Some (JObj ms).

(** The data model as the routes keep it: no day is left empty, and every
    value is as [JSON.stringify] writes it, with no number beyond the range
    of a double. *)
Definition well_kept (ms : Obj.t json) : Prop :=
  schedule_ok ms = true /\ days_nonempty ms /\ Obj.map stringified ms = ms.

(** The keys [after] a write at [k] in the mapping [o]. When [k] was there
    they are as they were. When it was not, [k] is among them, the others
    are as they were, in their order, and [k] is last when it is no array
    index. *)
Definition keys_kept {A} (o : Obj.t A) (k : string) (after : list string) : Prop :=
  if Obj.has o k then after = Obj.keys o
  else filter (fun k' => negb (k' =? k)) after = Obj.keys o
       /\ In k after
       /\ (Obj.array_index k = None -> after = (Obj.keys o ++ [k])%list).

(** At an address, the office and the day are objects, where there are
    any. *)
Definition path_ok (ms : Obj.t json) (officeId day : string) : Prop :=
  (forall v, Obj.get ms officeId = Some v -> exists o, v = JObj o)
  /\ (forall v, Obj.get (child ms officeId) day = Some v -> exists o, v = JObj o).

(** No name of [Object.prototype] is an own property of [foundDoctors]. *)
Definition plain_groups (foundDoctors : Obj.t found) : Prop :=
  forall n, inherited n = true -> Obj.get foundDoctors n = None.

(** The file after SetSlot stored an assignment whose name is a number. *)
Definition numbered_disk : disk :=
  {| DATA_FILE :=
       Content (Encodes (JObj
         [("medicalSchedule",
           JObj [("card_1", JObj [("Monday", JObj [("09:00", JObj [("name", JNum 5)])])])]);
          ("lastUpdated", JStr "t1")]));
     writable := true |}.

(** * Properties *)

(** ** Own properties under assignment and [delete] *)

Module ObjFacts.

Section Facts.

Context {A : Type}.
Implicit Types (o : Obj.t A) (k : string) (a : A).

Lemma has_get o k : Obj.has o k = true <-> exists a, Obj.get o k = Some a.
Proof.
  unfold Obj.has. destruct (Obj.get o k) as [a|].
  - split; [eauto | reflexivity].
  - split; [discriminate | intros [a H]; discriminate].
Qed.

Lemma has_false_get o k : Obj.has o k = false <-> Obj.get o k = None.
Proof.
  unfold Obj.has. destruct (Obj.get o k); split; congruence.
Qed.

Lemma get_in o k a : Obj.get o k = Some a -> In (k, a) o.
Proof.
  induction o as [|[k' a'] rest IH]; simpl; [discriminate|].
  destruct (String.eqb_spec k k') as [->|Hne].
  - intros [= ->]. now left.
  - intros H. right. auto.
Qed.

Lemma get_in_keys o k : Obj.get o k <> None <-> In k (Obj.keys o).
Proof.
  induction o as [|[k' a'] rest IH]; simpl.
  - split; [congruence | tauto].
  - destruct (String.eqb_spec k k') as [->|Hne].
    + split; [now left | discriminate].
    + rewrite IH. split; [now right | intros [E|H]; [congruence | exact H]].
Qed.

Lemma get_replace_same o k a :
  Obj.get (Obj.replace o k a) k = if Obj.has o k then Some a else None.
Proof.
  unfold Obj.has.
  induction o as [|[k' a'] rest IH]; simpl; [reflexivity|].
  destruct (String.eqb_spec k k') as [->|Hne]; simpl.
  - now rewrite String.eqb_refl.
  - apply String.eqb_neq in Hne. now rewrite Hne.
Qed.

Lemma get_replace_other o k k' a :
  k <> k' -> Obj.get (Obj.replace o k a) k' = Obj.get o k'.
Proof.
  intros Hne.
  induction o as [|[k0 a0] rest IH]; simpl; [reflexivity|].
  destruct (String.eqb_spec k k0) as [->|Hk]; simpl.
  - apply not_eq_sym, String.eqb_neq in Hne. now rewrite Hne.
  - now rewrite IH.
Qed.

Lemma keys_replace o k a : Obj.keys (Obj.replace o k a) = Obj.keys o.
Proof.
  induction o as [|[k0 a0] rest IH]; simpl; [reflexivity|].
  destruct (k =? k0); simpl; [reflexivity | now rewrite IH].
Qed.

Lemma get_delete_same o k : Obj.get (Obj.delete o k) k = None.
Proof.
  induction o as [|[k0 a0] rest IH]; simpl; [reflexivity|].
  destruct (k =? k0) eqn:E; simpl; [exact IH | now rewrite E].
Qed.

Lemma get_delete_other o k k' :
  k <> k' -> Obj.get (Obj.delete o k) k' = Obj.get o k'.
Proof.
  intros Hne.
  induction o as [|[k0 a0] rest IH]; simpl; [reflexivity|].
  destruct (String.eqb_spec k k0) as [->|Hk]; simpl.
  - rewrite IH. apply not_eq_sym, String.eqb_neq in Hne. now rewrite Hne.
  - now rewrite IH.
Qed.

Lemma delete_absent o k : Obj.get o k = None -> Obj.delete o k = o.
Proof.
  induction o as [|[k0 a0] rest IH]; simpl; [reflexivity|].
  destruct (k =? k0); [discriminate|].
  intros H. now rewrite IH.
Qed.

Lemma keys_delete_incl o k k' :
  In k' (Obj.keys (Obj.delete o k)) -> In k' (Obj.keys o).
Proof.
  induction o as [|[k0 a0] rest IH]; simpl; [tauto|].
  destruct (k =? k0); simpl; intuition.
Qed.

Lemma get_create_same o k a :
  Obj.get o k = None -> Obj.get (Obj.create o k a) k = Some a.
Proof.
  induction o as [|[k0 a0] rest IH]; simpl.
  - now rewrite String.eqb_refl.
  - destruct (k =? k0) eqn:E; [discriminate|].
    intros H. destruct (Obj.precedes k k0); simpl.
    + now rewrite String.eqb_refl.
    + rewrite E. auto.
Qed.

Lemma get_create_other o k k' a :
  k <> k' -> Obj.get (Obj.create o k a) k' = Obj.get o k'.
Proof.
  intros Hne. apply not_eq_sym, String.eqb_neq in Hne.
  induction o as [|[k0 a0] rest IH]; simpl.
  - now rewrite Hne.
  - destruct (Obj.precedes k k0); simpl.
    + now rewrite Hne.
    + now rewrite IH.
Qed.

Lemma keys_create o k a k' :
  In k' (Obj.keys (Obj.create o k a)) <-> k' = k \/ In k' (Obj.keys o).
Proof.
  induction o as [|[k0 a0] rest IH]; simpl.
  - intuition.
  - destruct (Obj.precedes k k0); simpl.
    + intuition.
    + rewrite IH. intuition.
Qed.

Lemma nodup_create o k a :
  ~ In k (Obj.keys o) -> NoDup (Obj.keys o) -> NoDup (Obj.keys (Obj.create o k a)).
Proof.
  induction o as [|[k0 a0] rest IH]; simpl; intros Hin Hnd.
  - constructor; [tauto | constructor].
  - destruct (Obj.precedes k k0); simpl.
    + constructor; [exact Hin | exact Hnd].
    + inversion Hnd as [|? ? Hk0 Hrest]; subst.
      constructor.
      * rewrite keys_create. intros [->|H]; [apply Hin; now left | contradiction].
      * apply IH; [intros H; apply Hin; now right | exact Hrest].
Qed.

(** A name that is no array index is created last: such names stay in the
    order they were first written. *)
Lemma create_last o k a :
  Obj.array_index k = None -> Obj.create o k a = (o ++ [(k, a)])%list.
Proof.
  intros Hk.
  induction o as [|[k0 a0] rest IH]; simpl; [reflexivity|].
  unfold Obj.precedes. rewrite Hk. now rewrite IH.
Qed.

Lemma get_assign_same o k a :
  Obj.has o k = true \/ k <> "__proto__" -> Obj.get (assign o k a) k = Some a.
Proof.
  unfold assign. destruct (Obj.has o k) eqn:Hhas.
  - intros _. now rewrite get_replace_same, Hhas.
  - intros [H|H]; [discriminate|].
    apply String.eqb_neq in H. rewrite H.
    apply get_create_same. now apply has_false_get.
Qed.

Lemma get_assign_other o k k' a :
  k <> k' -> Obj.get (assign o k a) k' = Obj.get o k'.
Proof.
  intros Hne. unfold assign.
  destruct (Obj.has o k); [now apply get_replace_other|].
  destruct (k =? "__proto__"); [reflexivity | now apply get_create_other].
Qed.

Lemma nodup_assign o k a :
  NoDup (Obj.keys o) -> NoDup (Obj.keys (assign o k a)).
Proof.
  intros Hnd. unfold assign. destruct (Obj.has o k) eqn:Hhas.
  - now rewrite keys_replace.
  - destruct (k =? "__proto__"); [exact Hnd|].
    apply nodup_create; [|exact Hnd].
    rewrite <- get_in_keys. apply has_false_get in Hhas. now rewrite Hhas.
Qed.

End Facts.

End ObjFacts.

Lemma inherited_proto : inherited "__proto__" = true.
Proof. reflexivity. Qed.

Lemma not_inherited_not_proto k : inherited k = false -> k <> "__proto__".
Proof. intros H ->. discriminate. Qed.

Lemma lookup_own {A} (o : Obj.t A) k a : Obj.get o k = Some a -> lookup o k = Own a.
Proof. unfold lookup. now intros ->. Qed.

Lemma lookup_plain {A} (o : Obj.t A) k :
  inherited k = false ->
  lookup o k = match Obj.get o k with Some a => Own a | None => Undefined end.
Proof. unfold lookup. intros ->. reflexivity. Qed.

(** ** What [JSON.stringify] writes *)

Section MapFacts.

Context {A B : Type} (f : A -> B).
Implicit Types (o : Obj.t A) (k : string) (a : A).

Lemma keys_map o : Obj.keys (Obj.map f o) = Obj.keys o.
Proof.
  unfold Obj.keys, Obj.map. rewrite map_map. now apply map_ext.
Qed.

Lemma get_map o k : Obj.get (Obj.map f o) k = option_map f (Obj.get o k).
Proof.
  unfold Obj.map. induction o as [|[k0 a0] rest IH]; simpl; [reflexivity|].
  destruct (k =? k0); [reflexivity | exact IH].
Qed.

Lemma has_map o k : Obj.has (Obj.map f o) k = Obj.has o k.
Proof. unfold Obj.has. rewrite get_map. now destruct (Obj.get o k). Qed.

Lemma replace_map o k a :
  Obj.map f (Obj.replace o k a) = Obj.replace (Obj.map f o) k (f a).
Proof.
  unfold Obj.map. induction o as [|[k0 a0] rest IH]; simpl; [reflexivity|].
  destruct (k =? k0); simpl; [reflexivity | now rewrite IH].
Qed.

Lemma create_map o k a :
  Obj.map f (Obj.create o k a) = Obj.create (Obj.map f o) k (f a).
Proof.
  unfold Obj.map. induction o as [|[k0 a0] rest IH]; simpl; [reflexivity|].
  destruct (Obj.precedes k k0); simpl; [reflexivity | now rewrite IH].
Qed.

Lemma delete_map o k : Obj.map f (Obj.delete o k) = Obj.delete (Obj.map f o) k.
Proof.
  unfold Obj.map. induction o as [|[k0 a0] rest IH]; simpl; [reflexivity|].
  destruct (k =? k0); simpl; [exact IH | now rewrite IH].
Qed.

Lemma assign_map o k a : Obj.map f (assign o k a) = assign (Obj.map f o) k (f a).
Proof.
  unfold assign. rewrite has_map. destruct (Obj.has o k); [apply replace_map|].
  destruct (k =? "__proto__"); [reflexivity | apply create_map].
Qed.

End MapFacts.

Lemma json_induction (P : json -> Prop) :
  P JNull -> (forall b, P (JBool b)) -> (forall n, P (JNum n)) ->
  (forall s, P (JStr s)) ->
  (forall items, Forall P items -> P (JArr items)) ->
  (forall props, Forall (fun p => P (snd p)) props -> P (JObj props)) ->
  forall v, P v.
Proof.
  intros HNull HBool HNum HStr HArr HObj.
  fix IH 1.
  intros [|b|n|s|items|props];
    [exact HNull | apply HBool | apply HNum | apply HStr | | ].
  - apply HArr. revert items. fix IHitems 1.
    intros [|x rest]; constructor; [apply IH | apply IHitems].
  - apply HObj. revert props. fix IHprops 1.
    intros [|[k x] rest]; constructor; [apply IH | apply IHprops].
Qed.

Lemma stringified_object props :
  stringified (JObj props) = JObj (Obj.map stringified props).
Proof. reflexivity. Qed.

Lemma stringified_number n :
  stringified (JNum n) = if isFinite n then JNum n else JNull.
Proof. reflexivity. Qed.

(** Writing what was read in a written text changes nothing. *)
Lemma stringified_twice v : stringified (stringified v) = stringified v.
Proof.
  induction v as [|b|n|s|items IH|props IH] using json_induction; try reflexivity.
  - rewrite stringified_number. destruct (isFinite n) eqn:E; [|reflexivity].
    now rewrite stringified_number, E.
  - cbn [stringified]. f_equal. rewrite map_map. apply map_ext_in.
    intros x Hin. rewrite Forall_forall in IH. now apply IH.
  - rewrite !stringified_object. f_equal. unfold Obj.map. rewrite map_map.
    apply map_ext_in. intros [k x] Hin. simpl. f_equal.
    rewrite Forall_forall in IH. exact (IH _ Hin).
Qed.

Lemma map_stringified_twice (o : Obj.t json) :
  Obj.map stringified (Obj.map stringified o) = Obj.map stringified o.
Proof.
  pose proof (stringified_twice (JObj o)) as H.
  rewrite !stringified_object in H. now injection H.
Qed.

Lemma res_json_twice v : res_json (res_json v) = res_json v.
Proof. destruct v as [v|]; simpl; [now rewrite stringified_twice | reflexivity]. Qed.

(** A value without a number beyond the range of a double is written as it
    is. *)
Lemma stringified_all_finite v : all_finite v = true -> stringified v = v.
Proof.
  induction v as [|b|n|s|items IH|props IH] using json_induction; try reflexivity.
  - cbn [all_finite]. intros E. now rewrite stringified_number, E.
  - cbn [all_finite stringified]. intros H. f_equal.
    rewrite forallb_forall in H. rewrite Forall_forall in IH.
    rewrite <- (map_id items) at 2. apply map_ext_in. intros x Hin. auto.
  - cbn [all_finite]. rewrite stringified_object. intros H. f_equal.
    rewrite forallb_forall in H. rewrite Forall_forall in IH.
    unfold Obj.map. rewrite <- (map_id props) at 2. apply map_ext_in.
    intros [k x] Hin. simpl. f_equal. exact (IH _ Hin (H _ Hin)).
Qed.

Lemma stringified_is_object v o :
  stringified v = JObj o -> exists o', v = JObj o' /\ o = Obj.map stringified o'.
Proof.
  destruct v as [|b|n|s|items|props]; try discriminate.
  - rewrite stringified_number. destruct (isFinite n); discriminate.
  - rewrite stringified_object. intros [= <-]. eauto.
Qed.

Lemma truthy_stringified v :
  truthy (stringified v) = true -> truthy v = true.
Proof.
  destruct v as [|b|n|s|items|props]; try (intros H; exact H).
  rewrite stringified_number. destruct (isFinite n); [intros H; exact H | discriminate].
Qed.

Lemma field_stringified v name :
  field (stringified v) name = option_map stringified (field v name).
Proof.
  destruct v as [|b|n|s|items|props]; try reflexivity.
  - rewrite stringified_number. now destruct (isFinite n).
  - rewrite stringified_object. apply get_map.
Qed.

Lemma child_stringified c k :
  child (Obj.map stringified c) k = Obj.map stringified (child c k).
Proof.
  unfold child. rewrite get_map.
  destruct (Obj.get c k) as [[|b|n|s|items|props]|]; try reflexivity.
  cbn [option_map]. rewrite stringified_number. now destruct (isFinite n).
Qed.

(** An address of a written schedule reads what it read, as written. *)
Lemma assignment_at_stringified ms officeId day timeSlot :
  assignment_at (Some (JObj (Obj.map stringified ms))) officeId day timeSlot
  = option_map stringified (assignment_at (Some (JObj ms)) officeId day timeSlot).
Proof.
  unfold assignment_at.
  change (JObj (Obj.map stringified ms)) with (stringified (JObj ms)).
  rewrite field_stringified.
  destruct (field (JObj ms) officeId) as [office|]; [|reflexivity].
  cbn [option_map]. rewrite field_stringified.
  destruct (field office day) as [slots|]; [|reflexivity].
  cbn [option_map]. apply field_stringified.
Qed.

(** ** Examples used below *)

Example scenario_post :
  post_schedule "t1" fresh_disk (Some "card_1") (Some "Monday") (Some "09:00")
    (Some dr_silva)
  = Replied (OK (Some dr_silva)) monday_disk.
Proof. reflexivity. Qed.

Example scenario_get :
  get_schedule "t2" monday_disk
  = Replied (OK {| data := Some (JObj [("card_1", JObj [("Monday", JObj [("09:00", dr_silva)])])]);
                   lastUpdated := Some (JStr "t1") |}) monday_disk.
Proof. reflexivity. Qed.

(** ** Load *)

(** C8. [readData] returns in every state of the file: the document the
    file holds when it parses, and the fresh document (an empty
    [medicalSchedule], [lastUpdated] at the current time) when the file is
    absent, unreadable or does not parse. *)
Theorem readData_never_throws (now : string) (d : disk) :
  readData now d =
    Returned match DATA_FILE d with
             | Content (Encodes doc) => doc
             | Absent | Unreadable | Content Malformed => empty_document now
             end
  /\ field (empty_document now) "medicalSchedule" = Some (JObj [])
  /\ field (empty_document now) "lastUpdated" = Some (JStr now).
Proof.
  split; [|split; reflexivity].
  unfold readData, readFile.
  destruct (DATA_FILE d) as [| |[|doc]]; reflexivity.
Qed.

Lemma readData_persisted now d ms :
  persisted d = Some ms ->
  exists props,
    readData now d = Returned (JObj props) /\
    DATA_FILE d = Content (Encodes (JObj props)) /\
    Obj.get props "medicalSchedule" = Some (JObj ms).
Proof.
  unfold persisted, readData, readFile.
  destruct (DATA_FILE d) as [| |[|doc]]; try discriminate.
  destruct doc as [| | | | |props]; simpl; try discriminate.
  destruct (Obj.get props "medicalSchedule") as [[| | | | |ms']|] eqn:E; try discriminate.
  intros [= ->]. exists props. auto.
Qed.

(** ** Restore *)

Lemma truthy_field_object backupData :
  truthy_or_undefined (field backupData "medicalSchedule") = true ->
  exists props, backupData = JObj props.
Proof.
  destruct backupData; simpl; try discriminate. eauto.
Qed.

(** What GetAll answers on a file that holds a written document. *)
Lemma get_schedule_written now props w :
  get_schedule now {| DATA_FILE := Content (JSON_stringify (JObj props)); writable := w |}
  = Replied
      (OK {| data := res_json (Obj.get props "medicalSchedule");
             lastUpdated := res_json (Obj.get props "lastUpdated") |})
      {| DATA_FILE := Content (JSON_stringify (JObj props)); writable := w |}.
Proof.
  unfold get_schedule, readData, readFile, JSON_stringify. cbn [DATA_FILE].
  rewrite stringified_object. cbn [and_then JSON_parse try_catch member field].
  rewrite !get_map.
  change (option_map stringified) with res_json. now rewrite !res_json_twice.
Qed.

Lemma restore_saves now d props :
  truthy_or_undefined (Obj.get props "medicalSchedule") = true ->
  writable d = true ->
  post_restore now d (JObj props) =
    Replied (OK tt)
      {| DATA_FILE :=
           Content (JSON_stringify (JObj (assign props "lastUpdated" (JStr now))));
         writable := true |}.
Proof.
  intros Ht Hw. unfold post_restore, saveData, writeFile.
  cbn [member field stamp and_then]. now rewrite Ht, Hw.
Qed.

Lemma restore_refuses now d backupData :
  backupData <> JNull ->
  truthy_or_undefined (field backupData "medicalSchedule") = false ->
  post_restore now d backupData = Replied BadRequest d.
Proof.
  intros Hnull Hf. unfold post_restore.
  assert (Hm : member backupData "medicalSchedule"
               = Returned (field backupData "medicalSchedule"))
    by (destruct backupData; simpl; congruence).
  now rewrite Hm, Hf.
Qed.

(** C9, as amended. For a body other than [null], Restore answers 400
    exactly when [medicalSchedule] is missing or falsy, and then leaves the
    file as it is. When it is truthy (and the file can be written) the body
    is persisted as [JSON.stringify] writes it: each of its fields with
    [null] in place of every number beyond the range of a double, and
    [lastUpdated] set to the current time. A body that holds no such number
    is persisted as supplied, but for [lastUpdated]. *)
Theorem restore_validation (now : string) (d : disk) (backupData : json) :
  backupData <> JNull ->
  ((exists after, post_restore now d backupData = Replied BadRequest after)
   <-> truthy_or_undefined (field backupData "medicalSchedule") = false)
  /\ (truthy_or_undefined (field backupData "medicalSchedule") = false ->
      post_restore now d backupData = Replied BadRequest d)
  /\ (truthy_or_undefined (field backupData "medicalSchedule") = true ->
      writable d = true ->
      exists props,
        backupData = JObj props /\
        post_restore now d backupData =
          Replied (OK tt)
            {| DATA_FILE :=
                 Content (Encodes (JObj
                   (assign (Obj.map stringified props) "lastUpdated" (JStr now))));
               writable := true |} /\
        (all_finite backupData = true -> Obj.map stringified props = props)).
Proof.
  intros Hnull. split; [|split].
  - destruct (truthy_or_undefined (field backupData "medicalSchedule")) eqn:Ht.
    + split; [|discriminate]. intros [after H].
      destruct (truthy_field_object _ Ht) as [props ->].
      unfold post_restore in H. cbn [member field] in H, Ht. rewrite Ht in H.
      destruct (saveData now d (JObj props)); discriminate.
    + split; [reflexivity|]. intros _. exists d. now apply restore_refuses.
  - now apply restore_refuses.
  - intros Ht Hw. destruct (truthy_field_object _ Ht) as [props ->].
    exists props. split; [reflexivity|]. split.
    + rewrite (restore_saves now d props Ht Hw). unfold JSON_stringify.
      now rewrite stringified_object, assign_map.
    + intros Hfin. apply stringified_all_finite in Hfin.
      rewrite stringified_object in Hfin. now injection Hfin.
Qed.

Lemma restore_validation_witness :
  exists props,
    JObj [("medicalSchedule", JNum (10 ^ 400))] = JObj props /\
    post_restore "t2" monday_disk (JObj [("medicalSchedule", JNum (10 ^ 400))]) =
      Replied (OK tt)
        {| DATA_FILE :=
             Content (Encodes (JObj
               (assign (Obj.map stringified props) "lastUpdated" (JStr "t2"))));
           writable := true |} /\
    (all_finite (JObj [("medicalSchedule", JNum (10 ^ 400))]) = true ->
     Obj.map stringified props = props).
Proof.
  apply (restore_validation "t2" monday_disk (JObj [("medicalSchedule", JNum (10 ^ 400))]));
    [discriminate | reflexivity | reflexivity].
Defined.

(** C9 as stated fails: a body whose [medicalSchedule] field is present and
    falsy is answered 400, and a body that is accepted is not persisted as
    it is: its [lastUpdated] is overwritten, and a number beyond the range
    of a double, such as the [1e400] accepted here as a schedule, is
    persisted as [null]. *)
Lemma restore_rejects_present_field :
  field (JObj [("medicalSchedule", JNum 0)]) "medicalSchedule" = Some (JNum 0)
  /\ post_restore "t2" fresh_disk (JObj [("medicalSchedule", JNum 0)])
     = Replied BadRequest fresh_disk
  /\ post_restore "t2" fresh_disk
       (JObj [("medicalSchedule", JObj []); ("lastUpdated", JStr "t0")])
     = Replied (OK tt)
         {| DATA_FILE := Content (Encodes
              (JObj [("medicalSchedule", JObj []); ("lastUpdated", JStr "t2")]));
            writable := true |}
  /\ post_restore "t2" fresh_disk (JObj [("medicalSchedule", JNum (10 ^ 400))])
     = Replied (OK tt)
         {| DATA_FILE := Content (Encodes
              (JObj [("medicalSchedule", JNull); ("lastUpdated", JStr "t2")]));
            writable := true |}.
Proof. repeat split. Qed.

(** C4, as amended. When the body's [medicalSchedule] is truthy (and the
    file can be written), Restore followed by GetAll yields that
    [medicalSchedule] as [JSON.stringify] writes it, whatever the file held
    before: exactly the [medicalSchedule] supplied when it holds no number
    beyond the range of a double, and [null] in place of each such number
    otherwise. When the field is present and falsy, Restore answers 400 and
    the file stays as it was. *)
Theorem restore_then_get_all (now now' : string) (d d' : disk) (backupData ms : json) :
  field backupData "medicalSchedule" = Some ms ->
  (truthy ms = true -> writable d = true -> writable d' = true ->
   exists after,
     post_restore now d backupData = Replied (OK tt) after /\
     post_restore now d' backupData = Replied (OK tt) after /\
     get_schedule now' after =
       Replied (OK {| data := Some (stringified ms); lastUpdated := Some (JStr now) |})
         after /\
     (all_finite ms = true ->
      get_schedule now' after =
        Replied (OK {| data := Some ms; lastUpdated := Some (JStr now) |}) after))
  /\ (truthy ms = false -> post_restore now d backupData = Replied BadRequest d).
Proof.
  intros Hms.
  destruct backupData as [| | | | |props]; try discriminate.
  cbn [field] in Hms. split.
  - intros Ht Hw Hw'.
    assert (Htruthy : truthy_or_undefined (Obj.get props "medicalSchedule") = true)
      by (rewrite Hms; exact Ht).
    assert (Hget :
      get_schedule now'
        {| DATA_FILE :=
             Content (JSON_stringify (JObj (assign props "lastUpdated" (JStr now))));
           writable := true |}
      = Replied (OK {| data := Some (stringified ms); lastUpdated := Some (JStr now) |})
          {| DATA_FILE :=
               Content (JSON_stringify (JObj (assign props "lastUpdated" (JStr now))));
             writable := true |}).
    { rewrite get_schedule_written.
      rewrite ObjFacts.get_assign_other by discriminate.
      rewrite ObjFacts.get_assign_same by (right; discriminate).
      now rewrite Hms. }
    eexists. split; [now apply restore_saves|]. split; [now apply restore_saves|].
    split; [exact Hget|].
    intros Hfin. rewrite Hget. now rewrite (stringified_all_finite ms Hfin).
  - intros Hf. apply restore_refuses; [discriminate|].
    cbn [field]. now rewrite Hms.
Qed.

Lemma restore_then_get_all_witness :
  exists after,
    post_restore "t2" monday_disk (JObj [("medicalSchedule", JNum (10 ^ 400))])
      = Replied (OK tt) after /\
    post_restore "t2" fresh_disk (JObj [("medicalSchedule", JNum (10 ^ 400))])
      = Replied (OK tt) after /\
    get_schedule "t3" after =
      Replied
        (OK {| data := Some (stringified (JNum (10 ^ 400)));
               lastUpdated := Some (JStr "t2") |}) after /\
    (all_finite (JNum (10 ^ 400)) = true ->
     get_schedule "t3" after =
       Replied (OK {| data := Some (JNum (10 ^ 400)); lastUpdated := Some (JStr "t2") |})
         after).
Proof.
  apply (proj1 (restore_then_get_all "t2" "t3" monday_disk fresh_disk
                  (JObj [("medicalSchedule", JNum (10 ^ 400))]) (JNum (10 ^ 400))
                  eq_refl));
    reflexivity.
Defined.

(** C4 as stated fails: a document that contains a [medicalSchedule] field
    holding [null] is refused, and GetAll goes on returning the schedule
    the file held; and after a document whose [medicalSchedule] is the
    number [1e400] is restored, GetAll yields [null]. *)
Lemma restore_null_schedule_keeps_old :
  field (JObj [("medicalSchedule", JNull)]) "medicalSchedule" = Some JNull
  /\ post_restore "t2" monday_disk (JObj [("medicalSchedule", JNull)])
     = Replied BadRequest monday_disk
  /\ get_schedule "t3" monday_disk
     = Replied (OK {| data := Some (JObj [("card_1", JObj [("Monday", JObj [("09:00", dr_silva)])])]);
                      lastUpdated := Some (JStr "t1") |}) monday_disk
  /\ post_restore "t2" monday_disk (JObj [("medicalSchedule", JNum (10 ^ 400))])
     = Replied (OK tt)
         {| DATA_FILE := Content (Encodes
              (JObj [("medicalSchedule", JNull); ("lastUpdated", JStr "t2")]));
            writable := true |}
  /\ get_schedule "t3"
       {| DATA_FILE := Content (Encodes
            (JObj [("medicalSchedule", JNull); ("lastUpdated", JStr "t2")]));
          writable := true |}
     = Replied (OK {| data := Some JNull; lastUpdated := Some (JStr "t2") |})
         {| DATA_FILE := Content (Encodes
              (JObj [("medicalSchedule", JNull); ("lastUpdated", JStr "t2")]));
            writable := true |}.
Proof. repeat split. Qed.

(** ** The short-query guard of the search *)

Lemma short_guard (q : string) :
  String.length q < 2 -> (q =? "") || (String.length q <? 2)%nat = true.
Proof.
  intros H. apply orb_true_iff. right. now apply Nat.ltb_lt.
Qed.

Lemma long_guard (q : string) :
  2 <= String.length q -> (q =? "") || (String.length q <? 2)%nat = false.
Proof.
  intros Hlen. apply orb_false_iff. split.
  - apply String.eqb_neq. intros ->. simpl in Hlen. lia.
  - apply Nat.ltb_ge. exact Hlen.
Qed.

(** C7 fails on the shape of the reply. The claim has the guard answer with
    the empty grouping [results: {}], which is what a search of two
    characters or more that finds nothing answers; line 143 answers with
    the empty array [results: []]. It does so for every query that is
    absent or shorter than two characters and on every file, which it
    leaves as it is. *)
Theorem short_query_empty_array (toLowerCase : string -> string) (now : string)
    (d : disk) (name : option string) :
  name = None \/ (exists q, name = Some q /\ String.length q < 2) ->
  get_search_doctor toLowerCase now d name = Replied (OK EmptyArray) d
  /\ EmptyArray <> Grouped []
  /\ forall q, 2 <= String.length q ->
       get_search_doctor toLowerCase now fresh_disk (Some q)
       = Replied (OK (Grouped [])) fresh_disk.
Proof.
  intros Hname. split; [|split].
  - destruct Hname as [->|[q [-> Hq]]]; simpl; [reflexivity|].
    now rewrite short_guard.
  - discriminate.
  - intros q Hq. unfold get_search_doctor. now rewrite (long_guard q Hq).
Qed.

Lemma short_query_empty_array_witness :
  get_search_doctor lower "t2" {| DATA_FILE := Unreadable; writable := false |} (Some "a")
  = Replied (OK EmptyArray) {| DATA_FILE := Unreadable; writable := false |}
  /\ EmptyArray <> Grouped []
  /\ forall q, 2 <= String.length q ->
       get_search_doctor lower "t2" fresh_disk (Some q)
       = Replied (OK (Grouped [])) fresh_disk.
Proof.
  apply (short_query_empty_array lower "t2"
           {| DATA_FILE := Unreadable; writable := false |} (Some "a")).
  right. exists "a". split; [reflexivity | simpl; lia].
Defined.

(** On the empty store the guard answers a query of one character with an
    array and the search answers a query of two with an object. *)
Example short_query_not_empty_object :
  get_search_doctor lower "t2" fresh_disk (Some "a") = Replied (OK EmptyArray) fresh_disk
  /\ get_search_doctor lower "t2" fresh_disk (Some "ab") = Replied (OK (Grouped [])) fresh_disk
  /\ EmptyArray <> Grouped [].
Proof. repeat split. discriminate. Qed.

(** ** The specialty of an office *)

Lemma first_part_prefix (prefix rest : string) :
  no_separator prefix = true ->
  first_part prefix = prefix /\ first_part (prefix ++ "_" ++ rest) = prefix.
Proof.
  induction prefix as [|c p IH]; simpl.
  - auto.
  - destruct (c =? "_")%char; simpl; [discriminate|].
    intros H. destruct (IH H) as [H1 H2]. simpl in H2. split; congruence.
Qed.

(** C6, as amended. The prefix of [officeId] before its first ['_'] (all of
    it when there is none) is looked up in the table, whose labels are
    Portuguese: derm gives dermatologia, card cardiologia, oftal
    oftalmologia, ped pediatria, gine ginecologia, psiq psiquiatria, and
    every other prefix that is not a name of [Object.prototype] gives
    geral. So card_201 gives cardiologia and unknown_1 gives geral. *)
Theorem specialty_of_prefix (prefix rest officeId : string) :
  no_separator prefix = true ->
  officeId = prefix \/ officeId = prefix ++ "_" ++ rest ->
  first_part officeId = prefix
  /\ (prefix = "derm" -> getSpecialtyFromOfficeId officeId = Text "dermatologia")
  /\ (prefix = "card" -> getSpecialtyFromOfficeId officeId = Text "cardiologia")
  /\ (prefix = "oftal" -> getSpecialtyFromOfficeId officeId = Text "oftalmologia")
  /\ (prefix = "ped" -> getSpecialtyFromOfficeId officeId = Text "pediatria")
  /\ (prefix = "gine" -> getSpecialtyFromOfficeId officeId = Text "ginecologia")
  /\ (prefix = "psiq" -> getSpecialtyFromOfficeId officeId = Text "psiquiatria")
  /\ (listed prefix = false -> inherited prefix = false ->
      getSpecialtyFromOfficeId officeId = Text "geral")
  /\ getSpecialtyFromOfficeId "card_201" = Text "cardiologia"
  /\ getSpecialtyFromOfficeId "unknown_1" = Text "geral".
Proof.
  intros Hsep Hid.
  assert (Hp : first_part officeId = prefix).
  { destruct (first_part_prefix prefix rest Hsep) as [H1 H2].
    destruct Hid as [->| ->]; assumption. }
  unfold getSpecialtyFromOfficeId. rewrite Hp.
  split; [reflexivity|].
  repeat (split; [intros ->; reflexivity|]).
  split; [|split; reflexivity].
  intros Hl Hi. unfold lookup. rewrite Hi.
  assert (Hg : Obj.get specialtyMap prefix = None).
  { unfold listed in Hl. simpl in Hl. simpl.
    repeat (destruct (prefix =? _); [discriminate|]). reflexivity. }
  now rewrite Hg.
Qed.

Lemma specialty_of_prefix_witness :
  first_part "ped_7" = "ped"
  /\ getSpecialtyFromOfficeId "ped_7" = Text "pediatria"
  /\ getSpecialtyFromOfficeId "sala" = Text "geral".
Proof.
  pose proof (specialty_of_prefix "ped" "7" "ped_7" eq_refl (or_intror eq_refl)) as Hped.
  pose proof (specialty_of_prefix "sala" "" "sala" eq_refl (or_introl eq_refl)) as Hsala.
  split; [apply Hped|].
  split; [apply Hped; reflexivity | apply Hsala; reflexivity].
Defined.

(** C6 as stated fails on the labels: the function answers in Portuguese,
    and a prefix that names a property of [Object.prototype] is answered
    with that built-in. *)
Lemma specialty_labels_portuguese :
  getSpecialtyFromOfficeId "card_201" = Text "cardiologia"
  /\ Text "cardiologia" <> Text "cardiology"
  /\ getSpecialtyFromOfficeId "unknown_1" = Text "geral"
  /\ Text "geral" <> Text "general"
  /\ getSpecialtyFromOfficeId "constructor_1" = Builtin "constructor".
Proof. repeat split; discriminate. Qed.

(** ** What saving leaves in the file *)

Lemma saveData_with_schedule now d props ms :
  saveData now d (with_schedule props ms) =
    if writable d then Returned (saved now props ms) else Threw.
Proof. reflexivity. Qed.

Lemma saved_schedule now props ms v :
  Obj.get props "medicalSchedule" = Some v ->
  Obj.get (assign (Obj.replace props "medicalSchedule" (JObj ms)) "lastUpdated" (JStr now))
    "medicalSchedule" = Some (JObj ms).
Proof.
  intros Hget.
  rewrite ObjFacts.get_assign_other by discriminate.
  rewrite ObjFacts.get_replace_same.
  assert (Hhas : Obj.has props "medicalSchedule" = true)
    by (apply ObjFacts.has_get; eauto).
  now rewrite Hhas.
Qed.

(** The file holds the schedule as [JSON.stringify] wrote it. *)
Lemma persisted_saved now props ms v :
  Obj.get props "medicalSchedule" = Some v ->
  persisted (saved now props ms) = Some (Obj.map stringified ms).
Proof.
  intros Hget. unfold persisted, saved, JSON_stringify. cbn [DATA_FILE].
  rewrite stringified_object. cbn [field].
  now rewrite get_map, (saved_schedule now props ms v Hget).
Qed.

Lemma replace_same_value {A} (o : Obj.t A) k a :
  Obj.get o k = Some a -> Obj.replace o k a = o.
Proof.
  induction o as [|[k0 a0] rest IH]; simpl; [reflexivity|].
  destruct (String.eqb_spec k k0) as [->|Hne].
  - now intros [= ->].
  - intros H. now rewrite IH.
Qed.

Lemma schedule_of_persisted props ms :
  Obj.get props "medicalSchedule" = Some (JObj ms) ->
  schedule_of (JObj props) = Done (props, ms).
Proof. simpl. now intros ->. Qed.

(** The two routes that write a slot, on a document that holds a schedule. *)
Lemma delete_schedule_read now d props ms officeId day timeSlot :
  readData now d = Returned (JObj props) ->
  Obj.get props "medicalSchedule" = Some (JObj ms) ->
  delete_schedule now d officeId day timeSlot =
    match remove_slot ms officeId day timeSlot with
    | Done (Some ms') =>
        if writable d then Replied (OK tt) (saved now props ms')
        else Replied InternalError d
    | Done None => Replied NotFound d
    | Leaves _ => LeavesDocument (JObj props)
    | Throws => Replied InternalError d
    | Unmodelled => NotModelled
    end.
Proof.
  intros Hr Hg.
  unfold delete_schedule. rewrite Hr, (schedule_of_persisted _ _ Hg).
  destruct (remove_slot ms officeId day timeSlot) as [[ms'|]| | |]; try reflexivity.
  rewrite saveData_with_schedule. now destruct (writable d).
Qed.

Lemma delete_schedule_persisted now d ms officeId day timeSlot :
  persisted d = Some ms ->
  exists props,
    DATA_FILE d = Content (Encodes (JObj props)) /\
    Obj.get props "medicalSchedule" = Some (JObj ms) /\
    delete_schedule now d officeId day timeSlot =
      match remove_slot ms officeId day timeSlot with
      | Done (Some ms') =>
          if writable d then Replied (OK tt) (saved now props ms')
          else Replied InternalError d
      | Done None => Replied NotFound d
      | Leaves _ => LeavesDocument (JObj props)
      | Throws => Replied InternalError d
      | Unmodelled => NotModelled
      end.
Proof.
  intros Hp. destruct (readData_persisted now d ms Hp) as [props [Hr [Hf Hg]]].
  exists props. split; [exact Hf|]. split; [exact Hg|].
  now apply delete_schedule_read.
Qed.

Lemma post_schedule_read now d props ms officeId day timeSlot doctorData :
  readData now d = Returned (JObj props) ->
  Obj.get props "medicalSchedule" = Some (JObj ms) ->
  officeId <> "" -> day <> "" -> timeSlot <> "" -> truthy doctorData = true ->
  post_schedule now d (Some officeId) (Some day) (Some timeSlot) (Some doctorData) =
    match store_slot ms officeId day timeSlot doctorData with
    | Done ms' =>
        if writable d
        then Replied (OK (res_json (read_back ms' officeId day timeSlot doctorData)))
               (saved now props ms')
        else Replied InternalError d
    | Leaves ms' => LeavesDocument (with_schedule props ms')
    | Throws => Replied InternalError d
    | Unmodelled => NotModelled
    end.
Proof.
  intros Hr Hg Ho Hd Ht Hdoc.
  unfold post_schedule, given.
  apply String.eqb_neq in Ho, Hd, Ht. rewrite Ho, Hd, Ht, Hdoc. simpl.
  rewrite Hr. simpl. rewrite Hg.
  destruct (store_slot ms officeId day timeSlot doctorData); try reflexivity.
  fold (with_schedule props a). rewrite saveData_with_schedule.
  now destruct (writable d).
Qed.

(** ** The data model under lookups *)

Lemma schedule_ok_office ms officeId v :
  schedule_ok ms = true -> Obj.get ms officeId = Some v ->
  exists office, v = JObj office /\ office_ok v = true.
Proof.
  intros Hok Hget. apply ObjFacts.get_in in Hget.
  unfold schedule_ok in Hok. rewrite forallb_forall in Hok.
  specialize (Hok _ Hget). simpl in Hok.
  destruct v; try discriminate. eauto.
Qed.

Lemma office_ok_day office day v :
  office_ok (JObj office) = true -> Obj.get office day = Some v ->
  exists slots, v = JObj slots /\ day_ok v = true.
Proof.
  intros Hok Hget. apply ObjFacts.get_in in Hget.
  simpl in Hok. rewrite forallb_forall in Hok.
  specialize (Hok _ Hget). simpl in Hok.
  destruct v; try discriminate. eauto.
Qed.

Lemma day_ok_slot slots timeSlot v :
  day_ok (JObj slots) = true -> Obj.get slots timeSlot = Some v -> truthy v = true.
Proof.
  intros Hok Hget. apply ObjFacts.get_in in Hget.
  simpl in Hok. rewrite forallb_forall in Hok.
  exact (Hok _ Hget).
Qed.

(** ** DeleteSlot *)

Lemma falsy_values v :
  In v [JNull; JBool false; JNum 0; JStr ""] <-> truthy v = false.
Proof.
  split.
  - simpl. intros [<-|[<-|[<-|[<-|[]]]]]; reflexivity.
  - destruct v as [|[|]|n|s| |]; simpl; try discriminate; intros H.
    + now left.
    + right. now left.
    + right. right. left. f_equal. apply negb_false_iff, Z.eqb_eq in H. now subst.
    + right. right. right. left. f_equal. apply negb_false_iff, String.eqb_eq in H. now subst.
Qed.



(** C3 fails on a time slot that names a property of [Object.prototype]:
    no assignment is stored at (card_1, Monday, constructor), and DeleteSlot
    answers 200 and rewrites the file where the claim has it answer 404. *)
Theorem delete_inherited_slot_succeeds :
  assignment_at (schedule_data (get_schedule "t2" monday_disk))
    "card_1" "Monday" "constructor" = None
  /\ delete_schedule "t2" monday_disk "card_1" "Monday" "constructor"
     = Replied (OK tt)
         {| DATA_FILE :=
              Content (Encodes (JObj
                [("medicalSchedule",
                  JObj [("card_1", JObj [("Monday", JObj [("09:00", dr_silva)])])]);
                 ("lastUpdated", JStr "t2")]));
            writable := true |}.
Proof. split; reflexivity. Qed.

(** The three ways lines 102-111 go on a schedule of the data model. *)
Lemma remove_slot_cases ms officeId day timeSlot :
  schedule_ok ms = true ->
  remove_slot ms officeId day timeSlot = Done None
  \/ remove_slot ms officeId day timeSlot = Leaves (Some ms)
  \/ exists office slots,
       Obj.get ms officeId = Some (JObj office) /\
       Obj.get office day = Some (JObj slots) /\
       truthy_property (lookup slots timeSlot) = true /\
       remove_slot ms officeId day timeSlot =
         Done (Some (Obj.replace ms officeId (JObj
           match Obj.keys (Obj.delete slots timeSlot) with
           | [] => Obj.delete office day
           | _ :: _ => Obj.replace office day (JObj (Obj.delete slots timeSlot))
           end))).
Proof.
  intros Hok. unfold remove_slot.
  destruct (Obj.get ms officeId) as [v|] eqn:Ho.
  - rewrite (lookup_own _ _ _ Ho).
    destruct (schedule_ok_office _ _ _ Hok Ho) as [office [-> Hoffice]].
    destruct (Obj.get office day) as [v|] eqn:Hd.
    + rewrite (lookup_own _ _ _ Hd).
      destruct (office_ok_day _ _ _ Hoffice Hd) as [slots [-> Hslots]].
      destruct (truthy_property (lookup slots timeSlot)) eqn:Ht.
      * right. right. exists office, slots. auto.
      * now left.
    + unfold lookup. rewrite Hd. destruct (inherited day); auto.
  - unfold lookup. rewrite Ho. destruct (inherited officeId); auto.
Qed.

Lemma days_nonempty_after_remove ms officeId day timeSlot office slots :
  days_nonempty ms ->
  Obj.get ms officeId = Some (JObj office) ->
  days_nonempty
    (Obj.replace ms officeId (JObj
       match Obj.keys (Obj.delete slots timeSlot) with
       | [] => Obj.delete office day
       | _ :: _ => Obj.replace office day (JObj (Obj.delete slots timeSlot))
       end)).
Proof.
  intros Hinv Ho officeId0 office0 day0.
  destruct (String.eqb_spec officeId officeId0) as [<-|Hne].
  - rewrite ObjFacts.get_replace_same.
    assert (Hhas : Obj.has ms officeId = true) by (apply ObjFacts.has_get; eauto).
    rewrite Hhas. intros [= <-].
    destruct (Obj.keys (Obj.delete slots timeSlot)) as [|k ks] eqn:Hk.
    + destruct (String.eqb_spec day day0) as [<-|Hd].
      * rewrite ObjFacts.get_delete_same. discriminate.
      * rewrite ObjFacts.get_delete_other by exact Hd. exact (Hinv _ _ _ Ho).
    + destruct (String.eqb_spec day day0) as [<-|Hd].
      * rewrite ObjFacts.get_replace_same.
        destruct (Obj.has office day); [|discriminate].
        intros [= E]. rewrite E in Hk. discriminate.
      * rewrite ObjFacts.get_replace_other by exact Hd. exact (Hinv _ _ _ Ho).
  - rewrite ObjFacts.get_replace_other by exact Hne. apply Hinv.
Qed.

Lemma persisted_stamped now props ms w :
  Obj.get props "medicalSchedule" = Some (JObj ms) ->
  persisted
    {| DATA_FILE :=
         Content (JSON_stringify (JObj (assign props "lastUpdated" (JStr now))));
       writable := w |}
  = Some (Obj.map stringified ms).
Proof.
  intros Hget. unfold persisted, JSON_stringify. cbn [DATA_FILE].
  rewrite stringified_object. cbn [field]. rewrite get_map.
  rewrite ObjFacts.get_assign_other by discriminate. now rewrite Hget.
Qed.

(** Writing a schedule empties no day. *)
Lemma days_nonempty_stringified ms :
  days_nonempty ms -> days_nonempty (Obj.map stringified ms).
Proof.
  intros Hinv officeId office day. rewrite get_map.
  destruct (Obj.get ms officeId) as [v|] eqn:Ho; [|discriminate].
  cbn [option_map]. intros [= E].
  destruct (stringified_is_object _ _ E) as [office0 [-> ->]].
  rewrite get_map. destruct (Obj.get office0 day) as [w|] eqn:Hd; [|discriminate].
  cbn [option_map]. intros [= E'].
  destruct (stringified_is_object _ _ E') as [slots [-> Hs]].
  destruct slots; [|discriminate]. exact (Hinv _ _ _ Ho Hd).
Qed.

(** C2, as amended. On a schedule of the data model in which no day is
    empty, whatever DeleteSlot answers, the file it leaves holds a schedule
    in which no day is empty: deleting the last time slot under a day
    removes that day's key. The offices are left as they are: an office is
    kept, and persisted, also when its last day is removed. *)
Theorem delete_prunes_days_only (now : string) (d : disk) (ms : Obj.t json)
    (officeId day timeSlot : string) :
  persisted d = Some ms ->
  schedule_ok ms = true ->
  days_nonempty ms ->
  modelled (delete_schedule now d officeId day timeSlot)
  /\ Forall (fun after =>
       exists ms', persisted after = Some ms' /\ days_nonempty ms' /\
                   Obj.keys ms' = Obj.keys ms)
       (may_leave now d (delete_schedule now d officeId day timeSlot))
  /\ (forall office assignment,
        Obj.get ms officeId = Some (JObj office) ->
        Obj.get office day = Some (JObj [(timeSlot, assignment)]) ->
        writable d = true ->
        exists after ms' office',
          delete_schedule now d officeId day timeSlot = Replied (OK tt) after /\
          persisted after = Some ms' /\
          Obj.get ms' officeId = Some (JObj office') /\
          Obj.get office' day = None).
Proof.
  intros Hp Hok Hinv.
  destruct (delete_schedule_persisted now d ms officeId day timeSlot Hp)
    as [props [Hfile [Hget Hdel]]].
  assert (Hsame : exists ms', persisted d = Some ms' /\ days_nonempty ms' /\
                              Obj.keys ms' = Obj.keys ms) by eauto.
  split; [|split].
  - rewrite Hdel.
    destruct (remove_slot_cases ms officeId day timeSlot Hok)
      as [->|[->|[office [slots [_ [_ [_ ->]]]]]]]; simpl; auto.
    now destruct (writable d).
  - rewrite Hdel.
    destruct (remove_slot_cases ms officeId day timeSlot Hok)
      as [->|[->|[office [slots [Ho [Hd [_ ->]]]]]]]; cbn [may_leave].
    + repeat constructor. exact Hsame.
    + unfold saveData, writeFile. cbn [stamp and_then].
      destruct (writable d); repeat constructor; try exact Hsame.
      exists (Obj.map stringified ms).
      split; [now apply persisted_stamped|].
      split; [now apply days_nonempty_stringified | apply keys_map].
    + destruct (writable d); cbn [may_leave]; repeat constructor; try exact Hsame.
      eexists. split; [eapply persisted_saved; exact Hget|].
      split; [apply days_nonempty_stringified; now apply days_nonempty_after_remove|].
      rewrite keys_map. apply ObjFacts.keys_replace.
  - intros office assignment Ho Hd Hw.
    rewrite Hdel. unfold remove_slot.
    rewrite (lookup_own _ _ _ Ho), (lookup_own _ _ _ Hd).
    destruct (schedule_ok_office _ _ _ Hok Ho) as [office0 [E Hoffice]].
    injection E as <-.
    destruct (office_ok_day _ _ _ Hoffice Hd) as [slots0 [_ Hslots]].
    simpl in Hslots. rewrite andb_true_r in Hslots.
    unfold lookup. simpl. rewrite String.eqb_refl. simpl. rewrite Hslots.
    rewrite Hw.
    eexists. eexists. eexists.
    split; [reflexivity|].
    split; [eapply persisted_saved; exact Hget|].
    split.
    + rewrite get_map, ObjFacts.get_replace_same.
      assert (Hhas : Obj.has ms officeId = true) by (apply ObjFacts.has_get; eauto).
      rewrite Hhas. cbn [option_map]. now rewrite stringified_object.
    + now rewrite get_map, ObjFacts.get_delete_same.
Qed.

Lemma delete_prunes_days_only_witness :
  exists after ms' office',
    delete_schedule "t2" monday_disk "card_1" "Monday" "09:00" = Replied (OK tt) after /\
    persisted after = Some ms' /\
    Obj.get ms' "card_1" = Some (JObj office') /\
    Obj.get office' "Monday" = None.
Proof.
  refine (proj2 (proj2
    (delete_prunes_days_only "t2" monday_disk
       [("card_1", JObj [("Monday", JObj [("09:00", dr_silva)])])]
       "card_1" "Monday" "09:00" eq_refl eq_refl _))
    [("Monday", JObj [("09:00", dr_silva)])] dr_silva eq_refl eq_refl eq_refl).
  intros officeId office day. simpl.
  destruct (officeId =? "card_1"); [|discriminate].
  intros [= <-]. simpl.
  destruct (day =? "Monday"); discriminate.
Defined.

(** C2 as stated fails for offices: deleting the only time slot of the only
    day of an office persists that office with nothing under it. *)
Lemma delete_persists_empty_office :
  delete_schedule "t2" monday_disk "card_1" "Monday" "09:00"
  = Replied (OK tt)
      {| DATA_FILE :=
           Content (Encodes (JObj
             [("medicalSchedule", JObj [("card_1", JObj [])]);
              ("lastUpdated", JStr "t2")]));
         writable := true |}.
Proof. reflexivity. Qed.

(** ** SetSlot *)

(** C1 fails on a key that names a property of [Object.prototype].
    With the office id [constructor], line 68 finds the inherited
    constructor, creates no office, and the handler goes on writing on that
    built-in: whether it then saves or not, GetAll has nothing at the
    address. With the time slot [__proto__], line 76 sets the prototype of
    the day instead of a property: the reply carries the assignment, the
    file holds an empty day, and GetAll has nothing at the address. *)
Theorem set_slot_inherited_key_not_stored :
  post_schedule "t1" fresh_disk (Some "constructor") (Some "Monday") (Some "09:00")
    (Some dr_silva)
  = LeavesDocument (empty_document "t1")
  /\ may_leave "t1" fresh_disk (LeavesDocument (B := option json) (empty_document "t1"))
     = [fresh_disk;
        {| DATA_FILE := Content (Encodes (empty_document "t1")); writable := true |}]
  /\ Forall (fun after =>
       exists stamp,
         get_schedule "t2" after
           = Replied (OK {| data := Some (JObj []); lastUpdated := stamp |}) after /\
         assignment_at (schedule_data (get_schedule "t2" after))
           "constructor" "Monday" "09:00" = None)
       [fresh_disk;
        {| DATA_FILE := Content (Encodes (empty_document "t1")); writable := true |}]
  /\ post_schedule "t1" fresh_disk (Some "card_1") (Some "Monday") (Some "__proto__")
       (Some dr_silva)
     = Replied (OK (Some dr_silva))
         {| DATA_FILE :=
              Content (Encodes (JObj
                [("medicalSchedule", JObj [("card_1", JObj [("Monday", JObj [])])]);
                 ("lastUpdated", JStr "t1")]));
            writable := true |}
  /\ assignment_at (Some (JObj [("card_1", JObj [("Monday", JObj [])])]))
       "card_1" "Monday" "__proto__" = None.
Proof.
  split; [reflexivity|]. split; [reflexivity|]. split; [|split; reflexivity].
  repeat constructor; eexists; split; reflexivity.
Qed.

(** ** The search *)

Section Loops.

Context {K S : Type}.

Lemma each_ext (ks : list K) (f g : K -> S -> run S) (s : S) :
  (forall k s', In k ks -> f k s' = g k s') -> each ks f s = each ks g s.
Proof.
  revert s. induction ks as [|k rest IH]; intros s Hfg; simpl; [reflexivity|].
  rewrite (Hfg k s (or_introl eq_refl)).
  destruct (g k s); try reflexivity.
  apply IH. intros k' s' Hin. apply Hfg. now right.
Qed.

Lemma each_app (xs ys : list K) (f : K -> S -> run S) (s : S) :
  each (xs ++ ys) f s =
    match each xs f s with
    | Done s' => each ys f s'
    | stopped => stopped
    end.
Proof.
  revert s. induction xs as [|x rest IH]; intros s; simpl; [reflexivity|].
  destruct (f x s); try reflexivity. apply IH.
Qed.

End Loops.

Lemma each_flat_map {X K S} (xs : list X) (inner : X -> list K)
    (f : K -> S -> run S) (s : S) :
  each xs (fun x s' => each (inner x) f s') s = each (flat_map inner xs) f s.
Proof.
  revert s. induction xs as [|x rest IH]; intros s; simpl; [reflexivity|].
  rewrite each_app. destruct (each (inner x) f s); try reflexivity. apply IH.
Qed.

Lemma each_map {X K S} (xs : list X) (h : X -> K) (f : K -> S -> run S) (s : S) :
  each (map h xs) f s = each xs (fun x s' => f (h x) s') s.
Proof.
  revert s. induction xs as [|x rest IH]; intros s; simpl; [reflexivity|].
  destruct (f (h x) s); try reflexivity. apply IH.
Qed.

Lemma distinct_not_in k ks :
  existsb (String.eqb k) ks = false -> ~ In k ks.
Proof.
  intros H Hin.
  assert (existsb (String.eqb k) ks = true)
    by (apply existsb_exists; exists k; split; [exact Hin | apply String.eqb_refl]).
  congruence.
Qed.

Lemma distinct_nodup ks : distinct ks = true -> NoDup ks.
Proof.
  induction ks as [|k rest IH]; simpl; [constructor|].
  intros H. apply andb_true_iff in H as [H1 H2].
  constructor; [|auto].
  apply distinct_not_in. now apply negb_true_iff.
Qed.

(** A loop over the keys of an object that reads each key back visits the
    own properties in property order. *)
Lemma each_keys {A S} (o : Obj.t A) (f : string -> option A -> S -> run S) (s : S) :
  distinct (Obj.keys o) = true ->
  each (Obj.keys o) (fun k s' => f k (Obj.get o k) s') s
  = each o (fun p s' => f (fst p) (Some (snd p)) s') s.
Proof.
  revert s. induction o as [|[k a] rest IH]; intros s Hd; simpl; [reflexivity|].
  simpl in Hd. apply andb_true_iff in Hd as [Hk Hrest].
  rewrite String.eqb_refl.
  destruct (f k (Some a) s) as [s'| | |]; try reflexivity.
  rewrite <- (IH s' Hrest).
  apply each_ext. intros k' s'' Hin.
  destruct (String.eqb_spec k' k) as [->|Hne]; [|reflexivity].
  exfalso. apply negb_true_iff in Hk. exact (distinct_not_in _ _ Hk Hin).
Qed.

Section SearchFacts.

Variable toLowerCase : string -> string.

Lemma scan_day_occurrences query officeId day v foundDoctors :
  day_searchable v = true ->
  scan_day toLowerCase query officeId day (Some v) foundDoctors
  = each match v with
         | JObj slots => map (fun s => (officeId, day, fst s, snd s)) slots
         | _ => []
         end
      (visit_occurrence toLowerCase query) foundDoctors.
Proof.
  destruct v as [| | | | |slots]; simpl; try discriminate.
  intros H. apply andb_true_iff in H as [Hd _].
  unfold scan_day. simpl.
  rewrite (each_keys slots
             (fun time doctor fd => visit toLowerCase query officeId day time doctor fd)
             foundDoctors Hd).
  now rewrite each_map.
Qed.

Lemma scan_office_occurrences query officeId v foundDoctors :
  office_searchable v = true ->
  scan_office toLowerCase query officeId (Some v) foundDoctors
  = each match v with
         | JObj days =>
             flat_map (fun d =>
               match snd d with
               | JObj slots => map (fun s => (officeId, fst d, fst s, snd s)) slots
               | _ => []
               end) days
         | _ => []
         end
      (visit_occurrence toLowerCase query) foundDoctors.
Proof.
  destruct v as [| | | | |days]; simpl; try discriminate.
  intros H. apply andb_true_iff in H as [Hd Hall].
  unfold scan_office. simpl.
  rewrite (each_keys days
             (fun day slots fd => scan_day toLowerCase query officeId day slots fd)
             foundDoctors Hd).
  rewrite <- each_flat_map.
  apply each_ext. intros [day v] fd Hin. simpl.
  rewrite forallb_forall in Hall.
  apply scan_day_occurrences. exact (Hall _ Hin).
Qed.

Lemma scan_occurrences query ms foundDoctors :
  searchable ms = true ->
  scan toLowerCase query (Some (JObj ms)) foundDoctors
  = each (occurrences ms) (visit_occurrence toLowerCase query) foundDoctors.
Proof.
  intros H. apply andb_true_iff in H as [Hd Hall].
  unfold scan, occurrences. simpl.
  rewrite (each_keys ms
             (fun officeId office fd => scan_office toLowerCase query officeId office fd)
             foundDoctors Hd).
  rewrite <- each_flat_map.
  apply each_ext. intros [officeId v] fd Hin. simpl.
  rewrite forallb_forall in Hall.
  apply scan_office_occurrences. exact (Hall _ Hin).
Qed.

End SearchFacts.

Lemma occurrences_readable ms :
  searchable ms = true -> Forall (fun occ => readable (snd occ) = true) (occurrences ms).
Proof.
  intros H. apply andb_true_iff in H as [_ Hall].
  rewrite forallb_forall in Hall.
  apply Forall_forall. intros occ Hin.
  unfold occurrences in Hin. apply in_flat_map in Hin as [[officeId v] [Ho Hin]].
  specialize (Hall _ Ho). simpl in Hall, Hin.
  destruct v as [| | | | |days]; try discriminate.
  apply andb_true_iff in Hall as [_ Hdays]. rewrite forallb_forall in Hdays.
  apply in_flat_map in Hin as [[day v] [Hd Hin]].
  specialize (Hdays _ Hd). simpl in Hdays, Hin.
  destruct v as [| | | | |slots]; try discriminate.
  apply andb_true_iff in Hdays as [_ Hslots]. rewrite forallb_forall in Hslots.
  apply in_map_iff in Hin as [[time doctor] [<- Hs]]. simpl.
  exact (Hslots _ Hs).
Qed.

Lemma get_push foundDoctors name e n :
  Obj.get (push foundDoctors name e) n =
    if name =? n then
      match Obj.get foundDoctors name with
      | Some g => Some {| schedules := (schedules g ++ [e])%list; specialty := specialty g |}
      | None => None
      end
    else Obj.get foundDoctors n.
Proof.
  unfold push. destruct (Obj.get foundDoctors name) as [g|] eqn:Hg.
  - destruct (String.eqb_spec name n) as [<-|Hne].
    + rewrite ObjFacts.get_replace_same.
      assert (Hhas : Obj.has foundDoctors name = true) by (apply ObjFacts.has_get; eauto).
      now rewrite Hhas.
    + now apply ObjFacts.get_replace_other.
  - destruct (String.eqb_spec name n) as [<-|Hne]; [exact Hg | reflexivity].
Qed.

Lemma keys_push foundDoctors name e :
  Obj.keys (push foundDoctors name e) = Obj.keys foundDoctors.
Proof.
  unfold push. destruct (Obj.get foundDoctors name); [apply ObjFacts.keys_replace | reflexivity].
Qed.

Section GroupingFacts.

Variable toLowerCase : string -> string.

Lemma group_snoc query seen occ n :
  group toLowerCase query (seen ++ [occ]) n =
    if hit toLowerCase query n occ then
      Some match group toLowerCase query seen n with
           | Some g => {| schedules := (schedules g ++ [entry_of occ])%list;
                          specialty := specialty g |}
           | None => {| schedules := [entry_of occ];
                        specialty := getSpecialtyFromOfficeId (office (entry_of occ)) |}
           end
    else group toLowerCase query seen n.
Proof.
  unfold group. rewrite filter_app. simpl.
  destruct (hit toLowerCase query n occ).
  - destruct (filter (hit toLowerCase query n) seen) as [|first rest]; simpl; [reflexivity|].
    now rewrite map_app.
  - now rewrite app_nil_r.
Qed.

Lemma visit_keeps_groups query seen occ foundDoctors :
  readable (snd occ) = true ->
  groups_of toLowerCase query seen foundDoctors ->
  exists foundDoctors',
    visit_occurrence toLowerCase query occ foundDoctors = Done foundDoctors' /\
    groups_of toLowerCase query (seen ++ [occ]) foundDoctors'.
Proof.
  destruct occ as [[[officeId day] time] doctor]. simpl.
  intros Hread [Hnd Hget].
  assert (Hskip : name_of (officeId, day, time, doctor) = None ->
                  groups_of toLowerCase query (seen ++ [(officeId, day, time, doctor)]) foundDoctors).
  { intros Hname. split; [exact Hnd|]. intros n.
    rewrite group_snoc. unfold hit. now rewrite Hname. }
  unfold visit. unfold readable in Hread.
  destruct doctor as [|b|z|s|items|props]; try discriminate;
    try (simpl; eexists; split; [reflexivity | apply Hskip; reflexivity]).
  simpl in Hread, Hskip |- *.
  destruct (Obj.get props "name") as [[|b|z|name|items|ps]|] eqn:Hname;
    try (simpl in Hread |- *;
         solve [ discriminate
               | apply negb_true_iff in Hread; rewrite Hread;
                 eexists; split; [reflexivity | apply Hskip; reflexivity]
               | eexists; split; [reflexivity | apply Hskip; reflexivity] ]).
  apply negb_true_iff in Hread.
  set (occ := (officeId, day, time, JObj props)).
  assert (Hocc : name_of occ = Some name) by (simpl; now rewrite Hname).
  assert (Hentry : entry_of occ =
                   {| office := officeId; day := day; time := time;
                      hours := or_empty (Obj.get props "hours");
                      type := Obj.get props "type";
                      note := or_empty (Obj.get props "note") |}) by reflexivity.
  destruct (matches toLowerCase query name) eqn:Hm.
  - rewrite <- Hentry. rewrite (lookup_plain _ _ Hread), (Hget name).
    destruct (group toLowerCase query seen name) as [g|] eqn:Hg.
    + eexists. split; [reflexivity|]. split; [now rewrite keys_push|].
      intros n. rewrite get_push, group_snoc. unfold hit. rewrite Hocc.
      destruct (String.eqb_spec name n) as [<-|Hne]; simpl.
      * now rewrite Hm, Hget, Hg.
      * apply Hget.
    + eexists. split; [reflexivity|]. split.
      * rewrite keys_push. now apply ObjFacts.nodup_assign.
      * intros n. rewrite get_push, group_snoc. unfold hit. rewrite Hocc.
        destruct (String.eqb_spec name n) as [<-|Hne]; simpl.
        -- rewrite Hm, Hg.
           rewrite ObjFacts.get_assign_same
             by (right; now apply not_inherited_not_proto).
           reflexivity.
        -- rewrite ObjFacts.get_assign_other by exact Hne. apply Hget.
  - eexists. split; [reflexivity|]. split; [exact Hnd|].
    intros n. rewrite group_snoc. unfold hit. rewrite Hocc.
    destruct (String.eqb_spec name n) as [<-|Hne]; simpl; [|apply Hget].
    rewrite Hm. apply Hget.
Qed.

Lemma visit_all_groups query occs :
  Forall (fun occ => readable (snd occ) = true) occs ->
  forall seen foundDoctors,
    groups_of toLowerCase query seen foundDoctors ->
    exists foundDoctors',
      each occs (visit_occurrence toLowerCase query) foundDoctors = Done foundDoctors' /\
      groups_of toLowerCase query (seen ++ occs) foundDoctors'.
Proof.
  induction 1 as [|occ rest Hocc _ IH]; intros seen foundDoctors Hg.
  - exists foundDoctors. rewrite app_nil_r. auto.
  - destruct (visit_keeps_groups query seen occ foundDoctors Hocc Hg)
      as [mid [Hvisit Hmid]].
    destruct (IH _ _ Hmid) as [final [Hrest Hfinal]].
    exists final. simpl. rewrite Hvisit. split; [exact Hrest|].
    now rewrite <- app_assoc in Hfinal.
Qed.

End GroupingFacts.

(** C5, as amended. For a query of at least two characters, on a schedule
    of the data model whose names are strings that [Object.prototype] does
    not hold, the search answers with one group per doctor name that
    contains the query, both taken in lower case, and with no other group.
    A group lists the occurrences of its name in the order of a scan of
    every office, day and time slot, each mapping in its property order
    (array-index keys first, ascending, then the other keys in insertion
    order); its specialty is that of the office of its first occurrence.
    The reply carries each group as [res.json] sends it. *)
Theorem search_groups_by_name (toLowerCase : string -> string) (now : string)
    (d : disk) (query : string) (doc : json) (ms : Obj.t json) :
  2 <= String.length query ->
  readData now d = Returned doc ->
  field doc "medicalSchedule" = Some (JObj ms) ->
  searchable ms = true ->
  exists foundDoctors,
    get_search_doctor toLowerCase now d (Some query)
      = Replied (OK (Grouped foundDoctors)) d /\
    NoDup (Obj.keys foundDoctors) /\
    forall name,
      Obj.get foundDoctors name
      = option_map sent_found (group toLowerCase query (occurrences ms) name).
Proof.
  intros Hlen Hread Hms Hok.
  destruct (visit_all_groups toLowerCase query (occurrences ms)
              (occurrences_readable ms Hok) [] [])
    as [foundDoctors [Hscan [Hnd Hget]]].
  { split; [constructor | reflexivity]. }
  exists (Obj.map sent_found foundDoctors).
  split; [|split; [now rewrite keys_map | intros name; now rewrite get_map, Hget]].
  unfold get_search_doctor.
  assert (Hq : (query =? "") || (String.length query <? 2)%nat = false).
  { apply orb_false_iff. split.
    - apply String.eqb_neq. intros ->. simpl in Hlen. lia.
    - apply Nat.ltb_ge. exact Hlen. }
  rewrite Hq, Hread.
  assert (Hm : member doc "medicalSchedule" = Returned (Some (JObj ms))).
  { destruct doc; simpl in Hms |- *; try discriminate. now rewrite Hms. }
  rewrite Hm, (scan_occurrences toLowerCase query ms [] Hok), Hscan.
  reflexivity.
Qed.

Lemma search_groups_by_name_witness :
  exists foundDoctors,
    get_search_doctor lower "t2" monday_disk (Some "SILVA")
      = Replied (OK (Grouped foundDoctors)) monday_disk /\
    NoDup (Obj.keys foundDoctors) /\
    forall name,
      Obj.get foundDoctors name =
        option_map sent_found
          (group lower "SILVA"
             (occurrences [("card_1", JObj [("Monday", JObj [("09:00", dr_silva)])])])
             name).
Proof.
  apply (search_groups_by_name lower "t2" monday_disk "SILVA"
           (JObj [("medicalSchedule",
                   JObj [("card_1", JObj [("Monday", JObj [("09:00", dr_silva)])])]);
                  ("lastUpdated", JStr "t1")])
           [("card_1", JObj [("Monday", JObj [("09:00", dr_silva)])])]);
    [simpl; lia | reflexivity | reflexivity | reflexivity].
Defined.

(** C5 as stated fails on the scan order. The doctor is written first at
    office card_1 and then at office 201: the file lists 201 first, so the
    search meets it first and reports the specialty of 201, where a scan in
    insertion order meets card_1 first and reports cardiologia. *)
Lemma search_not_in_insertion_order :
  (exists first_disk,
     post_schedule "t1" fresh_disk (Some "card_1") (Some "Monday") (Some "09:00") (Some ana)
       = Replied (OK (Some ana)) first_disk /\
     post_schedule "t2" first_disk (Some "201") (Some "Monday") (Some "09:00") (Some ana)
       = Replied (OK (Some ana)) two_offices_disk)
  /\ get_search_doctor lower "t3" two_offices_disk (Some "ana")
     = Replied
         (OK (Grouped
            [("Ana Souza",
              {| schedules := [ana_at "201"; ana_at "card_1"];
                 specialty := Text "geral" |})]))
         two_offices_disk
  /\ Spec.SearchDoctorsByName lower "ana"
       (Spec.SetSlot (Spec.SetSlot [] "card_1" "Monday" "09:00" ana)
          "201" "Monday" "09:00" ana)
       "Ana Souza"
     = Some {| schedules := [ana_at "card_1"; ana_at "201"];
               specialty := Text "cardiologia" |}.
Proof.
  split; [eexists; split; reflexivity|]. split; reflexivity.
Qed.

(** The spec's example: "ana" matches "Ana Souza" and "mariana". *)
Example search_ana :
  get_search_doctor lower "t2"
    {| DATA_FILE :=
         Content (Encodes (JObj
           [("medicalSchedule",
             JObj [("ped_2",
                    JObj [("Monday",
                           JObj [("08:00", JObj [("name", JStr "Ana Souza")]);
                                 ("09:00", JObj [("name", JStr "mariana")]);
                                 ("10:00", JObj [("name", JStr "Bruno")])]);
                          ("Friday",
                           JObj [("08:00", JObj [("name", JStr "Ana Souza")])])])])]));
       writable := true |}
    (Some "ana")
  = Replied
      (OK (Grouped
         [("Ana Souza",
           {| schedules :=
                [ {| office := "ped_2"; day := "Monday"; time := "08:00";
                     hours := JStr ""; type := None; note := JStr "" |};
                  {| office := "ped_2"; day := "Friday"; time := "08:00";
                     hours := JStr ""; type := None; note := JStr "" |} ];
              specialty := Text "pediatria" |});
          ("mariana",
           {| schedules :=
                [ {| office := "ped_2"; day := "Monday"; time := "09:00";
                     hours := JStr ""; type := None; note := JStr "" |} ];
              specialty := Text "pediatria" |})]))
      {| DATA_FILE :=
           Content (Encodes (JObj
             [("medicalSchedule",
               JObj [("ped_2",
                      JObj [("Monday",
                             JObj [("08:00", JObj [("name", JStr "Ana Souza")]);
                                   ("09:00", JObj [("name", JStr "mariana")]);
                                   ("10:00", JObj [("name", JStr "Bruno")])]);
                            ("Friday",
                             JObj [("08:00", JObj [("name", JStr "Ana Souza")])])])])]));
         writable := true |}.
Proof. reflexivity. Qed.

(** ** SetSlot and DeleteSlot on keys that are not inherited *)

Lemma assignment_at_child ms officeId day timeSlot :
  assignment_at (Some (JObj ms)) officeId day timeSlot
  = Obj.get (child (child ms officeId) day) timeSlot.
Proof.
  unfold assignment_at, child. simpl.
  destruct (Obj.get ms officeId) as [[| | | | |office]|]; simpl; try reflexivity.
  destruct (Obj.get office day) as [[| | | | |slots]|]; reflexivity.
Qed.

Lemma child_replace_same c k o :
  Obj.has c k = true -> child (Obj.replace c k (JObj o)) k = o.
Proof.
  intros H. unfold child. now rewrite ObjFacts.get_replace_same, H.
Qed.

Lemma child_replace_other c k k' v :
  k <> k' -> child (Obj.replace c k v) k' = child c k'.
Proof.
  intros H. unfold child. now rewrite ObjFacts.get_replace_other.
Qed.

Lemma child_delete_same c k : child (Obj.delete c k) k = [].
Proof. unfold child. now rewrite ObjFacts.get_delete_same. Qed.

Lemma child_delete_other c k k' :
  k <> k' -> child (Obj.delete c k) k' = child c k'.
Proof.
  intros H. unfold child. now rewrite ObjFacts.get_delete_other.
Qed.

(** Lines 68-73 on a key that is not inherited, in a mapping whose values
    are objects. *)
Lemma initialise_plain c k :
  inherited k = false ->
  (forall v, Obj.get c k = Some v -> exists o, v = JObj o) ->
  Obj.get (initialise c k) k = Some (JObj (child c k))
  /\ (forall k', k <> k' -> Obj.get (initialise c k) k' = Obj.get c k').
Proof.
  intros Hk Hobj. unfold initialise, child.
  rewrite (lookup_plain _ _ Hk).
  destruct (Obj.get c k) as [v|] eqn:Hget.
  - destruct (Hobj v eq_refl) as [o ->]. simpl. rewrite Hget. auto.
  - simpl. split.
    + apply ObjFacts.get_assign_same. right. now apply not_inherited_not_proto.
    + intros k' Hne. now apply ObjFacts.get_assign_other.
Qed.

Section Forallb.

Variable P : json -> bool.

Lemma forallb_replace o k a :
  forallb (fun x => P (snd x)) o = true -> P a = true ->
  forallb (fun x => P (snd x)) (Obj.replace o k a) = true.
Proof.
  intros Ho Ha. induction o as [|[k0 a0] rest IH]; simpl in *; [reflexivity|].
  apply andb_true_iff in Ho as [H0 Hrest].
  destruct (k =? k0); simpl; [now rewrite Ha | now rewrite H0, IH].
Qed.

Lemma forallb_create o k a :
  forallb (fun x => P (snd x)) o = true -> P a = true ->
  forallb (fun x => P (snd x)) (Obj.create o k a) = true.
Proof.
  intros Ho Ha. induction o as [|[k0 a0] rest IH]; simpl in *; [now rewrite Ha|].
  apply andb_true_iff in Ho as [H0 Hrest].
  destruct (Obj.precedes k k0); simpl; [now rewrite Ha, H0 | now rewrite H0, IH].
Qed.

Lemma forallb_assign o k a :
  forallb (fun x => P (snd x)) o = true -> P a = true ->
  forallb (fun x => P (snd x)) (assign o k a) = true.
Proof.
  intros Ho Ha. unfold assign.
  destruct (Obj.has o k); [now apply forallb_replace|].
  destruct (k =? "__proto__"); [exact Ho | now apply forallb_create].
Qed.

Lemma forallb_delete o k :
  forallb (fun x => P (snd x)) o = true ->
  forallb (fun x => P (snd x)) (Obj.delete o k) = true.
Proof.
  intros Ho. induction o as [|[k0 a0] rest IH]; simpl in *; [reflexivity|].
  apply andb_true_iff in Ho as [H0 Hrest].
  destruct (k =? k0); simpl; [auto | now rewrite H0, IH].
Qed.

End Forallb.

Lemma office_ok_child ms officeId :
  schedule_ok ms = true -> office_ok (JObj (child ms officeId)) = true.
Proof.
  intros Hok. unfold child.
  destruct (Obj.get ms officeId) as [v|] eqn:Hget; [|reflexivity].
  destruct (schedule_ok_office _ _ _ Hok Hget) as [office [-> H]]. exact H.
Qed.

Lemma day_ok_child office day :
  office_ok (JObj office) = true -> day_ok (JObj (child office day)) = true.
Proof.
  intros Hok. unfold child.
  destruct (Obj.get office day) as [v|] eqn:Hget; [|reflexivity].
  destruct (office_ok_day _ _ _ Hok Hget) as [slots [-> H]]. exact H.
Qed.

Lemma initialise_ok (P : json -> bool) c k :
  forallb (fun x => P (snd x)) c = true -> P (JObj []) = true ->
  forallb (fun x => P (snd x)) (initialise c k) = true.
Proof.
  intros Hc He. unfold initialise.
  destruct (truthy_property (lookup c k)); [exact Hc | now apply forallb_assign].
Qed.

(** Lines 68-76 on keys that are not inherited. *)
Lemma store_slot_plain ms officeId day timeSlot doctorData :
  schedule_ok ms = true ->
  inherited officeId = false -> inherited day = false ->
  store_slot ms officeId day timeSlot doctorData =
    Done (Obj.replace (initialise ms officeId) officeId
            (JObj (Obj.replace (initialise (child ms officeId) day) day
                     (JObj (assign (child (child ms officeId) day) timeSlot doctorData))))).
Proof.
  intros Hok Ho Hd. unfold store_slot.
  destruct (initialise_plain ms officeId Ho) as [Hget _].
  { intros v Hv. destruct (schedule_ok_office _ _ _ Hok Hv) as [o [-> _]]. eauto. }
  rewrite (lookup_own _ _ _ Hget).
  destruct (initialise_plain (child ms officeId) day Hd) as [Hget' _].
  { intros v Hv.
    destruct (office_ok_day _ _ _ (office_ok_child ms officeId Hok) Hv) as [o [-> _]].
    eauto. }
  now rewrite (lookup_own _ _ _ Hget').
Qed.

Lemma get_schedule_saved now now' props ms v :
  Obj.get props "medicalSchedule" = Some v ->
  get_schedule now' (saved now props ms)
  = Replied
      (OK {| data := Some (JObj (Obj.map stringified ms));
             lastUpdated := Some (JStr now) |})
      (saved now props ms).
Proof.
  intros Hget. unfold saved. rewrite get_schedule_written.
  rewrite (saved_schedule now props ms v Hget).
  now rewrite ObjFacts.get_assign_same by (right; discriminate).
Qed.

Lemma initialise_stays (P : json -> bool) c k :
  forallb (fun x => P (snd x)) (Obj.map stringified c) = true -> P (JObj []) = true ->
  forallb (fun x => P (snd x)) (Obj.map stringified (initialise c k)) = true.
Proof.
  intros Hc He. unfold initialise.
  destruct (truthy_property (lookup c k)); [exact Hc|].
  rewrite assign_map. now apply forallb_assign.
Qed.

(** The data model after lines 68-76 and the write, when the schedule as
    written was in it and the assignment is truthy as written. *)
Lemma stored_stays_ok ms officeId day timeSlot doctorData :
  schedule_ok (Obj.map stringified ms) = true ->
  truthy (stringified doctorData) = true ->
  schedule_ok
    (Obj.map stringified
       (Obj.replace (initialise ms officeId) officeId
          (JObj (Obj.replace (initialise (child ms officeId) day) day
                   (JObj (assign (child (child ms officeId) day) timeSlot doctorData))))))
  = true.
Proof.
  intros Hok Hdoc. unfold schedule_ok. rewrite replace_map. apply forallb_replace.
  - apply initialise_stays; [exact Hok | reflexivity].
  - rewrite stringified_object. cbn [office_ok]. rewrite replace_map.
    pose proof (office_ok_child _ officeId Hok) as Hoffice.
    rewrite child_stringified in Hoffice.
    apply forallb_replace.
    + apply initialise_stays; [exact Hoffice | reflexivity].
    + rewrite stringified_object. cbn [day_ok]. rewrite assign_map.
      apply forallb_assign; [|exact Hdoc].
      pose proof (day_ok_child _ day Hoffice) as Hday.
      now rewrite child_stringified in Hday.
Qed.

(** SetSlot followed by GetAll, for an office id and a day that
    [Object.prototype] does not hold and a time slot other than
    [__proto__]: the reply carries the assignment as [JSON.stringify]
    writes it (with [null] in place of a number beyond the range of a
    double), GetAll returns that at the address, every other address reads
    what it read, as written, and the schedule stays in the data model when
    it was in it as written and the assignment is truthy as written. *)
Theorem set_slot_then_get_all (now now' : string) (d : disk) (props ms : Obj.t json)
    (officeId day timeSlot : string) (doctorData : json) :
  readData now d = Returned (JObj props) ->
  Obj.get props "medicalSchedule" = Some (JObj ms) ->
  schedule_ok ms = true ->
  writable d = true ->
  officeId <> "" -> day <> "" -> timeSlot <> "" -> truthy doctorData = true ->
  inherited officeId = false -> inherited day = false -> timeSlot <> "__proto__" ->
  exists after ms',
    post_schedule now d (Some officeId) (Some day) (Some timeSlot) (Some doctorData)
      = Replied (OK (Some (stringified doctorData))) after /\
    get_schedule now' after
      = Replied (OK {| data := Some (JObj ms'); lastUpdated := Some (JStr now) |}) after /\
    assignment_at (Some (JObj ms')) officeId day timeSlot
      = Some (stringified doctorData) /\
    (forall o dy t,
       (o, dy, t) <> (officeId, day, timeSlot) ->
       assignment_at (Some (JObj ms')) o dy t
       = option_map stringified (assignment_at (Some (JObj ms)) o dy t)) /\
    (schedule_ok (Obj.map stringified ms) = true ->
     truthy (stringified doctorData) = true ->
     schedule_ok ms' = true).
Proof.
  intros Hr Hg Hok Hw Ho Hd Ht Hdoc Hio Hid Hproto.
  rewrite (post_schedule_read now d props ms officeId day timeSlot doctorData
             Hr Hg Ho Hd Ht Hdoc).
  rewrite (store_slot_plain ms officeId day timeSlot doctorData Hok Hio Hid), Hw.
  set (office0 := child ms officeId).
  set (slots0 := child office0 day).
  set (slots1 := assign slots0 timeSlot doctorData).
  set (office1 := Obj.replace (initialise office0 day) day (JObj slots1)).
  set (ms' := Obj.replace (initialise ms officeId) officeId (JObj office1)).
  destruct (initialise_plain ms officeId Hio) as [Hget Hothers].
  { intros v Hv. destruct (schedule_ok_office _ _ _ Hok Hv) as [o [-> _]]. eauto. }
  destruct (initialise_plain office0 day Hid) as [Hget' Hothers'].
  { intros v Hv.
    destruct (office_ok_day _ _ _ (office_ok_child ms officeId Hok) Hv) as [o [-> _]].
    eauto. }
  assert (Hhas : Obj.has (initialise ms officeId) officeId = true)
    by (apply ObjFacts.has_get; eauto).
  assert (Hhas' : Obj.has (initialise office0 day) day = true)
    by (apply ObjFacts.has_get; eauto).
  assert (Hoffice : Obj.get ms' officeId = Some (JObj office1))
    by (unfold ms'; now rewrite ObjFacts.get_replace_same, Hhas).
  assert (Hday : Obj.get office1 day = Some (JObj slots1))
    by (unfold office1; now rewrite ObjFacts.get_replace_same, Hhas').
  assert (Hslot : Obj.get slots1 timeSlot = Some doctorData)
    by (apply ObjFacts.get_assign_same; now right).
  exists (saved now props ms'), (Obj.map stringified ms').
  split; [|split; [|split; [|split]]].
  - unfold read_back. rewrite Hoffice, Hday, (lookup_own _ _ _ Hslot). reflexivity.
  - eapply get_schedule_saved. exact Hg.
  - rewrite assignment_at_stringified, assignment_at_child. unfold child.
    now rewrite Hoffice, Hday, Hslot.
  - intros o dy t Hne. rewrite assignment_at_stringified. f_equal.
    rewrite !assignment_at_child.
    destruct (String.eqb_spec officeId o) as [<-|Hno].
    + assert (Hc : child ms' officeId = office1) by (unfold child; now rewrite Hoffice).
      rewrite Hc. fold office0.
      destruct (String.eqb_spec day dy) as [<-|Hnd].
      * assert (Hc' : child office1 day = slots1) by (unfold child; now rewrite Hday).
        rewrite Hc'. fold slots0. unfold slots1.
        apply ObjFacts.get_assign_other. congruence.
      * f_equal. unfold child, office1.
        rewrite ObjFacts.get_replace_other by exact Hnd.
        now rewrite (Hothers' _ Hnd).
    + f_equal. f_equal. unfold child, ms'.
      rewrite ObjFacts.get_replace_other by exact Hno.
      now rewrite (Hothers _ Hno).
  - intros Hok' Hdoc'. now apply stored_stays_ok.
Qed.

Lemma set_slot_then_get_all_witness :
  exists after ms',
    post_schedule "t1" fresh_disk (Some "card_1") (Some "Monday") (Some "09:00")
      (Some (JObj [("name", JStr "Dr. Silva"); ("hours", JNum (10 ^ 400))]))
      = Replied
          (OK (Some (stringified
                       (JObj [("name", JStr "Dr. Silva"); ("hours", JNum (10 ^ 400))]))))
          after /\
    get_schedule "t2" after
      = Replied (OK {| data := Some (JObj ms'); lastUpdated := Some (JStr "t1") |}) after /\
    assignment_at (Some (JObj ms')) "card_1" "Monday" "09:00"
      = Some (stringified (JObj [("name", JStr "Dr. Silva"); ("hours", JNum (10 ^ 400))])) /\
    (forall o dy t,
       (o, dy, t) <> ("card_1", "Monday", "09:00") ->
       assignment_at (Some (JObj ms')) o dy t
       = option_map stringified (assignment_at (Some (JObj [])) o dy t)) /\
    (schedule_ok (Obj.map stringified []) = true ->
     truthy (stringified (JObj [("name", JStr "Dr. Silva"); ("hours", JNum (10 ^ 400))]))
       = true ->
     schedule_ok ms' = true).
Proof.
  apply (set_slot_then_get_all "t1" "t2" fresh_disk
           [("medicalSchedule", JObj []); ("lastUpdated", JStr "t1")] []
           "card_1" "Monday" "09:00"
           (JObj [("name", JStr "Dr. Silva"); ("hours", JNum (10 ^ 400))]));
    try reflexivity; discriminate.
Defined.

(** The assignment [1e400] passes line 58 and is stored as [null]. *)
Example set_slot_number_beyond_range :
  post_schedule "t1" fresh_disk (Some "card_1") (Some "Monday") (Some "09:00")
    (Some (JNum (10 ^ 400)))
  = Replied (OK (Some JNull))
      {| DATA_FILE :=
           Content (Encodes (JObj
             [("medicalSchedule",
               JObj [("card_1", JObj [("Monday", JObj [("09:00", JNull)])])]);
              ("lastUpdated", JStr "t1")]));
         writable := true |}.
Proof. reflexivity. Qed.

Lemma keys_nil {A} (o : Obj.t A) : Obj.keys o = [] -> o = [].
Proof. destruct o; [reflexivity | discriminate]. Qed.

(** DeleteSlot followed by GetAll, for keys that [Object.prototype] does
    not hold: 404 and an untouched file when no assignment is stored at the
    address; otherwise success, after which GetAll has no assignment at
    the address and every other address reads what it read, as
    [JSON.stringify] writes it. *)
Theorem delete_slot_then_get_all (now now' : string) (d : disk) (props ms : Obj.t json)
    (officeId day timeSlot : string) :
  readData now d = Returned (JObj props) ->
  Obj.get props "medicalSchedule" = Some (JObj ms) ->
  schedule_ok ms = true ->
  writable d = true ->
  inherited officeId = false -> inherited day = false -> inherited timeSlot = false ->
  (assignment_at (Some (JObj ms)) officeId day timeSlot = None ->
   delete_schedule now d officeId day timeSlot = Replied NotFound d)
  /\ (forall assignment,
        assignment_at (Some (JObj ms)) officeId day timeSlot = Some assignment ->
        exists after ms',
          delete_schedule now d officeId day timeSlot = Replied (OK tt) after /\
          get_schedule now' after
            = Replied (OK {| data := Some (JObj ms'); lastUpdated := Some (JStr now) |})
                after /\
          assignment_at (Some (JObj ms')) officeId day timeSlot = None /\
          forall o dy t,
            (o, dy, t) <> (officeId, day, timeSlot) ->
            assignment_at (Some (JObj ms')) o dy t
            = option_map stringified (assignment_at (Some (JObj ms)) o dy t)).
Proof.
  intros Hr Hg Hok Hw Hio Hid Hit.
  rewrite (delete_schedule_read now d props ms officeId day timeSlot Hr Hg).
  assert (Hcases :
    (assignment_at (Some (JObj ms)) officeId day timeSlot = None /\
     remove_slot ms officeId day timeSlot = Done None)
    \/ exists office slots v,
         Obj.get ms officeId = Some (JObj office) /\
         Obj.get office day = Some (JObj slots) /\
         assignment_at (Some (JObj ms)) officeId day timeSlot = Some v /\
         remove_slot ms officeId day timeSlot =
           Done (Some (Obj.replace ms officeId (JObj
             match Obj.keys (Obj.delete slots timeSlot) with
             | [] => Obj.delete office day
             | _ :: _ => Obj.replace office day (JObj (Obj.delete slots timeSlot))
             end)))).
  { unfold remove_slot, assignment_at. simpl.
    rewrite (lookup_plain _ _ Hio).
    destruct (Obj.get ms officeId) as [v|] eqn:Ho; [|now left].
    destruct (schedule_ok_office _ _ _ Hok Ho) as [office [-> Hoffice]]. simpl.
    rewrite (lookup_plain _ _ Hid).
    destruct (Obj.get office day) as [v|] eqn:Hd; [|now left].
    destruct (office_ok_day _ _ _ Hoffice Hd) as [slots [-> Hslots]]. simpl.
    rewrite (lookup_plain _ _ Hit).
    destruct (Obj.get slots timeSlot) as [v|] eqn:Ht; [|now left].
    cbn [truthy_property]. rewrite (day_ok_slot _ _ _ Hslots Ht).
    right. exists office, slots, v. auto. }
  destruct Hcases as [[Hnone ->]|[office [slots [v [Ho [Hd [Hsome ->]]]]]]].
  { split; [reflexivity|]. intros assignment H. congruence. }
  rewrite Hw. split; [intros Hnone; congruence|].
  intros assignment _.
  set (slots' := Obj.delete slots timeSlot).
  set (office' := match Obj.keys slots' with
                  | [] => Obj.delete office day
                  | _ :: _ => Obj.replace office day (JObj slots')
                  end).
  set (ms' := Obj.replace ms officeId (JObj office')).
  assert (Hhas : Obj.has ms officeId = true) by (apply ObjFacts.has_get; eauto).
  assert (Hhas' : Obj.has office day = true) by (apply ObjFacts.has_get; eauto).
  assert (Hc : child ms' officeId = office') by (now apply child_replace_same).
  assert (Hc0 : child ms officeId = office) by (unfold child; now rewrite Ho).
  assert (Hs0 : child office day = slots) by (unfold child; now rewrite Hd).
  assert (Hs : child office' day = slots').
  { unfold office'. destruct (Obj.keys slots') eqn:Hk.
    - rewrite child_delete_same. symmetry. now apply keys_nil.
    - now apply child_replace_same. }
  exists (saved now props ms'), (Obj.map stringified ms').
  split; [reflexivity|]. split; [eapply get_schedule_saved; exact Hg|]. split.
  - rewrite assignment_at_stringified, assignment_at_child, Hc, Hs.
    unfold slots'. now rewrite ObjFacts.get_delete_same.
  - intros o dy t Hne. rewrite assignment_at_stringified. f_equal.
    rewrite !assignment_at_child.
    destruct (String.eqb_spec officeId o) as [<-|Hno].
    + rewrite Hc, Hc0.
      destruct (String.eqb_spec day dy) as [<-|Hnd].
      * rewrite Hs, Hs0. apply ObjFacts.get_delete_other. congruence.
      * f_equal. unfold office'. destruct (Obj.keys slots').
        -- now apply child_delete_other.
        -- now apply child_replace_other.
    + unfold ms'. now rewrite child_replace_other.
Qed.

Lemma delete_slot_then_get_all_witness :
  exists after ms',
    delete_schedule "t2" monday_disk "card_1" "Monday" "09:00" = Replied (OK tt) after /\
    get_schedule "t3" after
      = Replied (OK {| data := Some (JObj ms'); lastUpdated := Some (JStr "t2") |}) after /\
    assignment_at (Some (JObj ms')) "card_1" "Monday" "09:00" = None /\
    forall o dy t,
      (o, dy, t) <> ("card_1", "Monday", "09:00") ->
      assignment_at (Some (JObj ms')) o dy t
      = option_map stringified
          (assignment_at
             (Some (JObj [("card_1", JObj [("Monday", JObj [("09:00", dr_silva)])])]))
             o dy t).
Proof.
  refine (proj2
    (delete_slot_then_get_all "t2" "t3" monday_disk
       [("medicalSchedule",
         JObj [("card_1", JObj [("Monday", JObj [("09:00", dr_silva)])])]);
        ("lastUpdated", JStr "t1")]
       [("card_1", JObj [("Monday", JObj [("09:00", dr_silva)])])]
       "card_1" "Monday" "09:00"
       eq_refl eq_refl eq_refl eq_refl eq_refl eq_refl eq_refl) dr_silva eq_refl).
Defined.

(** ** Property order *)

Lemma precedes_in_order k k' : Obj.precedes k k' = true -> Obj.in_order k k' = true.
Proof.
  unfold Obj.precedes, Obj.in_order.
  destruct (Obj.array_index k), (Obj.array_index k'); try discriminate; try reflexivity.
  intros H. apply N.ltb_lt in H. apply N.leb_le. lia.
Qed.

Lemma not_precedes_in_order k k' : Obj.precedes k k' = false -> Obj.in_order k' k = true.
Proof.
  unfold Obj.precedes, Obj.in_order.
  destruct (Obj.array_index k), (Obj.array_index k'); try discriminate; try reflexivity.
  intros H. apply N.ltb_ge in H. now apply N.leb_le.
Qed.

Lemma ordered_create {A} (o : Obj.t A) k a :
  Obj.ordered (Obj.keys o) = true -> Obj.ordered (Obj.keys (Obj.create o k a)) = true.
Proof.
  induction o as [|[k0 a0] rest IH]; [reflexivity|].
  intros Hord. cbn [Obj.create].
  destruct (Obj.precedes k k0) eqn:Hp.
  - change (Obj.in_order k k0 && Obj.ordered (Obj.keys ((k0, a0) :: rest)) = true).
    now rewrite (precedes_in_order _ _ Hp), Hord.
  - assert (Hrest : Obj.ordered (Obj.keys rest) = true).
    { destruct rest as [|[k1 a1] rest']; [reflexivity|].
      cbn in Hord. now apply andb_true_iff in Hord as [_ H]. }
    specialize (IH Hrest).
    destruct rest as [|[k1 a1] rest'].
    + cbn. now rewrite (not_precedes_in_order _ _ Hp).
    + cbn [Obj.create] in IH |- *. destruct (Obj.precedes k k1).
      * change (Obj.in_order k0 k
                && Obj.ordered (Obj.keys ((k, a) :: (k1, a1) :: rest')) = true).
        now rewrite (not_precedes_in_order _ _ Hp), IH.
      * change (Obj.in_order k0 k1
                && Obj.ordered (Obj.keys ((k1, a1) :: Obj.create rest' k a)) = true).
        cbn in Hord. apply andb_true_iff in Hord as [H01 _].
        now rewrite H01, IH.
Qed.

(** An assignment leaves the own properties in property order; a new name
    that is no array index goes last. *)
Lemma assign_keeps_property_order {A} (o : Obj.t A) k a :
  Obj.well_formed o ->
  Obj.well_formed (assign o k a)
  /\ (Obj.has o k = false -> k <> "__proto__" -> Obj.array_index k = None ->
      assign o k a = (o ++ [(k, a)])%list).
Proof.
  intros [Hnd Hord]. split.
  - split; [now apply ObjFacts.nodup_assign|].
    unfold assign. destruct (Obj.has o k).
    + now rewrite ObjFacts.keys_replace.
    + destruct (k =? "__proto__"); [exact Hord | now apply ordered_create].
  - intros Hhas Hproto Hidx. unfold assign. rewrite Hhas.
    apply String.eqb_neq in Hproto. rewrite Hproto.
    now apply ObjFacts.create_last.
Qed.

Example array_indices :
  map Obj.array_index ["0"; "7"; "201"; "4294967294"; "4294967295"; "01"; "1a"; ""; "card_1"]
  = [Some 0%N; Some 7%N; Some 201%N; Some 4294967294%N; None; None; None; None; None].
Proof. reflexivity. Qed.

(** Offices written in the order card_1, 201, ped_2, 7 are listed, and so
    scanned, in the order 7, 201, card_1, ped_2. *)
Example property_order :
  Obj.keys
    (assign (assign (assign (assign [] "card_1" JNull) "201" JNull) "ped_2" JNull)
       "7" JNull)
  = ["7"; "201"; "card_1"; "ped_2"].
Proof. reflexivity. Qed.

(** * Further properties of the routes *)

(** ** GetAll on every file *)

(** GetAll answers 500 on exactly one file: the one whose text is the JSON
    [null]. On every other file it answers 200 with the two fields of the
    document [readData] returns, as [res.json] sends them: as they are, but
    for [null] in place of a number beyond the range of a double. On a file
    that is absent, unreadable or unparseable these are the empty schedule
    and the current time. It leaves the file as it is. *)
Theorem get_schedule_replies (now : string) (d : disk) :
  (get_schedule now d = Replied InternalError d
   <-> DATA_FILE d = Content (Encodes JNull))
  /\ (DATA_FILE d <> Content (Encodes JNull) ->
      exists doc,
        readData now d = Returned doc /\
        get_schedule now d
          = Replied (OK {| data := res_json (field doc "medicalSchedule");
                           lastUpdated := res_json (field doc "lastUpdated") |}) d)
  /\ ((forall doc, DATA_FILE d <> Content (Encodes doc)) ->
      get_schedule now d
        = Replied (OK {| data := Some (JObj []); lastUpdated := Some (JStr now) |}) d).
Proof.
  unfold get_schedule, readData, readFile.
  destruct (DATA_FILE d) as [| |[|doc]]; simpl.
  - split; [split; discriminate|]. split; [eauto | reflexivity].
  - split; [split; discriminate|]. split; [eauto | reflexivity].
  - split; [split; discriminate|]. split; [eauto | reflexivity].
  - destruct doc; simpl;
      (split; [split; (discriminate || reflexivity || congruence)|]);
      (split; [intros H; try congruence; eauto | intros H; exfalso; eapply H; reflexivity]).
Qed.

Lemma get_schedule_replies_witness :
  get_schedule "t2" {| DATA_FILE := Content Malformed; writable := true |}
  = Replied (OK {| data := Some (JObj []); lastUpdated := Some (JStr "t2") |})
      {| DATA_FILE := Content Malformed; writable := true |}.
Proof.
  apply (get_schedule_replies "t2" {| DATA_FILE := Content Malformed; writable := true |}).
  intros doc. discriminate.
Defined.

(** ** The validation of SetSlot *)

(** SetSlot answers 400 exactly when the office id, the day or the time slot
    is missing or empty, or the assignment is missing or falsy. It does so
    on every file, and leaves the file as it is. *)
Theorem post_schedule_validation (now : string) (d : disk)
    (officeId day timeSlot : option string) (doctorData : option json) :
  post_schedule now d officeId day timeSlot doctorData = Replied BadRequest d
  <-> missing_key officeId \/ missing_key day \/ missing_key timeSlot
      \/ missing_data doctorData.
Proof.
  unfold missing_key, missing_data. split.
  - intros H.
    destruct officeId as [o|]; [|now left; left].
    destruct (String.eqb_spec o "") as [->|Ho]; [now left; right|].
    destruct day as [dy|]; [|now right; left; left].
    destruct (String.eqb_spec dy "") as [->|Hd]; [now right; left; right|].
    destruct timeSlot as [t|]; [|now right; right; left; left].
    destruct (String.eqb_spec t "") as [->|Ht]; [now right; right; left; right|].
    destruct doctorData as [v|]; [|now right; right; right; left].
    destruct (truthy v) eqn:Hv.
    + exfalso. unfold post_schedule, given in H.
      apply String.eqb_neq in Ho, Hd, Ht. rewrite Ho, Hd, Ht, Hv in H. simpl in H.
      destruct (readData now d) as [doc|]; [|discriminate].
      destruct (schedule_of doc) as [[props ms]| | |]; try discriminate.
      destruct (store_slot ms o dy t v); try discriminate.
      destruct (saveData now d (with_schedule props a)); discriminate.
    + right. right. right. right. exists v. split; [reflexivity|].
      now apply falsy_values.
  - intros [[->| ->]|[[->| ->]|[[->| ->]|[->|[v [-> Hv]]]]]];
      try reflexivity;
      try (destruct officeId; [|reflexivity]);
      try (destruct day; [|reflexivity]);
      try (destruct timeSlot; [|reflexivity]);
      try (destruct doctorData; [|reflexivity]);
      unfold post_schedule, given; simpl;
      try (apply falsy_values in Hv; rewrite Hv);
      now rewrite ?andb_false_r.
Qed.

Lemma post_schedule_validation_witness :
  post_schedule "t2" monday_disk (Some "card_1") (Some "") (Some "09:00") (Some dr_silva)
  = Replied BadRequest monday_disk.
Proof.
  apply (post_schedule_validation "t2" monday_disk
           (Some "card_1") (Some "") (Some "09:00") (Some dr_silva)).
  right. left. right. reflexivity.
Defined.

(** ** Backup *)

Lemma date_part_date (date time : string) :
  no_T date = true -> date_part (date ++ "T" ++ time) = date.
Proof.
  induction date as [|c rest IH]; simpl; [reflexivity|].
  destruct (c =? "T")%char; simpl; [discriminate|].
  intros H. simpl in IH. now rewrite IH.
Qed.

Lemma readData_returns now d : exists doc, readData now d = Returned doc.
Proof.
  unfold readData, readFile.
  destruct (DATA_FILE d) as [| |[|doc]]; simpl; eauto.
Qed.

(** Backup answers 200 on every file, also on the one GetAll fails on: it
    sends the document [readData] returns, whole and as [JSON.stringify]
    writes it, under the name backup_escalas_<date>.json, where the date is
    the part of the time stamp before its ['T'], and leaves the file as it
    is. *)
Theorem get_backup_sends_document (date time : string) (d : disk) :
  no_T date = true ->
  exists doc,
    readData (date ++ "T" ++ time) d = Returned doc /\
    get_backup (date ++ "T" ++ time) d
      = Replied (OK {| filename := "backup_escalas_" ++ date ++ ".json";
                       sent := Encodes (stringified doc) |}) d.
Proof.
  intros Hdate. unfold get_backup.
  destruct (readData_returns (date ++ "T" ++ time) d) as [doc Hread].
  rewrite Hread. exists doc. split; [reflexivity|].
  now rewrite (date_part_date date time Hdate).
Qed.

Lemma get_backup_sends_document_witness :
  exists doc,
    readData ("2024-05-01" ++ "T" ++ "10:00:00.000Z")
      {| DATA_FILE := Content (Encodes JNull); writable := true |} = Returned doc /\
    get_backup ("2024-05-01" ++ "T" ++ "10:00:00.000Z")
      {| DATA_FILE := Content (Encodes JNull); writable := true |}
      = Replied (OK {| filename := "backup_escalas_" ++ "2024-05-01" ++ ".json";
                       sent := Encodes (stringified doc) |})
          {| DATA_FILE := Content (Encodes JNull); writable := true |}.
Proof.
  apply (get_backup_sends_document "2024-05-01" "10:00:00.000Z"
           {| DATA_FILE := Content (Encodes JNull); writable := true |}).
  reflexivity.
Defined.

(** Restoring what Backup sent brings GetAll back to the schedule it
    returned when the backup was taken, whatever the file holds by then,
    provided that schedule is truthy and the file can be written. *)
Theorem backup_then_restore (now now1 now2 : string) (d d' : disk) (ms : json) :
  schedule_data (get_schedule now d) = Some ms ->
  truthy ms = true ->
  writable d' = true ->
  exists name doc after,
    get_backup now d = Replied (OK {| filename := name; sent := Encodes doc |}) d /\
    post_restore now1 d' doc = Replied (OK tt) after /\
    get_schedule now2 after
      = Replied (OK {| data := Some ms; lastUpdated := Some (JStr now1) |}) after.
Proof.
  intros Hdata Ht Hw.
  destruct (readData_returns now d) as [doc Hread].
  unfold get_schedule in Hdata. rewrite Hread in Hdata.
  destruct doc as [| | | | |props];
    cbn [member field schedule_data data res_json option_map] in Hdata;
    try discriminate.
  destruct (Obj.get props "medicalSchedule") as [ms0|] eqn:Hms0; [|discriminate].
  cbn [option_map] in Hdata. injection Hdata as <-.
  exists ("backup_escalas_" ++ date_part now ++ ".json"),
    (JObj (Obj.map stringified props)),
    {| DATA_FILE :=
         Content (JSON_stringify
           (JObj (assign (Obj.map stringified props) "lastUpdated" (JStr now1))));
       writable := true |}.
  split; [unfold get_backup, JSON_stringify; now rewrite Hread|].
  split.
  - apply restore_saves; [|exact Hw]. rewrite get_map, Hms0. exact Ht.
  - rewrite get_schedule_written.
    rewrite ObjFacts.get_assign_other by discriminate.
    rewrite ObjFacts.get_assign_same by (right; discriminate).
    rewrite get_map, Hms0. cbn [res_json option_map].
    now rewrite stringified_twice.
Qed.

Lemma backup_then_restore_witness :
  exists name doc after,
    get_backup "t2" monday_disk
      = Replied (OK {| filename := name; sent := Encodes doc |}) monday_disk /\
    post_restore "t3" fresh_disk doc = Replied (OK tt) after /\
    get_schedule "t4" after
      = Replied
          (OK {| data := Some (JObj [("card_1", JObj [("Monday", JObj [("09:00", dr_silva)])])]);
                 lastUpdated := Some (JStr "t3") |}) after.
Proof.
  apply (backup_then_restore "t2" "t3" "t4" monday_disk fresh_disk
           (JObj [("card_1", JObj [("Monday", JObj [("09:00", dr_silva)])])]));
    reflexivity.
Defined.

(** ** What a successful write leaves *)






(** ** Files that hold no schedule *)

(** On a file that parses but holds no schedule (no [medicalSchedule]
    field, or [null] in it), every valid SetSlot and every DeleteSlot
    answers 500 and leaves the file as it is, while GetAll and the search
    go on answering 200, with the fields as they are ([lastUpdated] as
    [res.json] sends it) and with no result, unless the document itself is
    [null]. *)
Theorem writes_fail_without_schedule (now : string) (d : disk) (doc : json)
    (officeId day timeSlot : string) (doctorData : json) :
  DATA_FILE d = Content (Encodes doc) ->
  field doc "medicalSchedule" = None \/ field doc "medicalSchedule" = Some JNull ->
  officeId <> "" -> day <> "" -> timeSlot <> "" -> truthy doctorData = true ->
  post_schedule now d (Some officeId) (Some day) (Some timeSlot) (Some doctorData)
    = Replied InternalError d
  /\ delete_schedule now d officeId day timeSlot = Replied InternalError d
  /\ (doc <> JNull ->
      get_schedule now d
        = Replied (OK {| data := field doc "medicalSchedule";
                         lastUpdated := res_json (field doc "lastUpdated") |}) d
      /\ forall toLowerCase query,
           2 <= String.length query ->
           get_search_doctor toLowerCase now d (Some query)
             = Replied (OK (Grouped [])) d).
Proof.
  intros Hfile Hms Ho Hd Ht Hdoc.
  assert (Hread : readData now d = Returned doc)
    by (unfold readData, readFile; now rewrite Hfile).
  assert (Hs : schedule_of doc = Throws).
  { destruct doc as [| | | | |props]; try reflexivity. simpl in Hms |- *.
    destruct Hms as [-> | ->]; reflexivity. }
  split; [|split].
  - unfold post_schedule, given.
    apply String.eqb_neq in Ho, Hd, Ht. rewrite Ho, Hd, Ht, Hdoc. simpl.
    now rewrite Hread, Hs.
  - unfold delete_schedule. now rewrite Hread, Hs.
  - intros Hnull.
    assert (Hm : forall name, member doc name = Returned (field doc name))
      by (intros name; destruct doc; simpl; congruence).
    split.
    + unfold get_schedule. rewrite Hread, !Hm.
      destruct Hms as [E|E]; rewrite E; reflexivity.
    + intros toLowerCase query Hlen. unfold get_search_doctor.
      assert (Hq : (query =? "") || (String.length query <? 2)%nat = false).
      { apply orb_false_iff. split.
        - apply String.eqb_neq. intros ->. simpl in Hlen. lia.
        - apply Nat.ltb_ge. exact Hlen. }
      rewrite Hq, Hread, Hm.
      destruct Hms as [-> | ->]; reflexivity.
Qed.

Lemma writes_fail_without_schedule_witness :
  post_schedule "t2" {| DATA_FILE := Content (Encodes (JObj [])); writable := true |}
    (Some "card_1") (Some "Monday") (Some "09:00") (Some dr_silva)
    = Replied InternalError {| DATA_FILE := Content (Encodes (JObj [])); writable := true |}
  /\ delete_schedule "t2" {| DATA_FILE := Content (Encodes (JObj [])); writable := true |}
       "card_1" "Monday" "09:00"
     = Replied InternalError {| DATA_FILE := Content (Encodes (JObj [])); writable := true |}
  /\ (JObj [] <> JNull ->
      get_schedule "t2" {| DATA_FILE := Content (Encodes (JObj [])); writable := true |}
        = Replied (OK {| data := field (JObj []) "medicalSchedule";
                         lastUpdated := res_json (field (JObj []) "lastUpdated") |})
            {| DATA_FILE := Content (Encodes (JObj [])); writable := true |}
      /\ forall toLowerCase query,
           2 <= String.length query ->
           get_search_doctor toLowerCase "t2"
             {| DATA_FILE := Content (Encodes (JObj [])); writable := true |} (Some query)
             = Replied (OK (Grouped []))
                 {| DATA_FILE := Content (Encodes (JObj [])); writable := true |}).
Proof.
  apply (writes_fail_without_schedule "t2"
           {| DATA_FILE := Content (Encodes (JObj [])); writable := true |}
           (JObj []) "card_1" "Monday" "09:00" dr_silva);
    try reflexivity; try discriminate.
  now left.
Defined.

(** SetSlot on a file that is absent, unreadable or unparseable writes a
    new document that holds the new assignment, as [JSON.stringify] writes
    it, and nothing else: what an unparseable file held is replaced. *)
Theorem set_slot_replaces_unparsed_file (now : string) (d : disk)
    (officeId day timeSlot : string) (doctorData : json) :
  (forall doc, DATA_FILE d <> Content (Encodes doc)) ->
  writable d = true ->
  officeId <> "" -> day <> "" -> timeSlot <> "" -> truthy doctorData = true ->
  inherited officeId = false -> inherited day = false -> timeSlot <> "__proto__" ->
  post_schedule now d (Some officeId) (Some day) (Some timeSlot) (Some doctorData)
  = Replied (OK (Some (stringified doctorData)))
      {| DATA_FILE :=
           Content (Encodes (JObj
             [("medicalSchedule",
               JObj [(officeId, JObj [(day, JObj [(timeSlot, stringified doctorData)])])]);
              ("lastUpdated", JStr now)]));
         writable := true |}.
Proof.
  intros Hfile Hw Ho Hd Ht Hdoc Hio Hid Hproto.
  assert (Hread : readData now d = Returned (empty_document now)).
  { unfold readData, readFile.
    destruct (DATA_FILE d) as [| |[|doc]] eqn:E; try reflexivity.
    exfalso. exact (Hfile doc eq_refl). }
  rewrite (post_schedule_read now d _ [] officeId day timeSlot doctorData
             Hread eq_refl Ho Hd Ht Hdoc).
  assert (Hop : (officeId =? "__proto__") = false)
    by (apply String.eqb_neq; now apply not_inherited_not_proto).
  assert (Hdp : (day =? "__proto__") = false)
    by (apply String.eqb_neq; now apply not_inherited_not_proto).
  assert (Htp : (timeSlot =? "__proto__") = false) by (now apply String.eqb_neq).
  unfold store_slot, initialise, lookup, assign. simpl.
  rewrite Hio, Hop. simpl. rewrite String.eqb_refl. simpl.
  rewrite Hid, Hdp. simpl. rewrite !String.eqb_refl. simpl.
  rewrite Htp. simpl. rewrite Hw.
  unfold read_back, lookup, saved, assign, JSON_stringify. simpl.
  rewrite String.eqb_refl. simpl. rewrite String.eqb_refl. simpl.
  now rewrite String.eqb_refl.
Qed.

Lemma set_slot_replaces_unparsed_file_witness :
  post_schedule "t2" {| DATA_FILE := Content Malformed; writable := true |}
    (Some "card_1") (Some "Monday") (Some "09:00")
    (Some (JObj [("name", JStr "Dr. Silva"); ("hours", JNum (10 ^ 400))]))
  = Replied (OK (Some (JObj [("name", JStr "Dr. Silva"); ("hours", JNull)])))
      {| DATA_FILE :=
           Content (Encodes (JObj
             [("medicalSchedule",
               JObj [("card_1",
                      JObj [("Monday",
                             JObj [("09:00",
                                    JObj [("name", JStr "Dr. Silva");
                                          ("hours", JNull)])])])]);
              ("lastUpdated", JStr "t2")]));
         writable := true |}.
Proof.
  apply (set_slot_replaces_unparsed_file "t2"
           {| DATA_FILE := Content Malformed; writable := true |}
           "card_1" "Monday" "09:00"
           (JObj [("name", JStr "Dr. Silva"); ("hours", JNum (10 ^ 400))]));
    try reflexivity; discriminate.
Defined.

(** ** The schedule a write leaves *)

Lemma loads_persisted d ms : persisted d = Some ms -> loads d ms.
Proof.
  intros Hp now. destruct (readData_persisted now d ms Hp) as [props [Hr [_ Hg]]].
  eauto.
Qed.

Lemma loads_unparsed d : (forall doc, DATA_FILE d <> Content (Encodes doc)) -> loads d [].
Proof.
  intros Hfile now. exists [("medicalSchedule", JObj []); ("lastUpdated", JStr now)].
  split; [|reflexivity].
  unfold readData, readFile.
  destruct (DATA_FILE d) as [| |[|doc]] eqn:E; try reflexivity.
  exfalso. exact (Hfile doc eq_refl).
Qed.

(** After a write, a request finds the schedule as [JSON.stringify] wrote
    it. *)
Lemma loads_saved now props ms v :
  Obj.get props "medicalSchedule" = Some v ->
  loads (saved now props ms) (Obj.map stringified ms).
Proof.
  intros Hget now'. unfold saved, readData, readFile, JSON_stringify. cbn [DATA_FILE].
  rewrite stringified_object. cbn [and_then JSON_parse try_catch].
  eexists. split; [reflexivity|].
  now rewrite get_map, (saved_schedule now props ms v Hget).
Qed.

Lemma loads_unique d ms ms' : loads d ms -> loads d ms' -> ms = ms'.
Proof.
  intros H H'. destruct (H "") as [props [Hr Hg]]. destruct (H' "") as [props' [Hr' Hg']].
  congruence.
Qed.

Lemma loads_get_schedule now d ms :
  loads d ms ->
  schedule_data (get_schedule now d) = Some (JObj (Obj.map stringified ms)).
Proof.
  intros H. destruct (H now) as [props [Hr Hg]].
  unfold get_schedule. rewrite Hr. cbn [member field schedule_data data].
  now rewrite Hg.
Qed.

Lemma schedule_data_saved now now' props ms v :
  Obj.get props "medicalSchedule" = Some v ->
  schedule_data (get_schedule now' (saved now props ms))
  = Some (JObj (Obj.map stringified ms)).
Proof.
  intros Hget. now rewrite (get_schedule_saved now now' props ms v Hget).
Qed.

Section Overwrite.

Context {A : Type}.
Implicit Types (o : Obj.t A) (k : string).

Lemma replace_replace o k a b :
  Obj.replace (Obj.replace o k a) k b = Obj.replace o k b.
Proof.
  induction o as [|[k0 a0] rest IH]; simpl; [reflexivity|].
  destruct (k =? k0) eqn:E; simpl; rewrite E; [reflexivity | now rewrite IH].
Qed.

Lemma replace_create o k a b :
  Obj.get o k = None -> Obj.replace (Obj.create o k a) k b = Obj.create o k b.
Proof.
  induction o as [|[k0 a0] rest IH]; simpl.
  - now rewrite String.eqb_refl.
  - destruct (k =? k0) eqn:E; [discriminate|]. intros H.
    destruct (Obj.precedes k k0); simpl.
    + now rewrite String.eqb_refl.
    + now rewrite E, IH.
Qed.

Lemma has_assign o k a :
  Obj.has o k = true \/ k <> "__proto__" -> Obj.has (assign o k a) k = true.
Proof.
  intros H. apply ObjFacts.has_get. exists a. now apply ObjFacts.get_assign_same.
Qed.

(** A second assignment to a property leaves what it alone would leave. *)
Lemma assign_assign o k a b :
  Obj.has o k = true \/ k <> "__proto__" ->
  assign (assign o k a) k b = assign o k b.
Proof.
  intros H. unfold assign at 1. rewrite (has_assign o k a H).
  unfold assign. destruct (Obj.has o k) eqn:Hhas.
  - apply replace_replace.
  - destruct H as [H|H]; [discriminate|].
    apply String.eqb_neq in H. rewrite H.
    apply replace_create. now apply ObjFacts.has_false_get.
Qed.

Lemma filter_absent o k :
  Obj.get o k = None -> filter (fun k' => negb (k' =? k)) (Obj.keys o) = Obj.keys o.
Proof.
  unfold Obj.keys. induction o as [|[k0 a0] rest IH]; simpl; [reflexivity|].
  destruct (k =? k0) eqn:E; [discriminate|]. intros H.
  rewrite (String.eqb_sym k0 k), E. simpl. now rewrite IH.
Qed.

(** A new property moves no other. *)
Lemma filter_keys_create o k a :
  Obj.get o k = None ->
  filter (fun k' => negb (k' =? k)) (Obj.keys (Obj.create o k a)) = Obj.keys o.
Proof.
  unfold Obj.keys. induction o as [|[k0 a0] rest IH]; simpl.
  - now rewrite String.eqb_refl.
  - destruct (k =? k0) eqn:E; [discriminate|]. intros H.
    destruct (Obj.precedes k k0); simpl.
    + rewrite String.eqb_refl, (String.eqb_sym k0 k), E. simpl.
      f_equal. exact (filter_absent rest k H).
    + rewrite (String.eqb_sym k0 k), E. simpl. now rewrite IH.
Qed.

Lemma keys_kept_assign o k a :
  k <> "__proto__" -> keys_kept o k (Obj.keys (assign o k a)).
Proof.
  intros Hp. unfold keys_kept, assign. destruct (Obj.has o k) eqn:Hhas.
  - apply ObjFacts.keys_replace.
  - apply String.eqb_neq in Hp. rewrite Hp.
    apply ObjFacts.has_false_get in Hhas.
    split; [now apply filter_keys_create|]. split.
    + apply ObjFacts.keys_create. now left.
    + intros Hi. rewrite (ObjFacts.create_last o k a Hi).
      unfold Obj.keys. now rewrite map_app.
Qed.

End Overwrite.

Lemma initialise_present c k v :
  Obj.get c k = Some v -> truthy v = true -> initialise c k = c.
Proof.
  intros Hget Ht. unfold initialise. rewrite (lookup_own _ _ _ Hget). simpl.
  now rewrite Ht.
Qed.

Lemma initialise_absent c k :
  Obj.get c k = None -> inherited k = false ->
  initialise c k = assign c k (JObj []).
Proof.
  intros Hget Hk. unfold initialise. rewrite (lookup_plain _ _ Hk), Hget.
  reflexivity.
Qed.

Lemma keys_kept_initialise c k :
  inherited k = false ->
  (forall v, Obj.get c k = Some v -> exists o, v = JObj o) ->
  keys_kept c k (Obj.keys (initialise c k)).
Proof.
  intros Hk Hobj. destruct (Obj.get c k) as [v|] eqn:Hget.
  - destruct (Hobj v eq_refl) as [o ->].
    rewrite (initialise_present c k _ Hget eq_refl).
    unfold keys_kept, Obj.has. now rewrite Hget.
  - rewrite (initialise_absent c k Hget Hk).
    apply keys_kept_assign. now apply not_inherited_not_proto.
Qed.

(** Lines 68-73 go the same way on a mapping as it is and as it is
    written, when what the key holds is an object. *)
Lemma initialise_stringified c k :
  (forall v, Obj.get c k = Some v -> exists o, v = JObj o) ->
  Obj.map stringified (initialise c k) = initialise (Obj.map stringified c) k.
Proof.
  intros Hobj. unfold initialise, lookup. rewrite get_map.
  destruct (Obj.get c k) as [v|] eqn:Hget.
  - destruct (Hobj v eq_refl) as [o ->]. reflexivity.
  - cbn [option_map]. destruct (inherited k); [reflexivity|].
    cbn [truthy_property]. exact (assign_map stringified c k (JObj [])).
Qed.

Lemma schedule_ok_path ms officeId day :
  schedule_ok ms = true -> path_ok ms officeId day.
Proof.
  intros Hok. split; intros v Hv.
  - destruct (schedule_ok_office _ _ _ Hok Hv) as [o [-> _]]. eauto.
  - destruct (office_ok_day _ _ _ (office_ok_child ms officeId Hok) Hv) as [o [-> _]].
    eauto.
Qed.

Lemma path_ok_stringified ms officeId day :
  path_ok ms officeId day -> path_ok (Obj.map stringified ms) officeId day.
Proof.
  intros [Hoffice Hday]. split; intros v.
  - rewrite get_map. destruct (Obj.get ms officeId) as [w|] eqn:E; [|discriminate].
    cbn [option_map]. intros [= <-]. destruct (Hoffice w eq_refl) as [o ->].
    rewrite stringified_object. eauto.
  - rewrite child_stringified, get_map.
    destruct (Obj.get (child ms officeId) day) as [w|] eqn:E; [|discriminate].
    cbn [option_map]. intros [= <-]. destruct (Hday w eq_refl) as [o ->].
    rewrite stringified_object. eauto.
Qed.

Section Stored.

Variables (ms : Obj.t json) (officeId day timeSlot : string) (doctorData : json).
Hypothesis Hpath : path_ok ms officeId day.
Hypothesis Hoffice : inherited officeId = false.
Hypothesis Hday : inherited day = false.

Let office0 := child ms officeId.
Let slots0 := child office0 day.
Let slots1 := assign slots0 timeSlot doctorData.
Let office1 := Obj.replace (initialise office0 day) day (JObj slots1).

(** Lines 68-76 on keys that are not inherited. *)
Lemma store_slot_stored :
  store_slot ms officeId day timeSlot doctorData
  = Done (stored ms officeId day timeSlot doctorData).
Proof.
  unfold store_slot, stored.
  destruct (initialise_plain ms officeId Hoffice (proj1 Hpath)) as [Hget _].
  rewrite (lookup_own _ _ _ Hget).
  destruct (initialise_plain (child ms officeId) day Hday (proj2 Hpath)) as [Hget' _].
  now rewrite (lookup_own _ _ _ Hget').
Qed.

Lemma stored_office :
  Obj.get (stored ms officeId day timeSlot doctorData) officeId = Some (JObj office1).
Proof.
  unfold stored. rewrite ObjFacts.get_replace_same.
  destruct (initialise_plain ms officeId Hoffice (proj1 Hpath)) as [Hget _].
  assert (Hhas : Obj.has (initialise ms officeId) officeId = true)
    by (apply ObjFacts.has_get; eauto).
  now rewrite Hhas.
Qed.

Lemma stored_other_office o :
  officeId <> o ->
  Obj.get (stored ms officeId day timeSlot doctorData) o = Obj.get ms o.
Proof.
  intros Hne. unfold stored. rewrite ObjFacts.get_replace_other by exact Hne.
  destruct (initialise_plain ms officeId Hoffice (proj1 Hpath)) as [_ Hothers].
  now apply Hothers.
Qed.

Lemma stored_day : Obj.get office1 day = Some (JObj slots1).
Proof.
  unfold office1. rewrite ObjFacts.get_replace_same.
  destruct (initialise_plain office0 day Hday (proj2 Hpath)) as [Hget _].
  assert (Hhas : Obj.has (initialise office0 day) day = true)
    by (apply ObjFacts.has_get; eauto).
  now rewrite Hhas.
Qed.

Lemma stored_other_day dy :
  day <> dy -> Obj.get office1 dy = Obj.get office0 dy.
Proof.
  intros Hne. unfold office1. rewrite ObjFacts.get_replace_other by exact Hne.
  destruct (initialise_plain office0 day Hday (proj2 Hpath)) as [_ Hothers].
  now apply Hothers.
Qed.

Lemma stored_children :
  child (stored ms officeId day timeSlot doctorData) officeId = office1
  /\ child office1 day = slots1.
Proof.
  unfold child at 1 2. now rewrite stored_office, stored_day.
Qed.

Lemma stored_path_ok : path_ok (stored ms officeId day timeSlot doctorData) officeId day.
Proof.
  destruct stored_children as [Hc _]. split; intros v.
  - rewrite stored_office. intros [= <-]. eauto.
  - rewrite Hc, stored_day. intros [= <-]. eauto.
Qed.

(** What each address reads after the write. *)
Lemma reads_stored o dy t :
  timeSlot <> "__proto__" ->
  assignment_at (Some (JObj (stored ms officeId day timeSlot doctorData))) o dy t
  = if (o =? officeId) && (dy =? day) && (t =? timeSlot) then Some doctorData
    else assignment_at (Some (JObj ms)) o dy t.
Proof.
  intros Hproto. rewrite !assignment_at_child.
  destruct stored_children as [Hc Hc'].
  destruct (String.eqb_spec o officeId) as [->|Hno]; simpl.
  - rewrite Hc. fold office0.
    destruct (String.eqb_spec dy day) as [->|Hnd]; simpl.
    + rewrite Hc'. fold slots0. unfold slots1.
      destruct (String.eqb_spec t timeSlot) as [->|Hnt].
      * apply ObjFacts.get_assign_same. now right.
      * apply ObjFacts.get_assign_other. congruence.
    + f_equal. unfold child. rewrite stored_other_day by congruence. reflexivity.
  - f_equal. f_equal. unfold child. rewrite stored_other_office by congruence.
    reflexivity.
Qed.

Lemma stored_ok :
  schedule_ok ms = true -> truthy doctorData = true ->
  schedule_ok (stored ms officeId day timeSlot doctorData) = true.
Proof.
  intros Hok Hdoc. unfold schedule_ok, stored. apply forallb_replace.
  - apply initialise_ok; [exact Hok | reflexivity].
  - simpl. apply forallb_replace.
    + apply initialise_ok; [|reflexivity].
      exact (office_ok_child ms officeId Hok).
    + simpl. apply forallb_assign; [|exact Hdoc].
      exact (day_ok_child (child ms officeId) day (office_ok_child ms officeId Hok)).
Qed.

Lemma stored_days_nonempty :
  timeSlot <> "__proto__" -> days_nonempty ms ->
  days_nonempty (stored ms officeId day timeSlot doctorData).
Proof.
  intros Hproto Hinv o office dy.
  destruct (String.eqb_spec officeId o) as [<-|Hno].
  - rewrite stored_office. intros [= <-].
    destruct (String.eqb_spec day dy) as [<-|Hnd].
    + rewrite stored_day. intros [= E].
      assert (Hget : Obj.get slots1 timeSlot = Some doctorData)
        by (apply ObjFacts.get_assign_same; now right).
      rewrite E in Hget. discriminate.
    + rewrite stored_other_day by exact Hnd. unfold office0, child.
      destruct (Obj.get ms officeId) as [v|] eqn:Hget; [|discriminate].
      destruct (proj1 Hpath v Hget) as [office ->].
      exact (Hinv _ _ _ Hget).
  - rewrite stored_other_office by exact Hno. apply Hinv.
Qed.

(** Writing twice at one address leaves what the second write alone would
    leave. *)
Lemma stored_twice doctorData' :
  timeSlot <> "__proto__" ->
  stored (stored ms officeId day timeSlot doctorData) officeId day timeSlot doctorData'
  = stored ms officeId day timeSlot doctorData'.
Proof.
  intros Hproto.
  destruct stored_children as [Hc Hc'].
  unfold stored at 1. rewrite Hc, Hc'.
  rewrite (initialise_present _ _ _ stored_office eq_refl).
  rewrite (initialise_present _ _ _ stored_day eq_refl).
  unfold slots1. rewrite assign_assign by (now right).
  unfold office1. rewrite replace_replace.
  unfold stored. now rewrite replace_replace.
Qed.

(** Lines 68-76 followed by the write, and the same lines on what was
    written before. *)
Lemma stored_stringified :
  Obj.map stringified (stored ms officeId day timeSlot doctorData)
  = stored (Obj.map stringified ms) officeId day timeSlot (stringified doctorData).
Proof.
  unfold stored.
  rewrite replace_map, (initialise_stringified ms officeId (proj1 Hpath)).
  rewrite stringified_object, replace_map.
  rewrite (initialise_stringified (child ms officeId) day (proj2 Hpath)).
  rewrite stringified_object, assign_map.
  now rewrite !child_stringified.
Qed.

Lemma stored_keys :
  timeSlot <> "__proto__" ->
  keys_kept ms officeId (Obj.keys (stored ms officeId day timeSlot doctorData))
  /\ keys_kept (child ms officeId) day
       (Obj.keys (child (stored ms officeId day timeSlot doctorData) officeId))
  /\ keys_kept (child (child ms officeId) day) timeSlot
       (Obj.keys (child (child (stored ms officeId day timeSlot doctorData) officeId) day)).
Proof.
  intros Hproto. destruct stored_children as [Hc Hc']. rewrite Hc, Hc'.
  split; [|split].
  - unfold stored. rewrite ObjFacts.keys_replace.
    apply keys_kept_initialise; [exact Hoffice | exact (proj1 Hpath)].
  - unfold office1. rewrite ObjFacts.keys_replace.
    apply keys_kept_initialise; [exact Hday | exact (proj2 Hpath)].
  - unfold slots1. now apply keys_kept_assign.
Qed.

End Stored.

Lemma read_back_stored ms officeId day timeSlot doctorData :
  path_ok ms officeId day -> inherited officeId = false -> inherited day = false ->
  timeSlot <> "__proto__" ->
  read_back (stored ms officeId day timeSlot doctorData) officeId day timeSlot doctorData
  = Some doctorData.
Proof.
  intros Hpath Ho Hd Hp. unfold read_back.
  rewrite (stored_office ms officeId day timeSlot doctorData Hpath Ho).
  rewrite (stored_day ms officeId day timeSlot doctorData Hpath Hd).
  assert (Hget : Obj.get (assign (child (child ms officeId) day) timeSlot doctorData)
                   timeSlot = Some doctorData)
    by (apply ObjFacts.get_assign_same; now right).
  now rewrite (lookup_own _ _ _ Hget).
Qed.

(** SetSlot on keys that are not inherited, where the office and the day
    are objects. *)
Lemma post_schedule_stored now d props ms officeId day timeSlot doctorData :
  readData now d = Returned (JObj props) ->
  Obj.get props "medicalSchedule" = Some (JObj ms) ->
  path_ok ms officeId day -> writable d = true ->
  officeId <> "" -> day <> "" -> timeSlot <> "" -> truthy doctorData = true ->
  inherited officeId = false -> inherited day = false -> timeSlot <> "__proto__" ->
  post_schedule now d (Some officeId) (Some day) (Some timeSlot) (Some doctorData)
  = Replied (OK (Some (stringified doctorData)))
      (saved now props (stored ms officeId day timeSlot doctorData)).
Proof.
  intros Hr Hg Hpath Hw Ho Hd Ht Hdoc Hio Hid Hproto.
  rewrite (post_schedule_read now d props ms officeId day timeSlot doctorData
             Hr Hg Ho Hd Ht Hdoc).
  rewrite (store_slot_stored ms officeId day timeSlot doctorData Hpath Hio Hid), Hw.
  now rewrite read_back_stored.
Qed.

(** ** Two writes at one address *)

(** A SetSlot after a SetSlot at the same address leaves the schedule the
    second alone would have left: the first assignment is gone whole, no
    field of it is merged into the second. Each reply carries its
    assignment as [JSON.stringify] writes it, and so does GetAll at the
    address. *)
Theorem last_post_wins (now1 now2 now3 : string) (d : disk) (ms : Obj.t json)
    (officeId day timeSlot : string) (first second : json) :
  loads d ms ->
  schedule_ok ms = true -> writable d = true ->
  officeId <> "" -> day <> "" -> timeSlot <> "" ->
  truthy first = true -> truthy second = true ->
  inherited officeId = false -> inherited day = false -> timeSlot <> "__proto__" ->
  exists d1 d2 d2' ms',
    post_schedule now1 d (Some officeId) (Some day) (Some timeSlot) (Some first)
      = Replied (OK (Some (stringified first))) d1 /\
    post_schedule now2 d1 (Some officeId) (Some day) (Some timeSlot) (Some second)
      = Replied (OK (Some (stringified second))) d2 /\
    post_schedule now2 d (Some officeId) (Some day) (Some timeSlot) (Some second)
      = Replied (OK (Some (stringified second))) d2' /\
    schedule_data (get_schedule now3 d2) = Some (JObj ms') /\
    schedule_data (get_schedule now3 d2') = Some (JObj ms') /\
    assignment_at (Some (JObj ms')) officeId day timeSlot = Some (stringified second).
Proof.
  intros Hl Hok Hw Ho Hd Ht Hf Hs Hio Hid Hproto.
  pose proof (schedule_ok_path ms officeId day Hok) as Hpath.
  pose proof (path_ok_stringified ms officeId day Hpath) as Hpath'.
  destruct (Hl now1) as [props1 [Hr1 Hg1]].
  destruct (Hl now2) as [props2 [Hr2 Hg2]].
  set (ms1 := stored ms officeId day timeSlot first).
  set (ms2 := stored ms officeId day timeSlot second).
  assert (Hl1 : loads (saved now1 props1 ms1) (Obj.map stringified ms1))
    by (eapply loads_saved; exact Hg1).
  destruct (Hl1 now2) as [props1' [Hr1' Hg1']].
  assert (E1 : Obj.map stringified ms1
               = stored (Obj.map stringified ms) officeId day timeSlot (stringified first))
    by (now apply stored_stringified).
  assert (Hpath1 : path_ok (Obj.map stringified ms1) officeId day)
    by (rewrite E1; now apply stored_path_ok).
  assert (E2 : Obj.map stringified
                 (stored (Obj.map stringified ms1) officeId day timeSlot second)
               = Obj.map stringified ms2).
  { rewrite (stored_stringified _ officeId day timeSlot second Hpath1).
    rewrite map_stringified_twice, E1.
    rewrite (stored_twice _ officeId day timeSlot _ Hpath' Hio Hid _ Hproto).
    unfold ms2. symmetry. now apply stored_stringified. }
  exists (saved now1 props1 ms1),
    (saved now2 props1' (stored (Obj.map stringified ms1) officeId day timeSlot second)),
    (saved now2 props2 ms2), (Obj.map stringified ms2).
  split; [now apply post_schedule_stored|].
  split; [now apply post_schedule_stored|].
  split; [now apply post_schedule_stored|].
  split.
  - rewrite (schedule_data_saved now2 now3 props1' _ _ Hg1'). now rewrite E2.
  - split; [exact (schedule_data_saved now2 now3 props2 ms2 _ Hg2)|].
    rewrite assignment_at_stringified. unfold ms2.
    rewrite reads_stored by assumption.
    now rewrite !String.eqb_refl.
Qed.

Lemma last_post_wins_witness :
  exists d1 d2 d2' ms',
    post_schedule "t1" fresh_disk (Some "card_1") (Some "Monday") (Some "09:00")
      (Some (JNum (10 ^ 400))) = Replied (OK (Some (stringified (JNum (10 ^ 400))))) d1 /\
    post_schedule "t2" d1 (Some "card_1") (Some "Monday") (Some "09:00") (Some ana)
      = Replied (OK (Some (stringified ana))) d2 /\
    post_schedule "t2" fresh_disk (Some "card_1") (Some "Monday") (Some "09:00") (Some ana)
      = Replied (OK (Some (stringified ana))) d2' /\
    schedule_data (get_schedule "t3" d2) = Some (JObj ms') /\
    schedule_data (get_schedule "t3" d2') = Some (JObj ms') /\
    assignment_at (Some (JObj ms')) "card_1" "Monday" "09:00" = Some (stringified ana).
Proof.
  apply (last_post_wins "t1" "t2" "t3" fresh_disk [] "card_1" "Monday" "09:00"
           (JNum (10 ^ 400)) ana);
    try reflexivity; try discriminate.
  apply loads_unparsed. discriminate.
Defined.

Section Removed.

Variables (ms office slots : Obj.t json) (officeId day timeSlot : string).
Hypothesis Hoffice : Obj.get ms officeId = Some (JObj office).
Hypothesis Hday : Obj.get office day = Some (JObj slots).

Lemma removed_unfolded :
  removed ms officeId day timeSlot
  = Obj.replace ms officeId
      (JObj match Obj.keys (Obj.delete slots timeSlot) with
            | [] => Obj.delete office day
            | _ :: _ => Obj.replace office day (JObj (Obj.delete slots timeSlot))
            end).
Proof.
  unfold removed, child. now rewrite Hoffice, Hday.
Qed.

Lemma remove_slot_removed :
  truthy_property (lookup slots timeSlot) = true ->
  remove_slot ms officeId day timeSlot = Done (Some (removed ms officeId day timeSlot)).
Proof.
  intros Ht. rewrite removed_unfolded. unfold remove_slot.
  now rewrite (lookup_own _ _ _ Hoffice), (lookup_own _ _ _ Hday), Ht.
Qed.

Lemma removed_children :
  exists office',
    Obj.get (removed ms officeId day timeSlot) officeId = Some (JObj office')
    /\ child office' day = Obj.delete slots timeSlot
    /\ (Obj.get office' day = None
        \/ Obj.get office' day = Some (JObj (Obj.delete slots timeSlot)))
    /\ forall dy, day <> dy -> child office' dy = child office dy.
Proof.
  rewrite removed_unfolded.
  assert (Hhas : Obj.has ms officeId = true) by (apply ObjFacts.has_get; eauto).
  assert (Hhas' : Obj.has office day = true) by (apply ObjFacts.has_get; eauto).
  eexists. split; [now rewrite ObjFacts.get_replace_same, Hhas|].
  destruct (Obj.keys (Obj.delete slots timeSlot)) eqn:Hk.
  - split; [|split].
    + rewrite child_delete_same. symmetry. now apply keys_nil.
    + left. apply ObjFacts.get_delete_same.
    + intros dy Hne. now apply child_delete_other.
  - split; [|split].
    + now apply child_replace_same.
    + right. now rewrite ObjFacts.get_replace_same, Hhas'.
    + intros dy Hne. now apply child_replace_other.
Qed.

Lemma removed_path_ok : path_ok (removed ms officeId day timeSlot) officeId day.
Proof.
  destruct removed_children as [office' [Hget [_ [Hd _]]]].
  split; intros v.
  - rewrite Hget. intros [= <-]. eauto.
  - unfold child at 1. rewrite Hget.
    destruct Hd as [-> | ->]; [discriminate|]. intros [= <-]. eauto.
Qed.

(** What each address reads after the removal. *)
Lemma reads_removed o dy t :
  assignment_at (Some (JObj (removed ms officeId day timeSlot))) o dy t
  = if (o =? officeId) && (dy =? day) && (t =? timeSlot) then None
    else assignment_at (Some (JObj ms)) o dy t.
Proof.
  rewrite !assignment_at_child.
  destruct removed_children as [office' [Hget [Hsame [_ Hothers]]]].
  assert (Hc0 : child ms officeId = office) by (unfold child; now rewrite Hoffice).
  assert (Hs0 : child office day = slots) by (unfold child; now rewrite Hday).
  destruct (String.eqb_spec o officeId) as [->|Hno]; simpl.
  - assert (Hc : child (removed ms officeId day timeSlot) officeId = office')
      by (unfold child; now rewrite Hget).
    rewrite Hc, Hc0.
    destruct (String.eqb_spec dy day) as [->|Hnd]; simpl.
    + rewrite Hsame, Hs0.
      destruct (String.eqb_spec t timeSlot) as [->|Hnt].
      * apply ObjFacts.get_delete_same.
      * apply ObjFacts.get_delete_other. congruence.
    + rewrite Hothers by congruence. reflexivity.
  - f_equal. f_equal. rewrite removed_unfolded. apply child_replace_other. congruence.
Qed.

Lemma removed_ok :
  schedule_ok ms = true -> schedule_ok (removed ms officeId day timeSlot) = true.
Proof.
  intros Hok. rewrite removed_unfolded.
  destruct (schedule_ok_office _ _ _ Hok Hoffice) as [office0 [E Hoff]].
  destruct (office_ok_day _ _ _ Hoff Hday) as [slots0 [_ Hslots]].
  unfold schedule_ok. apply forallb_replace; [exact Hok|].
  simpl in Hoff, Hslots |- *.
  destruct (Obj.keys (Obj.delete slots timeSlot)).
  - now apply forallb_delete.
  - apply forallb_replace; [exact Hoff|]. simpl. now apply forallb_delete.
Qed.

Lemma removed_days_nonempty :
  days_nonempty ms -> days_nonempty (removed ms officeId day timeSlot).
Proof.
  intros Hinv. rewrite removed_unfolded.
  now apply days_nonempty_after_remove.
Qed.

End Removed.

(** Lines 106-111 followed by the write, and the same lines on what was
    written before. *)
Lemma removed_stringified ms officeId day timeSlot :
  Obj.map stringified (removed ms officeId day timeSlot)
  = removed (Obj.map stringified ms) officeId day timeSlot.
Proof.
  unfold removed. cbv zeta.
  rewrite replace_map, stringified_object, !child_stringified, <- delete_map, keys_map.
  f_equal. f_equal.
  destruct (Obj.keys (Obj.delete (child (child ms officeId) day) timeSlot));
    [apply delete_map | now rewrite replace_map, stringified_object].
Qed.

Lemma remove_slot_absent ms officeId day timeSlot :
  path_ok ms officeId day ->
  inherited officeId = false -> inherited day = false -> inherited timeSlot = false ->
  assignment_at (Some (JObj ms)) officeId day timeSlot = None ->
  remove_slot ms officeId day timeSlot = Done None.
Proof.
  intros [Hoffice Hday] Hio Hid Hit. unfold remove_slot, assignment_at, child in *.
  cbn [field]. rewrite (lookup_plain _ _ Hio).
  destruct (Obj.get ms officeId) as [v|] eqn:Ho; [|reflexivity].
  destruct (Hoffice v eq_refl) as [office ->]. cbn [field].
  rewrite (lookup_plain _ _ Hid).
  destruct (Obj.get office day) as [v|] eqn:Hd; [|reflexivity].
  destruct (Hday v eq_refl) as [slots ->]. cbn [field].
  rewrite (lookup_plain _ _ Hit).
  now intros ->.
Qed.

Lemma stored_slot_found ms officeId day timeSlot v :
  schedule_ok ms = true ->
  assignment_at (Some (JObj ms)) officeId day timeSlot = Some v ->
  exists office slots,
    Obj.get ms officeId = Some (JObj office) /\
    Obj.get office day = Some (JObj slots) /\
    Obj.get slots timeSlot = Some v /\
    truthy v = true.
Proof.
  intros Hok. unfold assignment_at. simpl.
  destruct (Obj.get ms officeId) as [w|] eqn:Ho; [|discriminate].
  destruct (schedule_ok_office _ _ _ Hok Ho) as [office [-> Hoffice]]. simpl.
  destruct (Obj.get office day) as [w|] eqn:Hd; [|discriminate].
  destruct (office_ok_day _ _ _ Hoffice Hd) as [slots [-> Hslots]]. simpl.
  intros Ht. exists office, slots. repeat split; auto.
  exact (day_ok_slot _ _ _ Hslots Ht).
Qed.

(** DeleteSlot on a stored assignment, on a stored value that is falsy, and
    on an address without an assignment. *)
Lemma delete_schedule_found now d props ms office slots officeId day timeSlot v :
  readData now d = Returned (JObj props) ->
  Obj.get props "medicalSchedule" = Some (JObj ms) ->
  writable d = true ->
  Obj.get ms officeId = Some (JObj office) ->
  Obj.get office day = Some (JObj slots) ->
  Obj.get slots timeSlot = Some v ->
  truthy v = true ->
  delete_schedule now d officeId day timeSlot
  = Replied (OK tt) (saved now props (removed ms officeId day timeSlot)).
Proof.
  intros Hr Hg Hw Ho Hd Ht Htruthy.
  rewrite (delete_schedule_read now d props ms officeId day timeSlot Hr Hg).
  rewrite (remove_slot_removed ms office slots officeId day timeSlot Ho Hd), Hw;
    [reflexivity|].
  rewrite (lookup_own _ _ _ Ht). exact Htruthy.
Qed.

Lemma delete_schedule_falsy now d props ms office slots officeId day timeSlot v :
  readData now d = Returned (JObj props) ->
  Obj.get props "medicalSchedule" = Some (JObj ms) ->
  Obj.get ms officeId = Some (JObj office) ->
  Obj.get office day = Some (JObj slots) ->
  Obj.get slots timeSlot = Some v ->
  truthy v = false ->
  delete_schedule now d officeId day timeSlot = Replied NotFound d.
Proof.
  intros Hr Hg Ho Hd Ht Hfalsy.
  rewrite (delete_schedule_read now d props ms officeId day timeSlot Hr Hg).
  unfold remove_slot.
  rewrite (lookup_own _ _ _ Ho), (lookup_own _ _ _ Hd), (lookup_own _ _ _ Ht).
  cbn [truthy_property]. now rewrite Hfalsy.
Qed.

Lemma delete_schedule_removed now d props ms officeId day timeSlot v :
  readData now d = Returned (JObj props) ->
  Obj.get props "medicalSchedule" = Some (JObj ms) ->
  schedule_ok ms = true -> writable d = true ->
  assignment_at (Some (JObj ms)) officeId day timeSlot = Some v ->
  delete_schedule now d officeId day timeSlot
  = Replied (OK tt) (saved now props (removed ms officeId day timeSlot)).
Proof.
  intros Hr Hg Hok Hw Hv.
  destruct (stored_slot_found ms officeId day timeSlot v Hok Hv)
    as [office [slots [Ho [Hd [Ht Htruthy]]]]].
  now apply (delete_schedule_found now d props ms office slots officeId day timeSlot v).
Qed.

Lemma delete_schedule_absent now d props ms officeId day timeSlot :
  readData now d = Returned (JObj props) ->
  Obj.get props "medicalSchedule" = Some (JObj ms) ->
  path_ok ms officeId day ->
  inherited officeId = false -> inherited day = false -> inherited timeSlot = false ->
  assignment_at (Some (JObj ms)) officeId day timeSlot = None ->
  delete_schedule now d officeId day timeSlot = Replied NotFound d.
Proof.
  intros Hr Hg Hpath Hio Hid Hit Hnone.
  rewrite (delete_schedule_read now d props ms officeId day timeSlot Hr Hg).
  now rewrite (remove_slot_absent ms officeId day timeSlot Hpath Hio Hid Hit Hnone).
Qed.

(** ** How SetSlot and DeleteSlot compose *)

Lemma stringified_option_twice (v : option json) :
  option_map stringified (option_map stringified v) = option_map stringified v.
Proof. exact (res_json_twice v). Qed.

(** SetSlot followed by DeleteSlot at the same address. When the
    assignment is truthy as [JSON.stringify] writes it, DeleteSlot answers
    200 and leaves that address without an assignment and every other
    address reading what it read, as written; the office written to stays
    in the schedule, also when nothing is left under it. When it is not,
    which is the case of a number beyond the range of a double, let through
    by line 58 and stored as [null], DeleteSlot answers 404 and GetAll goes
    on showing the [null] at the address. *)
Theorem set_slot_then_delete_slot (now1 now2 now3 : string) (d : disk) (ms : Obj.t json)
    (officeId day timeSlot : string) (doctorData : json) :
  loads d ms ->
  schedule_ok ms = true -> writable d = true ->
  officeId <> "" -> day <> "" -> timeSlot <> "" -> truthy doctorData = true ->
  inherited officeId = false -> inherited day = false -> timeSlot <> "__proto__" ->
  exists d1,
    post_schedule now1 d (Some officeId) (Some day) (Some timeSlot) (Some doctorData)
      = Replied (OK (Some (stringified doctorData))) d1 /\
    (truthy (stringified doctorData) = true ->
     exists d2 ms2,
       delete_schedule now2 d1 officeId day timeSlot = Replied (OK tt) d2 /\
       schedule_data (get_schedule now3 d2) = Some (JObj ms2) /\
       assignment_at (Some (JObj ms2)) officeId day timeSlot = None /\
       (forall o dy t,
          (o, dy, t) <> (officeId, day, timeSlot) ->
          assignment_at (Some (JObj ms2)) o dy t
          = option_map stringified (assignment_at (Some (JObj ms)) o dy t)) /\
       Obj.has ms2 officeId = true) /\
    (truthy (stringified doctorData) = false ->
     delete_schedule now2 d1 officeId day timeSlot = Replied NotFound d1 /\
     assignment_at (schedule_data (get_schedule now3 d1)) officeId day timeSlot
       = Some (stringified doctorData)).
Proof.
  intros Hl Hok Hw Ho Hd Ht Hdoc Hio Hid Hproto.
  pose proof (schedule_ok_path ms officeId day Hok) as Hpath.
  pose proof (path_ok_stringified ms officeId day Hpath) as Hpath'.
  destruct (Hl now1) as [props [Hr Hg]].
  set (ms1 := stored ms officeId day timeSlot doctorData).
  assert (E1 : Obj.map stringified ms1
               = stored (Obj.map stringified ms) officeId day timeSlot
                   (stringified doctorData))
    by (now apply stored_stringified).
  assert (Hl1 : loads (saved now1 props ms1) (Obj.map stringified ms1))
    by (eapply loads_saved; exact Hg).
  destruct (Hl1 now2) as [props1 [Hr1 Hg1]].
  pose proof (stored_office (Obj.map stringified ms) officeId day timeSlot
                (stringified doctorData) Hpath' Hio) as Ho1.
  pose proof (stored_day (Obj.map stringified ms) officeId day timeSlot
                (stringified doctorData) Hpath' Hid) as Hd1.
  rewrite <- E1 in Ho1.
  assert (Hslot :
    Obj.get
      (assign (child (child (Obj.map stringified ms) officeId) day) timeSlot
         (stringified doctorData))
      timeSlot = Some (stringified doctorData))
    by (apply ObjFacts.get_assign_same; now right).
  assert (Hat : forall o dy t,
    assignment_at (Some (JObj (Obj.map stringified ms1))) o dy t
    = if (o =? officeId) && (dy =? day) && (t =? timeSlot)
      then Some (stringified doctorData)
      else option_map stringified (assignment_at (Some (JObj ms)) o dy t)).
  { intros o dy t. rewrite assignment_at_stringified. unfold ms1.
    rewrite reads_stored by assumption.
    now destruct ((o =? officeId) && (dy =? day) && (t =? timeSlot)). }
  exists (saved now1 props ms1).
  split; [now apply post_schedule_stored|]. split.
  - intros Htruthy.
    exists (saved now2 props1 (removed (Obj.map stringified ms1) officeId day timeSlot)),
      (Obj.map stringified (removed (Obj.map stringified ms1) officeId day timeSlot)).
    split.
    { exact (delete_schedule_found now2 _ props1 _ _ _ officeId day timeSlot _
               Hr1 Hg1 eq_refl Ho1 Hd1 Hslot Htruthy). }
    split; [exact (schedule_data_saved now2 now3 props1 _ _ Hg1)|].
    split; [|split].
    + rewrite assignment_at_stringified.
      rewrite (reads_removed _ _ _ officeId day timeSlot Ho1 Hd1).
      now rewrite !String.eqb_refl.
    + intros o dy t Hne. rewrite assignment_at_stringified.
      rewrite (reads_removed _ _ _ officeId day timeSlot Ho1 Hd1), Hat.
      destruct ((o =? officeId) && (dy =? day) && (t =? timeSlot)) eqn:E.
      * apply andb_true_iff in E as [E Et]. apply andb_true_iff in E as [Eo Ed].
        apply String.eqb_eq in Eo, Ed, Et. congruence.
      * apply stringified_option_twice.
    + rewrite has_map.
      destruct (removed_children _ _ _ officeId day timeSlot Ho1 Hd1)
        as [office' [Hget _]].
      apply ObjFacts.has_get. eauto.
  - intros Hfalsy. split.
    + exact (delete_schedule_falsy now2 _ props1 _ _ _ officeId day timeSlot _
               Hr1 Hg1 Ho1 Hd1 Hslot Hfalsy).
    + rewrite (loads_get_schedule now3 _ _ Hl1), map_stringified_twice, Hat.
      now rewrite !String.eqb_refl.
Qed.

Lemma set_slot_then_delete_slot_witness :
  exists d1,
    post_schedule "t2" monday_disk (Some "ped_2") (Some "Friday") (Some "10:00") (Some ana)
      = Replied (OK (Some (stringified ana))) d1 /\
    (truthy (stringified ana) = true ->
     exists d2 ms2,
       delete_schedule "t3" d1 "ped_2" "Friday" "10:00" = Replied (OK tt) d2 /\
       schedule_data (get_schedule "t4" d2) = Some (JObj ms2) /\
       assignment_at (Some (JObj ms2)) "ped_2" "Friday" "10:00" = None /\
       (forall o dy t,
          (o, dy, t) <> ("ped_2", "Friday", "10:00") ->
          assignment_at (Some (JObj ms2)) o dy t
          = option_map stringified
              (assignment_at
                 (Some (JObj [("card_1", JObj [("Monday", JObj [("09:00", dr_silva)])])]))
                 o dy t)) /\
       Obj.has ms2 "ped_2" = true) /\
    (truthy (stringified ana) = false ->
     delete_schedule "t3" d1 "ped_2" "Friday" "10:00" = Replied NotFound d1 /\
     assignment_at (schedule_data (get_schedule "t4" d1)) "ped_2" "Friday" "10:00"
       = Some (stringified ana)).
Proof.
  apply (set_slot_then_delete_slot "t2" "t3" "t4" monday_disk
           [("card_1", JObj [("Monday", JObj [("09:00", dr_silva)])])]
           "ped_2" "Friday" "10:00" ana);
    try reflexivity; try discriminate.
  now apply loads_persisted.
Defined.

(** SetSlot of [1e400] answers 200, and the DeleteSlot that follows answers
    404. *)
Example set_then_delete_number_beyond_range :
  exists d1,
    post_schedule "t1" fresh_disk (Some "card_1") (Some "Monday") (Some "09:00")
      (Some (JNum (10 ^ 400))) = Replied (OK (Some JNull)) d1 /\
    delete_schedule "t2" d1 "card_1" "Monday" "09:00" = Replied NotFound d1.
Proof. eexists. split; reflexivity. Qed.

(** After a successful DeleteSlot, a second DeleteSlot at the same address
    answers 404 and leaves the file as the first left it, for keys that
    [Object.prototype] does not hold. *)
Theorem delete_slot_twice (now1 now2 : string) (d : disk) (ms : Obj.t json)
    (officeId day timeSlot : string) (assignment : json) :
  loads d ms ->
  schedule_ok ms = true -> writable d = true ->
  inherited officeId = false -> inherited day = false -> inherited timeSlot = false ->
  assignment_at (Some (JObj ms)) officeId day timeSlot = Some assignment ->
  exists d1,
    delete_schedule now1 d officeId day timeSlot = Replied (OK tt) d1 /\
    delete_schedule now2 d1 officeId day timeSlot = Replied NotFound d1.
Proof.
  intros Hl Hok Hw Hio Hid Hit Hat.
  destruct (Hl now1) as [props [Hr Hg]].
  destruct (stored_slot_found ms officeId day timeSlot assignment Hok Hat)
    as [office [slots [Ho [Hd _]]]].
  set (ms1 := removed ms officeId day timeSlot).
  assert (Hl1 : loads (saved now1 props ms1) (Obj.map stringified ms1))
    by (eapply loads_saved; exact Hg).
  destruct (Hl1 now2) as [props1 [Hr1 Hg1]].
  exists (saved now1 props ms1).
  split; [now apply (delete_schedule_removed now1 d props ms _ _ _ assignment)|].
  apply (delete_schedule_absent now2 _ props1 (Obj.map stringified ms1));
    try assumption.
  - apply path_ok_stringified. unfold ms1.
    now apply (removed_path_ok ms office slots).
  - rewrite assignment_at_stringified. unfold ms1.
    rewrite (reads_removed ms office slots officeId day timeSlot Ho Hd).
    now rewrite !String.eqb_refl.
Qed.

Lemma delete_slot_twice_witness :
  exists d1,
    delete_schedule "t2" monday_disk "card_1" "Monday" "09:00" = Replied (OK tt) d1 /\
    delete_schedule "t3" d1 "card_1" "Monday" "09:00" = Replied NotFound d1.
Proof.
  apply (delete_slot_twice "t2" "t3" monday_disk
           [("card_1", JObj [("Monday", JObj [("09:00", dr_silva)])])]
           "card_1" "Monday" "09:00" dr_silva);
    try reflexivity.
  now apply loads_persisted.
Defined.

(** ** What the writes keep *)

Lemma loads_stamped now d props ms after :
  readData now d = Returned (JObj props) ->
  Obj.get props "medicalSchedule" = Some (JObj ms) ->
  saveData now d (JObj props) = Returned after ->
  loads after (Obj.map stringified ms).
Proof.
  intros Hr Hg Hsave. unfold saveData, writeFile in Hsave.
  cbn [stamp and_then] in Hsave.
  destruct (writable d); [|discriminate]. injection Hsave as <-.
  intros now'. unfold readData, readFile, JSON_stringify. cbn [DATA_FILE].
  rewrite stringified_object. cbn [and_then JSON_parse try_catch].
  eexists. split; [reflexivity|].
  rewrite get_map, ObjFacts.get_assign_other by discriminate. now rewrite Hg.
Qed.

Lemma well_kept_written ms :
  schedule_ok ms = true -> days_nonempty ms -> Obj.map stringified ms = ms ->
  well_kept (Obj.map stringified ms).
Proof.
  intros Hok Hinv Hfix. rewrite Hfix. repeat split; assumption.
Qed.

(** A schedule of the data model with no empty day, as the routes write it,
    stays one under SetSlot and DeleteSlot. SetSlot, on an office id and a
    day that [Object.prototype] does not hold, a time slot other than
    [__proto__] and an assignment that is truthy as [JSON.stringify] writes
    it, leaves such a schedule; so does DeleteSlot, on any keys and
    whatever it answers. SetSlot of an assignment that passes line 58 and
    is not truthy as written (a number beyond the range of a double) leaves
    a schedule that is not of the data model: it holds [null] at the
    address. *)
Theorem writes_keep_the_data_model (now : string) (d : disk) (ms : Obj.t json)
    (officeId day timeSlot : string) (doctorData : json) :
  loads d ms ->
  well_kept ms ->
  (writable d = true ->
   officeId <> "" -> day <> "" -> timeSlot <> "" -> truthy doctorData = true ->
   inherited officeId = false -> inherited day = false -> timeSlot <> "__proto__" ->
   exists after ms',
     post_schedule now d (Some officeId) (Some day) (Some timeSlot) (Some doctorData)
       = Replied (OK (Some (stringified doctorData))) after /\
     loads after ms' /\
     (truthy (stringified doctorData) = true -> well_kept ms') /\
     (truthy (stringified doctorData) = false -> schedule_ok ms' = false))
  /\ modelled (delete_schedule now d officeId day timeSlot)
  /\ Forall (fun after => exists ms', loads after ms' /\ well_kept ms')
       (may_leave now d (delete_schedule now d officeId day timeSlot)).
Proof.
  intros Hl [Hok [Hinv Hfix]].
  pose proof (schedule_ok_path ms officeId day Hok) as Hpath.
  destruct (Hl now) as [props [Hr Hg]].
  assert (Hsame : exists ms', loads d ms' /\ well_kept ms')
    by (exists ms; split; [exact Hl | repeat split; assumption]).
  split; [|split].
  - intros Hw Ho Hd Ht Hdoc Hio Hid Hproto.
    assert (E : Obj.map stringified (stored ms officeId day timeSlot doctorData)
                = stored ms officeId day timeSlot (stringified doctorData)).
    { rewrite (stored_stringified ms officeId day timeSlot doctorData Hpath).
      now rewrite Hfix. }
    exists (saved now props (stored ms officeId day timeSlot doctorData)),
      (Obj.map stringified (stored ms officeId day timeSlot doctorData)).
    split; [now apply post_schedule_stored|].
    split; [eapply loads_saved; exact Hg|]. split.
    + intros Htruthy. split; [|split].
      * rewrite E. now apply stored_ok.
      * rewrite E. now apply stored_days_nonempty.
      * apply map_stringified_twice.
    + intros Hfalsy. rewrite E.
      destruct (schedule_ok (stored ms officeId day timeSlot (stringified doctorData)))
        eqn:Hok'; [|reflexivity].
      assert (Hat : assignment_at
                      (Some (JObj (stored ms officeId day timeSlot (stringified doctorData))))
                      officeId day timeSlot = Some (stringified doctorData)).
      { rewrite reads_stored by assumption. now rewrite !String.eqb_refl. }
      destruct (stored_slot_found _ _ _ _ _ Hok' Hat) as [_ [_ [_ [_ [_ Htruthy]]]]].
      congruence.
  - rewrite (delete_schedule_read now d props ms officeId day timeSlot Hr Hg).
    destruct (remove_slot_cases ms officeId day timeSlot Hok)
      as [->|[->|[office [slots [_ [_ [_ ->]]]]]]]; simpl; auto.
    now destruct (writable d).
  - rewrite (delete_schedule_read now d props ms officeId day timeSlot Hr Hg).
    destruct (remove_slot_cases ms officeId day timeSlot Hok)
      as [->|[->|[office [slots [Ho [Hd [_ ->]]]]]]]; cbn [may_leave].
    + repeat constructor. exact Hsame.
    + destruct (saveData now d (JObj props)) as [after|] eqn:Hsave;
        repeat constructor; try exact Hsame.
      exists (Obj.map stringified ms).
      split; [exact (loads_stamped now d props ms after Hr Hg Hsave)|].
      now apply well_kept_written.
    + destruct (writable d); cbn [may_leave]; repeat constructor; try exact Hsame.
      rewrite <- (removed_unfolded ms office slots officeId day timeSlot Ho Hd).
      exists (Obj.map stringified (removed ms officeId day timeSlot)).
      split; [eapply loads_saved; exact Hg|].
      apply well_kept_written.
      * now apply (removed_ok ms office slots).
      * now apply (removed_days_nonempty ms office slots).
      * now rewrite removed_stringified, Hfix.
Qed.

Lemma writes_keep_the_data_model_witness :
  (exists after ms',
     post_schedule "t2" monday_disk (Some "ped_2") (Some "Friday") (Some "10:00") (Some ana)
       = Replied (OK (Some (stringified ana))) after /\
     loads after ms' /\
     (truthy (stringified ana) = true -> well_kept ms') /\
     (truthy (stringified ana) = false -> schedule_ok ms' = false))
  /\ (exists after ms',
        post_schedule "t2" monday_disk (Some "ped_2") (Some "Friday") (Some "10:00")
          (Some (JNum (10 ^ 400)))
          = Replied (OK (Some (stringified (JNum (10 ^ 400))))) after /\
        loads after ms' /\
        (truthy (stringified (JNum (10 ^ 400))) = true -> well_kept ms') /\
        (truthy (stringified (JNum (10 ^ 400))) = false -> schedule_ok ms' = false))
  /\ Forall (fun after => exists ms', loads after ms' /\ well_kept ms')
       (may_leave "t2" monday_disk
          (delete_schedule "t2" monday_disk "card_1" "Monday" "09:00")).
Proof.
  assert (Hkept : well_kept [("card_1", JObj [("Monday", JObj [("09:00", dr_silva)])])]).
  { split; [reflexivity|]. split; [|reflexivity].
    intros officeId office day. simpl.
    destruct (officeId =? "card_1"); [|discriminate].
    intros [= <-]. simpl. destruct (day =? "Monday"); discriminate. }
  split; [|split].
  - apply (writes_keep_the_data_model "t2" monday_disk
             [("card_1", JObj [("Monday", JObj [("09:00", dr_silva)])])]
             "ped_2" "Friday" "10:00" ana
             (loads_persisted monday_disk
                [("card_1", JObj [("Monday", JObj [("09:00", dr_silva)])])] eq_refl)
             Hkept);
      try reflexivity; discriminate.
  - apply (writes_keep_the_data_model "t2" monday_disk
             [("card_1", JObj [("Monday", JObj [("09:00", dr_silva)])])]
             "ped_2" "Friday" "10:00" (JNum (10 ^ 400))
             (loads_persisted monday_disk
                [("card_1", JObj [("Monday", JObj [("09:00", dr_silva)])])] eq_refl)
             Hkept);
      try reflexivity; discriminate.
  - apply (writes_keep_the_data_model "t2" monday_disk
             [("card_1", JObj [("Monday", JObj [("09:00", dr_silva)])])]
             "card_1" "Monday" "09:00" ana
             (loads_persisted monday_disk
                [("card_1", JObj [("Monday", JObj [("09:00", dr_silva)])])] eq_refl)
             Hkept).
Defined.

(** ** The order of the keys *)

(** SetSlot moves no key that is there, for an office id and a day that
    [Object.prototype] does not hold and a time slot other than
    [__proto__]. In each of the three mappings it writes to (the schedule,
    the office, the day) the keys GetAll lists afterwards are those it
    listed, in their order, with the new key put in when it was not there:
    last when it is no array index. Every other office, every other day of
    the office and every other time slot of the day is returned as it was,
    as [JSON.stringify] writes it. *)
Theorem set_slot_keeps_key_order (now now' : string) (d : disk) (ms : Obj.t json)
    (officeId day timeSlot : string) (doctorData : json) :
  loads d ms ->
  schedule_ok ms = true -> writable d = true ->
  officeId <> "" -> day <> "" -> timeSlot <> "" -> truthy doctorData = true ->
  inherited officeId = false -> inherited day = false -> timeSlot <> "__proto__" ->
  exists after ms',
    post_schedule now d (Some officeId) (Some day) (Some timeSlot) (Some doctorData)
      = Replied (OK (Some (stringified doctorData))) after /\
    schedule_data (get_schedule now' after) = Some (JObj ms') /\
    keys_kept ms officeId (Obj.keys ms') /\
    keys_kept (child ms officeId) day (Obj.keys (child ms' officeId)) /\
    keys_kept (child (child ms officeId) day) timeSlot
      (Obj.keys (child (child ms' officeId) day)) /\
    (forall o, o <> officeId ->
       Obj.get ms' o = option_map stringified (Obj.get ms o)) /\
    (forall dy, dy <> day ->
       Obj.get (child ms' officeId) dy
       = option_map stringified (Obj.get (child ms officeId) dy)) /\
    (forall t, t <> timeSlot ->
       Obj.get (child (child ms' officeId) day) t
       = option_map stringified (Obj.get (child (child ms officeId) day) t)).
Proof.
  intros Hl Hok Hw Ho Hd Ht Hdoc Hio Hid Hproto.
  pose proof (schedule_ok_path ms officeId day Hok) as Hpath.
  destruct (Hl now) as [props [Hr Hg]].
  destruct (stored_keys ms officeId day timeSlot doctorData Hpath Hio Hid Hproto)
    as [Hk1 [Hk2 Hk3]].
  destruct (stored_children ms officeId day timeSlot doctorData Hpath Hio Hid)
    as [Hc Hc'].
  exists (saved now props (stored ms officeId day timeSlot doctorData)),
    (Obj.map stringified (stored ms officeId day timeSlot doctorData)).
  split; [now apply post_schedule_stored|].
  split; [exact (schedule_data_saved now now' props _ _ Hg)|].
  rewrite !child_stringified, !keys_map.
  split; [exact Hk1|]. split; [exact Hk2|]. split; [exact Hk3|].
  split; [|split].
  - intros o Hne. rewrite get_map. f_equal.
    apply (stored_other_office ms officeId day timeSlot doctorData Hpath Hio).
    congruence.
  - intros dy Hne. rewrite get_map, Hc. f_equal.
    apply (stored_other_day ms officeId day timeSlot doctorData Hpath Hid).
    congruence.
  - intros t Hne. rewrite get_map, Hc, Hc'. f_equal.
    apply ObjFacts.get_assign_other. congruence.
Qed.

Lemma set_slot_keeps_key_order_witness :
  exists after ms',
    post_schedule "t2" monday_disk (Some "201") (Some "Friday") (Some "10:00") (Some ana)
      = Replied (OK (Some (stringified ana))) after /\
    schedule_data (get_schedule "t3" after) = Some (JObj ms') /\
    keys_kept [("card_1", JObj [("Monday", JObj [("09:00", dr_silva)])])] "201"
      (Obj.keys ms') /\
    keys_kept (child [("card_1", JObj [("Monday", JObj [("09:00", dr_silva)])])] "201")
      "Friday" (Obj.keys (child ms' "201")) /\
    keys_kept
      (child (child [("card_1", JObj [("Monday", JObj [("09:00", dr_silva)])])] "201")
         "Friday")
      "10:00" (Obj.keys (child (child ms' "201") "Friday")) /\
    (forall o, o <> "201" ->
       Obj.get ms' o
       = option_map stringified
           (Obj.get [("card_1", JObj [("Monday", JObj [("09:00", dr_silva)])])] o)) /\
    (forall dy, dy <> "Friday" ->
       Obj.get (child ms' "201") dy
       = option_map stringified
           (Obj.get
              (child [("card_1", JObj [("Monday", JObj [("09:00", dr_silva)])])] "201")
              dy)) /\
    (forall t, t <> "10:00" ->
       Obj.get (child (child ms' "201") "Friday") t
       = option_map stringified
           (Obj.get
              (child
                 (child [("card_1", JObj [("Monday", JObj [("09:00", dr_silva)])])] "201")
                 "Friday")
              t)).
Proof.
  apply (set_slot_keeps_key_order "t2" "t3" monday_disk
           [("card_1", JObj [("Monday", JObj [("09:00", dr_silva)])])]
           "201" "Friday" "10:00" ana);
    try reflexivity; try discriminate.
  now apply loads_persisted.
Defined.

(** An office whose id is an array index is listed before the offices that
    were there, which keep their order. *)
Example array_index_office_goes_first :
  exists after,
    post_schedule "t3" two_offices_disk (Some "7") (Some "Monday") (Some "09:00") (Some ana)
      = Replied (OK (Some ana)) after /\
    option_map (fun v => match v with JObj ms => Obj.keys ms | _ => [] end)
      (schedule_data (get_schedule "t4" after))
    = Some ["7"; "201"; "card_1"].
Proof. eexists. split; reflexivity. Qed.

(** ** The search and the stored assignments *)

Lemma distinct_get {A} (o : Obj.t A) k a :
  distinct (Obj.keys o) = true -> In (k, a) o -> Obj.get o k = Some a.
Proof.
  induction o as [|[k0 a0] rest IH]; simpl; [tauto|].
  intros H. apply andb_true_iff in H as [Hk Hrest].
  intros [[= -> ->]|Hin].
  - now rewrite String.eqb_refl.
  - destruct (String.eqb_spec k k0) as [->|Hne]; [|auto].
    exfalso. apply negb_true_iff in Hk.
    apply (distinct_not_in _ _ Hk). change k0 with (fst (k0, a)).
    now apply in_map.
Qed.

Lemma searchable_scannable ms : searchable ms = true -> scannable ms = true.
Proof.
  unfold searchable, scannable. intros H. apply andb_true_iff in H as [Hd Hall].
  rewrite Hd. simpl. rewrite forallb_forall in Hall |- *.
  intros [officeId v] Hin. specialize (Hall _ Hin).
  destruct v as [| | | | |days]; try discriminate.
  cbn [snd office_searchable office_scannable] in Hall |- *.
  apply andb_true_iff in Hall as [Hdd Hdays]. rewrite Hdd. simpl.
  rewrite forallb_forall in Hdays |- *.
  intros [day w] Hin'. specialize (Hdays _ Hin').
  destruct w as [| | | | |slots]; try discriminate.
  cbn [snd day_searchable day_scannable] in Hdays |- *.
  now apply andb_true_iff in Hdays as [Hds _].
Qed.

(** The scan meets exactly the assignments GetAll shows, each at its
    address. *)
Lemma occurrences_stored ms officeId day timeSlot doctor :
  scannable ms = true ->
  In (officeId, day, timeSlot, doctor) (occurrences ms)
  <-> assignment_at (Some (JObj ms)) officeId day timeSlot = Some doctor.
Proof.
  intros H. apply andb_true_iff in H as [Hd Hall]. rewrite forallb_forall in Hall.
  unfold occurrences, assignment_at. simpl. split.
  - intros Hin. apply in_flat_map in Hin as [[o v] [Ho Hin]].
    specialize (Hall _ Ho). simpl in Hall, Hin.
    destruct v as [| | | | |days]; try discriminate.
    apply andb_true_iff in Hall as [Hdd Hdays]. rewrite forallb_forall in Hdays.
    apply in_flat_map in Hin as [[dy w] [Hdy Hin]].
    specialize (Hdays _ Hdy). simpl in Hdays, Hin.
    destruct w as [| | | | |slots]; try discriminate.
    apply in_map_iff in Hin as [[t a] [[= <- <- <- <-] Hs]].
    rewrite (distinct_get ms o (JObj days) Hd Ho). simpl.
    rewrite (distinct_get days dy (JObj slots) Hdd Hdy). simpl.
    exact (distinct_get slots t a Hdays Hs).
  - destruct (Obj.get ms officeId) as [v|] eqn:Ho; [|discriminate].
    apply ObjFacts.get_in in Ho. specialize (Hall _ Ho). simpl in Hall.
    destruct v as [| | | | |days]; try discriminate. simpl.
    apply andb_true_iff in Hall as [Hdd Hdays]. rewrite forallb_forall in Hdays.
    destruct (Obj.get days day) as [w|] eqn:Hdy; [|discriminate].
    apply ObjFacts.get_in in Hdy. specialize (Hdays _ Hdy). simpl in Hdays.
    destruct w as [| | | | |slots]; try discriminate. simpl.
    intros Ht. apply ObjFacts.get_in in Ht.
    apply in_flat_map. exists (officeId, JObj days). split; [exact Ho|]. simpl.
    apply in_flat_map. exists (day, JObj slots). split; [exact Hdy|]. simpl.
    apply in_map_iff. exists (timeSlot, doctor). auto.
Qed.

Lemma name_of_field officeId day timeSlot doctor n :
  name_of (officeId, day, timeSlot, doctor) = Some n
  <-> field doctor "name" = Some (JStr n).
Proof.
  simpl. destruct (field doctor "name") as [[| | |s| |]|]; split; congruence.
Qed.

Section SearchAndStore.

Variable toLowerCase : string -> string.

Lemma hit_true query n occ :
  hit toLowerCase query n occ = true
  <-> name_of occ = Some n /\ matches toLowerCase query n = true.
Proof.
  unfold hit. destruct (name_of occ) as [n'|].
  - rewrite andb_true_iff, String.eqb_eq. split.
    + intros [-> H]. auto.
    + intros [[= ->] H]. auto.
  - split; [discriminate | intros [H _]; discriminate].
Qed.

Lemma search_scans now d query doc ms :
  2 <= String.length query ->
  readData now d = Returned doc ->
  field doc "medicalSchedule" = Some (JObj ms) ->
  get_search_doctor toLowerCase now d (Some query) =
    match scan toLowerCase query (Some (JObj ms)) [] with
    | Done foundDoctors => Replied (OK (Grouped (Obj.map sent_found foundDoctors))) d
    | Throws => Replied InternalError d
    | Leaves _ | Unmodelled => NotModelled
    end.
Proof.
  intros Hlen Hread Hms. unfold get_search_doctor.
  rewrite (long_guard query Hlen), Hread.
  assert (Hm : member doc "medicalSchedule" = Returned (Some (JObj ms))).
  { destruct doc; simpl in Hms |- *; try discriminate. now rewrite Hms. }
  now rewrite Hm.
Qed.

Lemma search_found now d query doc ms :
  2 <= String.length query ->
  readData now d = Returned doc ->
  field doc "medicalSchedule" = Some (JObj ms) ->
  searchable ms = true ->
  exists foundDoctors,
    get_search_doctor toLowerCase now d (Some query)
      = Replied (OK (Grouped (Obj.map sent_found foundDoctors))) d /\
    groups_of toLowerCase query (occurrences ms) foundDoctors.
Proof.
  intros Hlen Hread Hms Hok.
  destruct (visit_all_groups toLowerCase query (occurrences ms)
              (occurrences_readable ms Hok) [] [])
    as [foundDoctors [Hscan Hgroups]].
  { split; [constructor | reflexivity]. }
  exists foundDoctors. split; [|exact Hgroups].
  rewrite (search_scans now d query doc ms Hlen Hread Hms).
  now rewrite (scan_occurrences toLowerCase query ms [] Hok), Hscan.
Qed.

(** The search and GetAll agree. A name is a key of the reply exactly when
    some assignment GetAll shows carries that name and the name contains
    the query; every entry under a name is the address of an assignment
    GetAll shows with that name; and when no stored name contains the
    query, the reply is the empty object. *)
Theorem search_agrees_with_get_all (now : string) (d : disk) (query : string)
    (doc : json) (ms : Obj.t json) :
  2 <= String.length query ->
  readData now d = Returned doc ->
  field doc "medicalSchedule" = Some (JObj ms) ->
  searchable ms = true ->
  exists foundDoctors,
    get_search_doctor toLowerCase now d (Some query)
      = Replied (OK (Grouped foundDoctors)) d /\
    (forall n,
       Obj.has foundDoctors n = true
       <-> exists o dy t a,
             assignment_at (Some (JObj ms)) o dy t = Some a /\
             field a "name" = Some (JStr n) /\
             matches toLowerCase query n = true) /\
    (forall n g e,
       Obj.get foundDoctors n = Some g -> In e (schedules g) ->
       exists a,
         assignment_at (Some (JObj ms)) (office e) (day e) (time e) = Some a /\
         field a "name" = Some (JStr n)) /\
    ((forall o dy t a n,
        assignment_at (Some (JObj ms)) o dy t = Some a ->
        field a "name" = Some (JStr n) ->
        matches toLowerCase query n = false) ->
     foundDoctors = []).
Proof.
  intros Hlen Hread Hms Hok.
  destruct (search_found now d query doc ms Hlen Hread Hms Hok)
    as [foundDoctors [Hreply [_ Hget]]].
  pose proof (searchable_scannable ms Hok) as Hscan.
  assert (Hhas : forall n,
    Obj.has (Obj.map sent_found foundDoctors) n = true
    <-> exists o dy t a,
          assignment_at (Some (JObj ms)) o dy t = Some a /\
          field a "name" = Some (JStr n) /\
          matches toLowerCase query n = true).
  { intros n. rewrite has_map. unfold Obj.has. rewrite Hget. unfold group. split.
    - destruct (filter (hit toLowerCase query n) (occurrences ms))
        as [|[[[o dy] t] a] rest] eqn:Hf; [discriminate|]. intros _.
      assert (Hin : In (o, dy, t, a) (filter (hit toLowerCase query n) (occurrences ms)))
        by (rewrite Hf; now left).
      apply filter_In in Hin as [Hin Hhit]. apply hit_true in Hhit as [Hname Hm].
      exists o, dy, t, a. split; [now apply occurrences_stored|].
      split; [now apply name_of_field in Hname | exact Hm].
    - intros [o [dy [t [a [Hat [Hname Hm]]]]]].
      assert (Hin : In (o, dy, t, a) (filter (hit toLowerCase query n) (occurrences ms))).
      { apply filter_In. split; [now apply occurrences_stored|].
        apply hit_true. split; [now apply name_of_field | exact Hm]. }
      destruct (filter (hit toLowerCase query n) (occurrences ms)); [destruct Hin|].
      reflexivity. }
  exists (Obj.map sent_found foundDoctors).
  split; [exact Hreply|]. split; [exact Hhas|]. split.
  - intros n g e Hg He. rewrite get_map, Hget in Hg. unfold group in Hg.
    destruct (filter (hit toLowerCase query n) (occurrences ms)) as [|first rest] eqn:Hf;
      [discriminate|].
    cbn [option_map] in Hg. injection Hg as <-. cbn [schedules sent_found] in He.
    change (In e (map sent_entry (map entry_of (first :: rest)))) in He.
    rewrite <- Hf in He.
    apply in_map_iff in He as [e0 [<- He]].
    apply in_map_iff in He as [[[[o dy] t] a] [<- Hin]].
    apply filter_In in Hin as [Hin Hhit]. apply hit_true in Hhit as [Hname _].
    exists a. simpl. split; [now apply occurrences_stored|].
    now apply name_of_field in Hname.
  - intros Hnone. destruct foundDoctors as [|[n g] rest]; [reflexivity|].
    assert (Hn : Obj.has (Obj.map sent_found ((n, g) :: rest)) n = true)
      by (unfold Obj.has; simpl; now rewrite String.eqb_refl).
    apply Hhas in Hn as [o [dy [t [a [Hat [Hname Hm]]]]]].
    rewrite (Hnone o dy t a n Hat Hname) in Hm. discriminate.
Qed.

End SearchAndStore.

Lemma search_agrees_with_get_all_witness :
  exists foundDoctors,
    get_search_doctor lower "t2" monday_disk (Some "SILVA")
      = Replied (OK (Grouped foundDoctors)) monday_disk /\
    (forall n,
       Obj.has foundDoctors n = true
       <-> exists o dy t a,
             assignment_at
               (Some (JObj [("card_1", JObj [("Monday", JObj [("09:00", dr_silva)])])]))
               o dy t = Some a /\
             field a "name" = Some (JStr n) /\
             matches lower "SILVA" n = true) /\
    (forall n g e,
       Obj.get foundDoctors n = Some g -> In e (schedules g) ->
       exists a,
         assignment_at
           (Some (JObj [("card_1", JObj [("Monday", JObj [("09:00", dr_silva)])])]))
           (office e) (day e) (time e) = Some a /\
         field a "name" = Some (JStr n)) /\
    ((forall o dy t a n,
        assignment_at
          (Some (JObj [("card_1", JObj [("Monday", JObj [("09:00", dr_silva)])])]))
          o dy t = Some a ->
        field a "name" = Some (JStr n) ->
        matches lower "SILVA" n = false) ->
     foundDoctors = []).
Proof.
  apply (search_agrees_with_get_all lower "t2" monday_disk "SILVA"
           (JObj [("medicalSchedule",
                   JObj [("card_1", JObj [("Monday", JObj [("09:00", dr_silva)])])]);
                  ("lastUpdated", JStr "t1")])
           [("card_1", JObj [("Monday", JObj [("09:00", dr_silva)])])]);
    [simpl; lia | reflexivity | reflexivity | reflexivity].
Defined.

(** ** Searches that fail *)

Lemma each_throws {K S} (inv : S -> Prop) (ks : list K) (f : K -> S -> run S)
    (bad : K) (s : S) :
  inv s ->
  (forall k s', inv s' -> f k s' = Throws \/ exists s'', f k s' = Done s'' /\ inv s'') ->
  (forall s', inv s' -> f bad s' = Throws) ->
  In bad ks ->
  each ks f s = Throws.
Proof.
  intros Hs Hstep Hbad. revert s Hs.
  induction ks as [|k rest IH]; intros s Hs Hin; [destruct Hin|]. simpl.
  destruct Hin as [->|Hin].
  - now rewrite (Hbad s Hs).
  - destruct (Hstep k s Hs) as [->|[s'' [-> Hs'']]]; [reflexivity|].
    now apply IH.
Qed.

Section SearchFailures.

Variable toLowerCase : string -> string.

Lemma visit_keeps_plain_groups query occ foundDoctors :
  plain_groups foundDoctors ->
  visit_occurrence toLowerCase query occ foundDoctors = Throws
  \/ exists foundDoctors',
       visit_occurrence toLowerCase query occ foundDoctors = Done foundDoctors'
       /\ plain_groups foundDoctors'.
Proof.
  destruct occ as [[[officeId day] time] doctor]. intros Hplain. simpl.
  destruct doctor as [|b|z|s|items|props]; simpl; eauto.
  destruct (Obj.get props "name") as [[|b|z|name|items|ps]|]; simpl; eauto.
  - destruct b; eauto.
  - destruct (negb (z =? 0)%Z); eauto.
  - destruct (matches toLowerCase query name); [|eauto].
    unfold lookup. destruct (Obj.get foundDoctors name) as [g|] eqn:Hg.
    + right. eexists. split; [reflexivity|].
      intros n Hn. rewrite get_push.
      destruct (String.eqb_spec name n) as [->|Hne]; [|now apply Hplain].
      rewrite (Hplain n Hn) in Hg. discriminate.
    + destruct (inherited name) eqn:Hname; [now left|].
      right. eexists. split; [reflexivity|].
      intros n Hn. rewrite get_push.
      destruct (String.eqb_spec name n) as [->|Hne]; [congruence|].
      rewrite ObjFacts.get_assign_other by exact Hne. now apply Hplain.
Qed.

Lemma visit_poison query officeId day time doctor foundDoctors :
  poison toLowerCase query doctor = true ->
  plain_groups foundDoctors ->
  visit_occurrence toLowerCase query (officeId, day, time, doctor) foundDoctors = Throws.
Proof.
  intros Hp Hplain. simpl.
  destruct doctor as [|b|z|s|items|props]; simpl in Hp |- *; try discriminate;
    try reflexivity.
  destruct (Obj.get props "name") as [[|b|z|name|items|ps]|]; simpl in Hp |- *;
    try discriminate; try reflexivity; try (now rewrite Hp).
  apply andb_true_iff in Hp as [Hm Hname]. rewrite Hm.
  unfold lookup. now rewrite (Hplain name Hname), Hname.
Qed.

Lemma scan_day_scannable query officeId day v foundDoctors :
  day_scannable v = true ->
  scan_day toLowerCase query officeId day (Some v) foundDoctors
  = each match v with
         | JObj slots => map (fun s => (officeId, day, fst s, snd s)) slots
         | _ => []
         end
      (visit_occurrence toLowerCase query) foundDoctors.
Proof.
  destruct v as [| | | | |slots]; simpl; try discriminate.
  intros Hd. unfold scan_day. simpl.
  rewrite (each_keys slots
             (fun time doctor fd => visit toLowerCase query officeId day time doctor fd)
             foundDoctors Hd).
  now rewrite each_map.
Qed.

Lemma scan_office_scannable query officeId v foundDoctors :
  office_scannable v = true ->
  scan_office toLowerCase query officeId (Some v) foundDoctors
  = each match v with
         | JObj days =>
             flat_map (fun d =>
               match snd d with
               | JObj slots => map (fun s => (officeId, fst d, fst s, snd s)) slots
               | _ => []
               end) days
         | _ => []
         end
      (visit_occurrence toLowerCase query) foundDoctors.
Proof.
  destruct v as [| | | | |days]; simpl; try discriminate.
  intros H. apply andb_true_iff in H as [Hd Hall].
  unfold scan_office. simpl.
  rewrite (each_keys days
             (fun day slots fd => scan_day toLowerCase query officeId day slots fd)
             foundDoctors Hd).
  rewrite <- each_flat_map.
  apply each_ext. intros [day v] fd Hin. simpl.
  rewrite forallb_forall in Hall.
  apply scan_day_scannable. exact (Hall _ Hin).
Qed.

Lemma scan_scannable query ms foundDoctors :
  scannable ms = true ->
  scan toLowerCase query (Some (JObj ms)) foundDoctors
  = each (occurrences ms) (visit_occurrence toLowerCase query) foundDoctors.
Proof.
  intros H. apply andb_true_iff in H as [Hd Hall].
  unfold scan, occurrences. simpl.
  rewrite (each_keys ms
             (fun officeId office fd => scan_office toLowerCase query officeId office fd)
             foundDoctors Hd).
  rewrite <- each_flat_map.
  apply each_ext. intros [officeId v] fd Hin. simpl.
  rewrite forallb_forall in Hall.
  apply scan_office_scannable. exact (Hall _ Hin).
Qed.

(** One stored assignment is enough to make a search fail: when the
    schedule holds an assignment that is [null], or whose [name] is truthy
    and no string (SetSlot accepts such an assignment), every search of two
    characters or more answers 500; when it holds one whose name is a name
    of [Object.prototype], every search that name contains answers 500. *)
Theorem search_fails_on_one_assignment (now : string) (d : disk) (query : string)
    (doc : json) (ms : Obj.t json) (officeId day timeSlot : string) (doctor : json) :
  2 <= String.length query ->
  readData now d = Returned doc ->
  field doc "medicalSchedule" = Some (JObj ms) ->
  scannable ms = true ->
  assignment_at (Some (JObj ms)) officeId day timeSlot = Some doctor ->
  poison toLowerCase query doctor = true ->
  get_search_doctor toLowerCase now d (Some query) = Replied InternalError d.
Proof.
  intros Hlen Hread Hms Hscan Hat Hp.
  rewrite (search_scans toLowerCase now d query doc ms Hlen Hread Hms).
  rewrite (scan_scannable query ms [] Hscan).
  rewrite (each_throws plain_groups (occurrences ms)
             (visit_occurrence toLowerCase query)
             (officeId, day, timeSlot, doctor) []).
  - reflexivity.
  - intros n _. reflexivity.
  - intros occ g Hg. now apply visit_keeps_plain_groups.
  - intros g Hg. now apply visit_poison.
  - now apply occurrences_stored.
Qed.

End SearchFailures.

Lemma search_fails_on_one_assignment_witness :
  post_schedule "t1" fresh_disk (Some "card_1") (Some "Monday") (Some "09:00")
    (Some (JObj [("name", JNum 5)]))
  = Replied (OK (Some (JObj [("name", JNum 5)]))) numbered_disk
  /\ get_search_doctor lower "t2" numbered_disk (Some "an")
     = Replied InternalError numbered_disk.
Proof.
  split; [reflexivity|].
  apply (search_fails_on_one_assignment lower "t2" numbered_disk "an"
           (JObj [("medicalSchedule",
                   JObj [("card_1",
                          JObj [("Monday", JObj [("09:00", JObj [("name", JNum 5)])])])]);
                  ("lastUpdated", JStr "t1")])
           [("card_1", JObj [("Monday", JObj [("09:00", JObj [("name", JNum 5)])])])]
           "card_1" "Monday" "09:00" (JObj [("name", JNum 5)]));
    [simpl; lia | reflexivity | reflexivity | reflexivity | reflexivity | reflexivity].
Defined.

(** ** The query in lower case *)

Section QueryCase.

Variable toLowerCase : string -> string.
Variables query query' : string.
Hypothesis same_lower : toLowerCase query = toLowerCase query'.

Lemma matches_same_lower name :
  matches toLowerCase query name = matches toLowerCase query' name.
Proof. unfold matches. now rewrite same_lower. Qed.

Lemma visit_same_lower officeId day time doctor foundDoctors :
  visit toLowerCase query officeId day time doctor foundDoctors
  = visit toLowerCase query' officeId day time doctor foundDoctors.
Proof.
  unfold visit. destruct doctor as [[| | | | |props]|]; try reflexivity.
  destruct (field (JObj props) "name") as [[| | |name| |]|]; try reflexivity.
  now rewrite matches_same_lower.
Qed.

Lemma scan_same_lower ms foundDoctors :
  scan toLowerCase query ms foundDoctors = scan toLowerCase query' ms foundDoctors.
Proof.
  unfold scan. destruct (for_in ms); try reflexivity.
  apply each_ext. intros officeId fd _.
  unfold scan_office. destruct (for_in (at_key ms officeId)); try reflexivity.
  apply each_ext. intros day fd' _.
  unfold scan_day. destruct (for_in (at_key (at_key ms officeId) day)); try reflexivity.
  apply each_ext. intros time fd'' _.
  apply visit_same_lower.
Qed.

End QueryCase.

(** The search does not tell apart two queries of two characters or more
    that are the same in lower case: on every file it answers both alike. *)
Theorem search_ignores_query_case (toLowerCase : string -> string) (now : string)
    (d : disk) (query query' : string) :
  toLowerCase query = toLowerCase query' ->
  2 <= String.length query -> 2 <= String.length query' ->
  get_search_doctor toLowerCase now d (Some query)
  = get_search_doctor toLowerCase now d (Some query').
Proof.
  intros Hsame Hlen Hlen'. unfold get_search_doctor.
  rewrite (long_guard query Hlen), (long_guard query' Hlen').
  destruct (readData now d) as [doc|]; [|reflexivity].
  destruct (member doc "medicalSchedule") as [ms|]; [|reflexivity].
  now rewrite (scan_same_lower toLowerCase query query' Hsame).
Qed.

Lemma search_ignores_query_case_witness :
  get_search_doctor lower "t2" monday_disk (Some "SiLvA")
  = get_search_doctor lower "t2" monday_disk (Some "silva").
Proof.
  apply (search_ignores_query_case lower "t2" monday_disk "SiLvA" "silva");
    [reflexivity | simpl; lia | simpl; lia].
Defined.

(** ** Keys that name a property of [Object.prototype] *)

Lemma replace_same_object ms officeId office :
  Obj.get ms officeId = Some (JObj office) ->
  Obj.replace ms officeId (JObj office) = ms.
Proof. apply replace_same_value. Qed.

(** DeleteSlot on a time slot that names a property of [Object.prototype]
    and is not stored, under a day that holds other time slots, answers
    200: it removes nothing and writes the schedule back, as
    [JSON.stringify] writes it, with a new [lastUpdated]. *)
Theorem delete_slot_on_inherited_name (now now' : string) (d : disk)
    (ms office slots : Obj.t json) (officeId day timeSlot : string) :
  loads d ms ->
  writable d = true ->
  Obj.get ms officeId = Some (JObj office) ->
  Obj.get office day = Some (JObj slots) ->
  slots <> [] ->
  inherited timeSlot = true ->
  Obj.get slots timeSlot = None ->
  exists after,
    delete_schedule now d officeId day timeSlot = Replied (OK tt) after /\
    get_schedule now' after
      = Replied
          (OK {| data := Some (JObj (Obj.map stringified ms));
                 lastUpdated := Some (JStr now) |}) after.
Proof.
  intros Hl Hw Ho Hd Hne Hit Ht.
  destruct (Hl now) as [props [Hr Hg]].
  exists (saved now props ms).
  split; [|eapply get_schedule_saved; exact Hg].
  rewrite (delete_schedule_read now d props ms officeId day timeSlot Hr Hg).
  unfold remove_slot.
  rewrite (lookup_own _ _ _ Ho), (lookup_own _ _ _ Hd).
  unfold lookup. rewrite Ht, Hit. simpl.
  rewrite (ObjFacts.delete_absent slots timeSlot Ht).
  destruct slots as [|[k a] rest]; [contradiction|]. simpl Obj.keys. cbv iota.
  rewrite (replace_same_value office day _ Hd).
  now rewrite (replace_same_object ms officeId office Ho), Hw.
Qed.

Lemma delete_slot_on_inherited_name_witness :
  exists after,
    delete_schedule "t2" monday_disk "card_1" "Monday" "toString" = Replied (OK tt) after /\
    get_schedule "t3" after
      = Replied
          (OK {| data :=
                   Some (JObj (Obj.map stringified
                     [("card_1", JObj [("Monday", JObj [("09:00", dr_silva)])])]));
                 lastUpdated := Some (JStr "t2") |}) after.
Proof.
  apply (delete_slot_on_inherited_name "t2" "t3" monday_disk
           [("card_1", JObj [("Monday", JObj [("09:00", dr_silva)])])]
           [("Monday", JObj [("09:00", dr_silva)])]
           [("09:00", dr_silva)]
           "card_1" "Monday" "toString");
    try reflexivity; try discriminate.
  now apply loads_persisted.
Defined.

(** SetSlot on the time slot [__proto__], when the day does not own a
    property of that name, answers 200 and stores nothing: afterwards
    GetAll shows at every address, that one included, what was there
    before, as [JSON.stringify] writes it. *)
Theorem set_slot_on_proto_time_slot (now now' : string) (d : disk) (ms : Obj.t json)
    (officeId day : string) (doctorData : json) :
  loads d ms ->
  schedule_ok ms = true -> writable d = true ->
  officeId <> "" -> day <> "" -> truthy doctorData = true ->
  inherited officeId = false -> inherited day = false ->
  assignment_at (Some (JObj ms)) officeId day "__proto__" = None ->
  exists sent_back after ms',
    post_schedule now d (Some officeId) (Some day) (Some "__proto__") (Some doctorData)
      = Replied (OK (Some sent_back)) after /\
    schedule_data (get_schedule now' after) = Some (JObj ms') /\
    forall o dy t,
      assignment_at (Some (JObj ms')) o dy t
      = option_map stringified (assignment_at (Some (JObj ms)) o dy t).
Proof.
  intros Hl Hok Hw Ho Hd Hdoc Hio Hid Hnone.
  pose proof (schedule_ok_path ms officeId day Hok) as Hpath.
  destruct (Hl now) as [props [Hr Hg]].
  set (ms' := stored ms officeId day "__proto__" doctorData).
  assert (Hhas : Obj.has (child (child ms officeId) day) "__proto__" = false).
  { apply ObjFacts.has_false_get. now rewrite <- assignment_at_child. }
  assert (Hslots : assign (child (child ms officeId) day) "__proto__" doctorData
                   = child (child ms officeId) day).
  { unfold assign. now rewrite Hhas. }
  destruct (stored_children ms officeId day "__proto__" doctorData Hpath Hio Hid)
    as [Hc Hc'].
  assert (Hback : exists sent_back,
    read_back ms' officeId day "__proto__" doctorData = Some sent_back).
  { unfold read_back, ms'.
    rewrite (stored_office ms officeId day "__proto__" doctorData Hpath Hio).
    rewrite (stored_day ms officeId day "__proto__" doctorData Hpath Hid).
    rewrite Hslots. unfold lookup.
    apply ObjFacts.has_false_get in Hhas. rewrite Hhas. simpl.
    destruct doctorData; eauto. }
  destruct Hback as [sent_back Hback].
  exists (stringified sent_back), (saved now props ms'), (Obj.map stringified ms').
  split; [|split].
  - rewrite (post_schedule_read now d props ms officeId day "__proto__" doctorData
               Hr Hg Ho Hd) by (discriminate || assumption).
    rewrite (store_slot_stored ms officeId day "__proto__" doctorData Hpath Hio Hid), Hw.
    fold ms'. now rewrite Hback.
  - exact (schedule_data_saved now now' props ms' _ Hg).
  - intros o dy t. rewrite assignment_at_stringified. f_equal.
    rewrite !assignment_at_child.
    destruct (String.eqb_spec o officeId) as [->|Hno].
    + unfold ms'. rewrite Hc.
      destruct (String.eqb_spec dy day) as [->|Hnd].
      * now rewrite Hc', Hslots.
      * f_equal. unfold child.
        rewrite (stored_other_day ms officeId day "__proto__" doctorData Hpath Hid)
          by congruence.
        reflexivity.
    + f_equal. f_equal. unfold child, ms'.
      rewrite (stored_other_office ms officeId day "__proto__" doctorData Hpath Hio)
        by congruence.
      reflexivity.
Qed.

Lemma set_slot_on_proto_time_slot_witness :
  exists sent_back after ms',
    post_schedule "t2" monday_disk (Some "card_1") (Some "Monday") (Some "__proto__")
      (Some ana) = Replied (OK (Some sent_back)) after /\
    schedule_data (get_schedule "t3" after) = Some (JObj ms') /\
    forall o dy t,
      assignment_at (Some (JObj ms')) o dy t
      = option_map stringified
          (assignment_at
             (Some (JObj [("card_1", JObj [("Monday", JObj [("09:00", dr_silva)])])]))
             o dy t).
Proof.
  apply (set_slot_on_proto_time_slot "t2" "t3" monday_disk
           [("card_1", JObj [("Monday", JObj [("09:00", dr_silva)])])]
           "card_1" "Monday" ana);
    try reflexivity; try discriminate.
  now apply loads_persisted.
Defined.

Lemma inherited_not_listed prefix :
  inherited prefix = true -> Obj.get specialtyMap prefix = None.
Proof.
  unfold inherited. simpl.
  repeat match goal with
         | |- context [prefix =? ?n] =>
             destruct (String.eqb_spec prefix n) as [->|_]; simpl
         end;
    intros H; try reflexivity; discriminate.
Qed.

(** For an office id whose prefix names a property of [Object.prototype]
    ([constructor], [toString], [valueOf], ...), the function returns no
    label: line 251 finds the inherited built-in in the table and returns
    it in place of ['geral']. *)
Theorem specialty_of_inherited_prefix (prefix rest officeId : string) :
  no_separator prefix = true ->
  inherited prefix = true ->
  officeId = prefix \/ officeId = prefix ++ "_" ++ rest ->
  getSpecialtyFromOfficeId officeId = Builtin prefix
  /\ forall s, getSpecialtyFromOfficeId officeId <> Text s.
Proof.
  intros Hsep Hi Hid.
  assert (Hp : first_part officeId = prefix).
  { destruct (first_part_prefix prefix rest Hsep) as [H1 H2].
    destruct Hid as [->| ->]; assumption. }
  assert (E : getSpecialtyFromOfficeId officeId = Builtin prefix).
  { unfold getSpecialtyFromOfficeId. rewrite Hp. unfold lookup.
    now rewrite (inherited_not_listed prefix Hi), Hi. }
  split; [exact E|]. intros s. rewrite E. discriminate.
Qed.

Lemma specialty_of_inherited_prefix_witness :
  getSpecialtyFromOfficeId "toString_3" = Builtin "toString"
  /\ forall s, getSpecialtyFromOfficeId "toString_3" <> Text s.
Proof.
  apply (specialty_of_inherited_prefix "toString" "3" "toString_3");
    [reflexivity | reflexivity | now right].
Defined.
